(** * SAR narrative pipeline: risk scoring, typology detection, template
      retrieval, narrative synthesis, the audit record and the case store.

    A shallow embedding of [llm/templates.py], [llm/pipeline.py],
    [backend/database.py], the handlers of [backend/main.py] and the risk
    bands of [frontend/app.py].

    Conventions of the embedding.
    - A Python [str] is a [string] holding its UTF-8 bytes.  Substring
      search on the bytes agrees with substring search on code points, and
      [len] counts the bytes that start a code point.
    - A Python [int] is a [Z]; SQLite holds the integers of 64 bits.
    - A call that may raise returns an [outcome]; an exception is carried as
      the text [str(e)] that the handlers read.  What a call prints is left
      out.
    - ChromaDB and the Ollama chain are services outside the program: each
      is a record of operations that may raise.  The handler of
      [/generate-sar] is given twice: over a database that is such a record,
      and over the store.
    - The store is the two tables of the SQLite file, threaded through the
      calls of [backend/database.py]; the clock is an argument.
    - Python's [json] module is a record of [dumps] and [loads] with the law
      that reading back what was written gives the dict again. *)

From Stdlib Require Import String Ascii List ZArith Lia Bool.
From Stdlib Require Import DecimalString DecimalZ DecimalPos.
Import ListNotations.

Local Open Scope list_scope.
Local Open Scope string_scope.

(* ================================================================== *)
(** ** Python string primitives *)
(* ================================================================== *)

Module PyStr.

(** The line feed and the double quote. *)
Definition nl : string := String "010" EmptyString.
Definition dq : string := String "034" EmptyString.

(** ["\n".join(ls)]. *)
Definition unlines (ls : list string) : string := String.concat nl ls.

(** [c.lower()] on an ASCII character: the letters A-Z move to a-z. *)
Definition lower_ascii (c : ascii) : ascii :=
  let n := nat_of_ascii c in
  if (65 <=? n)%nat && (n <=? 90)%nat then ascii_of_nat (n + 32) else c.

(** [s.lower()].  Two code points outside ASCII have a lower case with an
    ASCII letter in it: U+212A (Kelvin sign, bytes 226 132 170) gives [k],
    and U+0130 (capital I with dot, bytes 196 176) gives [i] followed by
    U+0307 (bytes 204 135).  Every other code point outside ASCII lowers to
    code points outside ASCII; its bytes are kept as they are, which no
    search for an ASCII keyword can tell apart. *)
Fixpoint lower (s : string) : string :=
  match s with
  | EmptyString => EmptyString
  | String "226" (String "132" (String "170" s')) => String "k" (lower s')
  | String "196" (String "176" s') => String "i" (String "204" (String "135" (lower s')))
  | String c s' => String (lower_ascii c) (lower s')
  end.

(** [s.startswith(p)]. *)
Definition startswith (s p : string) : bool := String.prefix p s.

(** [kw in s]: [kw] occurs in [s] as a contiguous substring. *)
Fixpoint contains (kw s : string) : bool :=
  String.prefix kw s ||
  match s with
  | EmptyString => false
  | String _ s' => contains kw s'
  end.

(** [len(s)]: the number of code points, that is of bytes which are not
    UTF-8 continuation bytes (10xxxxxx). *)
Definition is_continuation (c : ascii) : bool :=
  let n := nat_of_ascii c in (128 <=? n)%nat && (n <? 192)%nat.

Fixpoint len (s : string) : Z :=
  match s with
  | EmptyString => 0
  | String c s' => ((if is_continuation c then 0 else 1) + len s')%Z
  end.

(** [str(n)] for an [int]. *)
Definition str_of_int (n : Z) : string := NilZero.string_of_int (Z.to_int n).

(** [s.split("\n")]. *)
Fixpoint split_lines (s : string) : list string :=
  match s with
  | EmptyString => [EmptyString]
  | String c s' =>
      if Ascii.eqb c "010" then EmptyString :: split_lines s'
      else match split_lines s' with
           | l :: ls => String c l :: ls
           | [] => [String c EmptyString]
           end
  end.

(** [s.rstrip(" ")]. *)
Fixpoint rstrip (s : string) : string :=
  match s with
  | EmptyString => EmptyString
  | String c s' =>
      match rstrip s' with
      | EmptyString => if Ascii.eqb c " " then EmptyString else String c EmptyString
      | r => String c r
      end
  end.

End PyStr.

(* ================================================================== *)
(** ** llm/templates.py: the knowledge base *)
(* ================================================================== *)

Module Templates.
Import PyStr.

(** One entry of [SAR_TEMPLATES]. *)
Record ReferenceTemplate := {
  id : string;
  typology : string;
  title : string;
  template : string
}.

Definition tmpl_001 : ReferenceTemplate :=
  {| id := "tmpl_001";
     typology := "Money Laundering - Layering";
     title := "Multiple Account Aggregation then International Transfer";
     template := unlines
  [ EmptyString;
   "SUBJECT INFORMATION:";
   "The subject, [CUSTOMER NAME], holds account [ACCOUNT NO] opened [DATE].";
   "Customer profile: [OCCUPATION], with an average monthly credit of [AMOUNT].";
   EmptyString;
   "TRANSACTION SUMMARY:";
   "Between [START DATE] and [END DATE], the subject received a total of [AMOUNT]";
   "across [COUNT] inbound transfers from [COUNT] distinct originating accounts.";
   "Subsequently, [AMOUNT] was transferred via SWIFT to [DESTINATION COUNTRY].";
   EmptyString;
   "SUSPICIOUS ACTIVITY DESCRIPTION:";
   "The transaction pattern is inconsistent with the customer's known financial profile.";
   "The aggregation of funds from numerous unrelated sources followed immediately by ";
   "international wire transfer is indicative of layering — a key stage of money laundering";
   "where illicit funds are moved through multiple accounts to obscure their origin.";
   "No legitimate business purpose has been identified to explain this activity.";
   EmptyString;
   "TYPOLOGY MATCH:";
   "This activity is consistent with the FATF money laundering typology:";
   dq ++ "Structuring and layering through multiple accounts with rapid international movement." ++ dq;
   EmptyString;
   "WHY THIS IS SUSPICIOUS:";
   "1. Volume far exceeds customer's stated income or business activity";
   "2. 47 unique senders with no apparent relationship to customer";
   "3. No time gap between receipt and outward remittance (same-day layering)";
   "4. Destination jurisdiction flagged as high-risk by FATF";
   "5. No invoices, contracts, or business rationale provided";
   "        " ] |}.

Definition tmpl_002 : ReferenceTemplate :=
  {| id := "tmpl_002";
     typology := "Structuring / Smurfing";
     title := "Sub-threshold Cash Deposits to Avoid Reporting";
     template := unlines
  [ EmptyString;
   "SUBJECT INFORMATION:";
   "The subject, [CUSTOMER NAME], holds account [ACCOUNT NO].";
   "Customer profile: [OCCUPATION], no prior suspicious activity flagged.";
   EmptyString;
   "TRANSACTION SUMMARY:";
   "Over [TIMEFRAME], the subject made [COUNT] cash deposits ranging from ";
   "[MIN AMOUNT] to [MAX AMOUNT] each, totaling [TOTAL AMOUNT].";
   "Each individual deposit fell below the ₹50,000 mandatory reporting threshold.";
   EmptyString;
   "SUSPICIOUS ACTIVITY DESCRIPTION:";
   "The consistent sub-threshold deposit pattern strongly suggests deliberate structuring";
   "to evade Currency Transaction Report (CTR) requirements. The deposits show a clear";
   "behavioral pattern: amounts are consistently just below the reporting threshold,";
   "deposits occur at irregular intervals designed to avoid detection, and no salary";
   "credit or business receipts account for the cash origin.";
   EmptyString;
   "TYPOLOGY MATCH:";
   "FATF Typology: " ++ dq ++ "Structuring (Smurfing) — deliberate fragmentation of large cash";
   "amounts into sub-threshold transactions to evade mandatory reporting obligations." ++ dq;
   EmptyString;
   "WHY THIS IS SUSPICIOUS:";
   "1. All 9 deposits deliberately below ₹50,000 CTR threshold";
   "2. No salary or business income to explain cash source";
   "3. Pattern of deposits clustered within 72 hours";
   "4. Immediate withdrawal after last deposit";
   "5. Customer could not explain source of funds when contacted";
   "        " ] |}.

Definition tmpl_003 : ReferenceTemplate :=
  {| id := "tmpl_003";
     typology := "Account Takeover Fraud";
     title := "Unauthorized Access Followed by Rapid Fund Transfer";
     template := unlines
  [ EmptyString;
   "SUBJECT INFORMATION:";
   "The subject account [ACCOUNT NO] belongs to [CUSTOMER NAME].";
   "Account holder profile: [AGE], [OCCUPATION], established customer since [YEAR].";
   EmptyString;
   "TRANSACTION SUMMARY:";
   "On [DATE], a login was detected from a new device (Device ID: [DEVICE]) and ";
   "new geographic location ([CITY/COUNTRY]). Within [TIMEFRAME] of login, a ";
   "transfer of [AMOUNT] was initiated to a newly added beneficiary [BENEFICIARY NAME],";
   "a first-time recipient never previously transacted with.";
   EmptyString;
   "SUSPICIOUS ACTIVITY DESCRIPTION:";
   "The sequence of events — new device login, new geography, new beneficiary addition,";
   "and immediate high-value transfer — is strongly consistent with an account takeover";
   "attack. The legitimate account holder confirmed they did not initiate these transactions.";
   "The beneficiary account has since been flagged as a mule account by our fraud team.";
   EmptyString;
   "TYPOLOGY MATCH:";
   "Fraud Typology: " ++ dq ++ "Account Takeover (ATO) — unauthorized access to customer account";
   "using stolen credentials, followed by rapid asset extraction to mule accounts." ++ dq;
   EmptyString;
   "WHY THIS IS SUSPICIOUS:";
   "1. Login from unrecognized device and IP geolocation mismatch";
   "2. New high-value beneficiary added and paid within same session";
   "3. Transaction amount significantly exceeds customer's normal behavior";
   "4. Customer confirmed non-authorization of transaction";
   "5. Receiving account flagged in cross-bank fraud consortium database";
   "        " ] |}.

Definition tmpl_004 : ReferenceTemplate :=
  {| id := "tmpl_004";
     typology := "Trade-Based Money Laundering";
     title := "Over/Under Invoicing in Import-Export Transactions";
     template := unlines
  [ EmptyString;
   "SUBJECT INFORMATION:";
   "The subject, [COMPANY NAME], is a registered importer/exporter, ";
   "account [ACCOUNT NO], in operation since [YEAR].";
   EmptyString;
   "TRANSACTION SUMMARY:";
   "The subject received [COUNT] inward remittances totaling [AMOUNT] from ";
   "[COUNTRY] during [TIMEFRAME], purportedly for goods export.";
   "Corresponding customs declarations show declared export value of [LOWER AMOUNT],";
   "creating an unexplained discrepancy of [DIFFERENCE].";
   EmptyString;
   "SUSPICIOUS ACTIVITY DESCRIPTION:";
   "The significant gap between remittances received and declared customs values ";
   "indicates potential over-invoicing — a trade-based money laundering technique";
   "where the value of goods is deliberately misrepresented to transfer value";
   "across borders and integrate illicit funds into the legitimate financial system.";
   EmptyString;
   "TYPOLOGY MATCH:";
   "FATF Typology: " ++ dq ++ "Trade-Based Money Laundering (TBML) — manipulation of international";
   "trade transactions to transfer value and launder illicit proceeds." ++ dq;
   EmptyString;
   "WHY THIS IS SUSPICIOUS:";
   "1. ₹2.3 crore discrepancy between bank receipts and customs declarations";
   "2. Counterparty located in FATF-listed jurisdiction";
   "3. Goods description vague — " ++ dq ++ "general merchandise" ++ dq ++ " with no HS codes";
   "4. No corresponding import of raw materials for stated manufacturing activity";
   "5. Director of company has prior AML advisory from another bank";
   "        " ] |}.

Definition tmpl_005 : ReferenceTemplate :=
  {| id := "tmpl_005";
     typology := "Terrorist Financing";
     title := "Small Transfers to High-Risk Jurisdiction";
     template := unlines
  [ EmptyString;
   "SUBJECT INFORMATION:";
   "The subject, [CUSTOMER NAME], account [ACCOUNT NO], ";
   "[OCCUPATION], customer since [YEAR].";
   EmptyString;
   "TRANSACTION SUMMARY:";
   "Over [TIMEFRAME], the subject made [COUNT] outward remittances of small amounts";
   "([AMOUNT RANGE] each) totaling [TOTAL] to recipients in [HIGH-RISK COUNTRY].";
   "Recipients appear to be individuals with no known business relationship.";
   EmptyString;
   "SUSPICIOUS ACTIVITY DESCRIPTION:";
   "The pattern of multiple small transfers to a high-risk jurisdiction, combined with";
   "the absence of any legitimate business or family connection, raises concerns of";
   "potential terrorist financing or sanctions evasion. Small amounts are typically";
   "used to avoid detection thresholds while cumulatively moving significant value.";
   EmptyString;
   "TYPOLOGY MATCH:";
   "FATF Typology: " ++ dq ++ "Terrorist Financing — movement of small value funds to high-risk";
   "jurisdictions to support extremist activities while avoiding detection thresholds." ++ dq;
   EmptyString;
   "WHY THIS IS SUSPICIOUS:";
   "1. Recipients located in FATF high-risk and monitored jurisdiction";
   "2. No family or business connection to justify transfers";
   "3. Customer's income does not support frequency of international transfers";
   "4. Amounts designed to stay below SWIFT reporting thresholds";
   "5. Customer became evasive when asked purpose of transfers";
   "        " ] |}.

Definition SAR_TEMPLATES : list ReferenceTemplate :=
  [ tmpl_001; tmpl_002; tmpl_003; tmpl_004; tmpl_005 ].

(** [RISK_KEYWORDS]: the three tiers. *)
Record RiskKeywords := {
  high_risk : list string;
  medium_risk : list string;
  low_risk : list string
}.

Definition RISK_KEYWORDS : RiskKeywords :=
  {| high_risk :=
       [ "offshore"; "shell company"; "cash intensive"; "structuring"; "smurfing";
         "immediately transferred"; "same day"; "high risk jurisdiction"; "fatf";
         "hawala"; "cryptocurrency"; "multiple accounts"; "layering"; "no business purpose";
         "beneficial owner unknown"; "pep"; "politically exposed"; "sanctions" ];
     medium_risk :=
       [ "unusual pattern"; "inconsistent"; "new beneficiary"; "first time";
         "cannot explain"; "no salary"; "bulk transfer"; "round amount";
         "late night transaction"; "multiple devices"; "new location" ];
     low_risk :=
       [ "regular transaction"; "known beneficiary"; "salary credit";
         "utility payment"; "small amount"; "domestic transfer" ] |}.

(** [TYPOLOGY_PATTERNS]: a dict, read in insertion order by [.items()]. *)
Definition TYPOLOGY_PATTERNS : list (string * list string) :=
  [ ("Money Laundering - Layering",
     [ "multiple accounts"; "international transfer"; "same day"; "layering";
       "offshore"; "different sources"; "immediately wired"; "aggregation" ]);
    ("Structuring / Smurfing",
     [ "below threshold"; "cash deposits"; "multiple deposits"; "49000"; "49,000";
       "sub-threshold"; "structured"; "avoid reporting"; "fragmented" ]);
    ("Account Takeover Fraud",
     [ "new device"; "new location"; "new beneficiary"; "unauthorized";
       "unrecognized"; "customer confirmed"; "mule account"; "credential" ]);
    ("Trade-Based Money Laundering",
     [ "invoice"; "import"; "export"; "customs"; "trade"; "discrepancy";
       "over-invoicing"; "under-invoicing"; "goods value" ]);
    ("Terrorist Financing",
     [ "high risk country"; "small transfers"; "sanctioned"; "fatf listed";
       "no business relationship"; "frequent small"; "monitored jurisdiction" ]) ].

End Templates.

(* ================================================================== *)
(** ** Calls that may raise *)
(* ================================================================== *)

Module Exc.

(** The result of a Python call: a value, or an exception [e] given by the
    text of [str(e)]. *)
Inductive outcome (A : Type) : Type :=
| Returns (a : A)
| Raises (e : string).

Arguments Returns {A} a.
Arguments Raises {A} e.

Definition bind {A B : Type} (m : outcome A) (k : A -> outcome B) : outcome B :=
  match m with
  | Returns a => k a
  | Raises e => Raises e
  end.

(** [try: m  except Exception as e: h e]. *)
Definition try_except {A : Type} (m : outcome A) (h : string -> outcome A) : outcome A :=
  match m with
  | Returns a => Returns a
  | Raises e => h e
  end.

(** [l[i]] on a list: [IndexError] out of range. *)
Definition index {A : Type} (l : list A) (i : nat) : outcome A :=
  match nth_error l i with
  | Some a => Returns a
  | None => Raises "list index out of range"
  end.

Definition raised {A : Type} (m : outcome A) : Prop := exists e, m = Raises e.

End Exc.

Notation "x <- m ;; k" := (Exc.bind m (fun x => k))
  (at level 61, m at next level, right associativity).

(* ================================================================== *)
(** ** llm/pipeline.py: risk scoring engine *)
(* ================================================================== *)

Module Scoring.
Import PyStr Templates.

Local Open Scope Z_scope.

(** The three keyword loops of [calculate_risk_score], on the lower-cased
    text. *)
Definition add_if_present (w : Z) (text_lower : string) (score : Z) (kw : string) : Z :=
  if contains (lower kw) text_lower then score + w else score.

Definition sub_if_present (text_lower : string) (score : Z) (kw : string) : Z :=
  if contains (lower kw) text_lower then Z.max 0 (score - 2) else score.

Definition keyword_score (text_lower : string) : Z :=
  let score := 0 in
  let score := fold_left (add_if_present 8 text_lower) (high_risk RISK_KEYWORDS) score in
  let score := fold_left (add_if_present 4 text_lower) (medium_risk RISK_KEYWORDS) score in
  let score := fold_left (sub_if_present text_lower) (low_risk RISK_KEYWORDS) score in
  score.

(** [sum(1 for kw in keywords if kw.lower() in text_lower)]. *)
Definition match_count (text_lower : string) (keywords : list string) : Z :=
  fold_left (fun n kw => if contains (lower kw) text_lower then n + 1 else n) keywords 0.

(** One round of the typology loop on the pair
    [(best_match_count, matched_typology)]. *)
Definition typology_step (text_lower : string) (st : Z * string)
    (item : string * list string) : Z * string :=
  let '(best_match_count, matched_typology) := st in
  let '(typology, keywords) := item in
  let match_count := match_count text_lower keywords in
  if match_count >? best_match_count then (match_count, typology)
  else (best_match_count, matched_typology).

Definition detect_typology (patterns : list (string * list string))
    (text_lower : string) : Z * string :=
  fold_left (typology_step text_lower) patterns (0, "General Suspicious Activity"%string).

(** [calculate_risk_score(transactions, customer_name)]. *)
Definition calculate_risk_score (transactions customer_name : string) : Z * string :=
  let text_lower := lower transactions in
  let score := keyword_score text_lower in
  (* Cap at 100 *)
  let score := Z.min score 100 in
  (* Detect typology *)
  let matched_typology := snd (detect_typology TYPOLOGY_PATTERNS text_lower) in
  (* Minimum score of 30 for any flagged transaction *)
  let score := Z.max score 30 in
  (score, matched_typology).

End Scoring.

(* ================================================================== *)
(** ** llm/pipeline.py: prompt and fallback narrative *)
(* ================================================================== *)

Module Narrative.
Import PyStr.

(** [SAR_PROMPT.format(...)]: the text of [SAR_PROMPT_TEMPLATE] with each
    placeholder replaced by its value. *)
Definition SAR_PROMPT_format (reference_templates customer_name account_number
    typology risk_score transactions : string) : string :=
  unlines
  [ "You are a senior AML (Anti-Money Laundering) compliance officer at a major bank.";
     "Your task is to write a formal, regulator-ready Suspicious Activity Report (SAR) narrative.";
     EmptyString;
     "REFERENCE TEMPLATES (use these as style guides):";
     reference_templates;
     EmptyString;
     "---";
     EmptyString;
     "NOW GENERATE A SAR FOR THIS CASE:";
     EmptyString;
     "CUSTOMER NAME: " ++ customer_name;
     "ACCOUNT NUMBER: " ++ account_number;
     "DETECTED TYPOLOGY: " ++ typology;
     "RISK SCORE: " ++ risk_score ++ "/100";
     EmptyString;
     "TRANSACTION DETAILS:";
     transactions;
     EmptyString;
     "---";
     EmptyString;
     "Write a complete, professional SAR narrative with EXACTLY these sections:";
     EmptyString;
     "## 1. SUBJECT INFORMATION";
     "[Full details about the customer and their normal account profile]";
     EmptyString;
     "## 2. TRANSACTION SUMMARY  ";
     "[Precise summary of suspicious transactions with dates, amounts, and parties involved]";
     EmptyString;
     "## 3. SUSPICIOUS ACTIVITY DESCRIPTION";
     "[Detailed narrative explaining exactly what happened and why it is suspicious]";
     EmptyString;
     "## 4. TYPOLOGY MATCH";
     "[Map this activity to a known financial crime typology with explanation]";
     EmptyString;
     "## 5. RED FLAGS IDENTIFIED";
     "[Numbered list of specific red flags observed in this case]";
     EmptyString;
     "## 6. ANALYST RECOMMENDATION";
     "[Recommended next steps: file SAR / escalate / request documents / freeze account]";
     EmptyString;
     "## 7. AUDIT RATIONALE";
     "[Explain which specific data points influenced this narrative and why]";
     EmptyString;
     "Write in formal regulatory language. Be specific, factual, and unambiguous.";
     "Do NOT include any disclaimers or meta-commentary. Write only the SAR narrative.";
     EmptyString ].

(** The template itself: every placeholder stands for its own name. *)
Definition SAR_PROMPT_TEMPLATE : string :=
  SAR_PROMPT_format "{reference_templates}" "{customer_name}" "{account_number}"
    "{typology}" "{risk_score}" "{transactions}".

(** [generate_fallback_sar]: the f-string, line by line. *)
Definition generate_fallback_sar (customer_name account_number transactions
    typology : string) (risk_score : Z) : string :=
  unlines
  [ "## 1. SUBJECT INFORMATION";
     "Customer Name: " ++ customer_name;
     "Account Number: " ++ account_number;
     "This SAR has been raised based on automated pattern analysis of account activity.";
     "The customer's transaction behaviour has deviated significantly from their established profile.";
     EmptyString;
     "## 2. TRANSACTION SUMMARY";
     "The following suspicious transactions have been identified:";
     transactions;
     EmptyString;
     "## 3. SUSPICIOUS ACTIVITY DESCRIPTION";
     "Analysis of the account activity reveals patterns inconsistent with the customer's ";
     "known financial profile and stated purpose of account. The transaction pattern ";
     "suggests deliberate structuring or layering of funds inconsistent with legitimate ";
     "business or personal activity. The velocity, volume, and nature of transactions ";
     "observed over the reporting period raise significant concerns.";
     EmptyString;
     "## 4. TYPOLOGY MATCH";
     "Detected Typology: " ++ typology;
     "This activity aligns with FATF-recognized money laundering/fraud typologies ";
     "involving layering of funds through multiple transactions to obscure the origin ";
     "of funds and evade detection thresholds.";
     EmptyString;
     "## 5. RED FLAGS IDENTIFIED";
     "1. Transaction pattern inconsistent with customer profile";
     "2. Unusual velocity of transactions detected";
     "3. Transaction amounts and counterparties raise AML concerns";
     "4. No apparent legitimate business purpose identified";
     "5. Pattern matches known financial crime typology: " ++ typology;
     EmptyString;
     "## 6. ANALYST RECOMMENDATION";
     "RECOMMENDED ACTION: File Suspicious Activity Report immediately.";
     "- Escalate to Senior AML Officer for review";
     "- Place account under enhanced monitoring";
     "- Request source of funds documentation from customer";
     "- Cross-reference counterparties against sanctions and PEP lists";
     "- Consider account restriction pending investigation";
     EmptyString;
     "## 7. AUDIT RATIONALE";
     "Risk Score: " ++ str_of_int risk_score ++ "/100";
     "This narrative was generated based on automated transaction pattern analysis.";
     "Key data points: transaction frequency, amount patterns, counterparty diversity,";
     "and geographic risk factors. All source data is preserved in the audit log.";
     "NOTE: This is a system-generated draft. Human analyst review and approval required before filing.";
     EmptyString ].

End Narrative.

(* ================================================================== *)
(** ** The services the pipeline calls *)
(* ================================================================== *)

Module Services.
Import Exc.

(** A metadata dict of ChromaDB: keys and values are strings. *)
Definition metadata := list (string * string).

(** [meta[key]]: [KeyError] when the key is absent. *)
Fixpoint meta_get (meta : metadata) (key : string) : outcome string :=
  match meta with
  | [] => Raises ("'" ++ key ++ "'")
  | (k, v) :: rest => if String.eqb k key then Returns v else meta_get rest key
  end.

(** What [collection.query] returns: one list of documents and one list of
    metadata dicts per query text. *)
Record QueryResult := {
  documents : list (list string);
  metadatas : list (list metadata)
}.

(** The ChromaDB client.  [add] hands back the collection it has updated. *)
Record Chroma := {
  collection : Type;
  get_collection : string -> outcome collection;
  create_collection : string -> metadata -> outcome collection;
  add : collection -> list string -> list metadata -> list string -> outcome collection;
  query : collection -> list string -> nat -> outcome QueryResult
}.

(** The chain [SAR_PROMPT | get_llm() | StrOutputParser()] after the prompt
    is formatted: the model's text, or the exception of a backend that is
    down, times out or fails. *)
Record Llm := {
  invoke : string -> outcome string
}.

End Services.

(* ================================================================== *)
(** ** llm/pipeline.py: retrieval *)
(* ================================================================== *)

Module Retrieval.
Import PyStr Exc Services Templates.

Section WithChroma.
Variable chroma_client : Chroma.

(** The loop of [get_or_create_collection] that loads the templates. *)
Fixpoint load_templates (c : collection chroma_client) (tmpls : list ReferenceTemplate)
    : outcome (collection chroma_client) :=
  match tmpls with
  | [] => Returns c
  | tmpl :: rest =>
      c' <- add chroma_client c
              [template tmpl]
              [[("typology", typology tmpl); ("title", title tmpl); ("id", id tmpl)]]
              [id tmpl] ;;
      load_templates c' rest
  end.

Definition get_or_create_collection : outcome (collection chroma_client) :=
  try_except
    (get_collection chroma_client "sar_templates")
    (fun _ =>
       c <- create_collection chroma_client "sar_templates"
              [("description", "SAR narrative templates for RAG")] ;;
       load_templates c SAR_TEMPLATES).

(** One round of the loop over [enumerate(results["documents"][0])]. *)
Definition reference_entry (results : QueryResult) (i : nat) (doc : string)
    (templates_text : string) : outcome string :=
  metas <- index (metadatas results) 0 ;;
  meta <- index metas i ;;
  ty <- meta_get meta "typology" ;;
  Returns (templates_text ++ nl ++ nl ++ "--- REFERENCE TEMPLATE (" ++ ty ++ ") ---" ++ nl ++ doc).

Fixpoint reference_loop (results : QueryResult) (i : nat) (docs : list string)
    (templates_text : string) : outcome string :=
  match docs with
  | [] => Returns templates_text
  | doc :: rest =>
      templates_text' <- reference_entry results i doc templates_text ;;
      reference_loop results (S i) rest templates_text'
  end.

(** The body of the [try] of [retrieve_relevant_template]. *)
Definition query_templates (transaction_text : string) (n_results : nat) : outcome string :=
  c <- get_or_create_collection ;;
  results <- query chroma_client c [transaction_text]
               (Nat.min n_results (List.length SAR_TEMPLATES)) ;;
  docs <- index (documents results) 0 ;;
  reference_loop results 0 docs EmptyString.

(** [retrieve_relevant_template(transaction_text, n_results)]. *)
Definition retrieve_relevant_template (transaction_text : string) (n_results : nat)
    : outcome string :=
  try_except
    (query_templates transaction_text n_results)
    (fun _ =>
       (* Fallback: return first template *)
       first <- index SAR_TEMPLATES 0 ;;
       Returns (template first)).

End WithChroma.
End Retrieval.

(* ================================================================== *)
(** ** Dicts and Python's [json] module *)
(* ================================================================== *)

Module PyJson.
Import Exc.

(** The values an audit dict holds: an [int], a [str] or a list of [str]. *)
Inductive value : Type :=
| JInt (n : Z)
| JStr (s : string)
| JList (l : list string).

(** A dict with string keys, in insertion order. *)
Definition dict := list (string * value).

(** [d[key]]. *)
Fixpoint dict_get (d : dict) (key : string) : outcome value :=
  match d with
  | [] => Raises ("'" ++ key ++ "'")
  | (k, v) :: rest => if String.eqb k key then Returns v else dict_get rest key
  end.

(** [d[key] = v] on a key that is present: the entry keeps its place. *)
Fixpoint dict_set (d : dict) (key : string) (v : value) : dict :=
  match d with
  | [] => [(key, v)]
  | (k, w) :: rest =>
      if String.eqb k key then (k, v) :: rest else (k, w) :: dict_set rest key v
  end.

(** [d[key].append(x)]: the list held under [key] grows in place. *)
Definition dict_append (d : dict) (key : string) (x : string) : outcome dict :=
  v <- dict_get d key ;;
  match v with
  | JList l => Returns (dict_set d key (JList (l ++ [x])))
  | _ => Raises "object has no attribute 'append'"
  end.

(** The [json] module of the Python standard library, as far as the
    program uses it: [dumps] writes a dict as text, [loads] reads a text
    and raises on one that is no JSON, and reading what was written gives
    the dict back. *)
Record Json := {
  dumps : dict -> string;
  loads : string -> outcome dict;
  loads_dumps : forall d, loads (dumps d) = Returns d
}.

End PyJson.

(* ================================================================== *)
(** ** llm/pipeline.py: the audit record and [generate_sar] *)
(* ================================================================== *)

Module Pipeline.
Import PyStr Exc PyJson Services Templates Scoring Retrieval Narrative.

(** The dict [generate_sar] returns; [audit_data] is the text
    [json.dumps(audit_data, indent=2)]. *)
Record SarResult := {
  narrative : string;
  risk_score : Z;
  typology : string;
  audit_data : string
}.

Section WithServices.
Variable json : Json.
Variable chroma_client : Chroma.
Variable llm : Llm.

(** Step 3 of [generate_sar]: the audit dict as first built. *)
Definition build_audit_data (risk_score : Z) (typology transactions : string) : dict :=
  [ ("risk_score", JInt risk_score);
    ("typology_detected", JStr typology);
    ("rag_templates_used", JList (map Templates.typology (firstn 2 SAR_TEMPLATES)));
    ("transaction_length", JInt (len transactions));
    ("model_used", JStr "llama3.1:8b (local)");
    ("prompt_template", JStr "SAR_PROMPT_V1");
    ("processing_steps",
       JList [ "1. Risk keywords scanned and scored";
               "2. Typology pattern matched";
               "3. ChromaDB queried for relevant SAR templates";
               "4. LangChain prompt assembled with context";
               "5. Ollama LLM generated narrative";
               "6. Narrative stored with full audit trail" ]) ].

(** [generate_sar(transactions, customer_name, account_number)]. *)
Definition generate_sar (transactions customer_name account_number : string)
    : outcome SarResult :=
  (* Step 1: Risk scoring *)
  let '(risk_score, typology) := calculate_risk_score transactions customer_name in
  (* Step 2: RAG - retrieve relevant templates *)
  reference_templates <- retrieve_relevant_template chroma_client transactions 2 ;;
  (* Step 3: Build audit trail of what data was used *)
  let audit_data := build_audit_data risk_score typology transactions in
  (* Step 4: Generate narrative via LLM *)
  generated <-
    try_except
      (narrative <- invoke llm
                      (SAR_PROMPT_format reference_templates customer_name account_number
                         typology (str_of_int risk_score) transactions) ;;
       Returns (narrative, audit_data))
      (fun e =>
         (* Fallback narrative if LLM is unavailable *)
         let narrative :=
           generate_fallback_sar customer_name account_number transactions
             typology risk_score in
         audit_data' <- dict_append audit_data "processing_steps"
                          ("NOTE: LLM unavailable, fallback template used. Error: " ++ e) ;;
         Returns (narrative, audit_data')) ;;
  let '(narrative, audit_data) := generated in
  Returns {| narrative := narrative;
             risk_score := risk_score;
             typology := typology;
             audit_data := dumps json audit_data |}.

End WithServices.
End Pipeline.

(* ================================================================== *)
(** ** backend/main.py: the [/generate-sar] handler *)
(* ================================================================== *)

Module Main.
Import PyStr Exc PyJson Services Pipeline.

(** The request body.  [additional_context] is [Optional[str]]. *)
Record CaseInput := {
  customer_name : string;
  account_number : string;
  transactions : string;
  analyst_name : string;
  additional_context : option string
}.

(** The two calls into [backend/database.py] that the handler makes. *)
Record Database := {
  save_case : forall (customer_name account_number transactions analyst_name : string)
                     (sar_text : string) (risk_score : Z) (typology : string), outcome Z;
  save_audit : forall (case_id : Z) (action analyst detail data_used : string),
                 outcome unit
}.

(** The body of a successful response. *)
Record GenerateResponse := {
  success : bool;
  case_id : Z;
  sar_narrative : string;
  response_risk_score : Z;
  response_typology : string;
  audit_summary : dict
}.

(** What the handler hands to the framework. *)
Inductive http (A : Type) : Type :=
| Ok (body : A)
| HTTPException (status_code : Z) (detail : string).

Arguments Ok {A} body.
Arguments HTTPException {A} status_code detail.

(** The truth value of [case_input.additional_context]. *)
Definition truthy (s : option string) : bool :=
  match s with
  | Some (String _ _) => true
  | _ => false
  end.

Section WithServices.
Variable json : Json.
Variable chroma_client : Chroma.
Variable llm : Llm.
Variable db : Database.

Definition generate_sar_endpoint (case_input : CaseInput) : http GenerateResponse :=
  let attempt :=
    (* Combine transactions with any additional context *)
    let full_transaction_text :=
      if truthy (additional_context case_input)
      then transactions case_input ++ nl ++ nl ++ "ADDITIONAL CONTEXT:" ++ nl ++
           match additional_context case_input with Some c => c | None => EmptyString end
      else transactions case_input in
    (* Generate SAR via LLM pipeline *)
    result <- generate_sar json chroma_client llm full_transaction_text
                (customer_name case_input) (account_number case_input) ;;
    (* Save case to database *)
    case_id <- save_case db (customer_name case_input) (account_number case_input)
                 full_transaction_text (analyst_name case_input)
                 (narrative result) (risk_score result) (typology result) ;;
    (* Save audit trail entry *)
    _ <- save_audit db case_id "SAR_GENERATED" (analyst_name case_input)
           ("SAR generated. Risk Score: " ++ str_of_int (risk_score result) ++
            "/100. Typology: " ++ typology result)
           (audit_data result) ;;
    audit_summary <- loads json (audit_data result) ;;
    Returns {| success := true;
               case_id := case_id;
               sar_narrative := narrative result;
               response_risk_score := risk_score result;
               response_typology := typology result;
               audit_summary := audit_summary |} in
  match attempt with
  | Returns body => Ok body
  | Raises e => HTTPException 500 ("SAR generation failed: " ++ e)
  end.

End WithServices.
End Main.

(* ================================================================== *)
(** ** Section headings of a narrative *)
(* ================================================================== *)

Module Headings.
Import PyStr.

(** A heading line of the Markdown the narrative is rendered as: a line
    that opens with the level-two marker. *)
Definition is_heading (line : string) : bool := startswith line "## ".

(** The headings of a text, top to bottom, trailing blanks dropped. *)
Definition headings (text : string) : list string :=
  map rstrip (filter is_heading (split_lines text)).

End Headings.

(* ================================================================== *)
(** ** backend/database.py: the SQLite store *)
(* ================================================================== *)

Module Database.
Import PyStr Exc.

(** A row of the table [cases].  The columns [approved_at], [approved_by]
    and [edited_narrative] are NULL until the case is approved; every other
    column is written by [save_case]. *)
Record CaseRow := {
  id : Z;
  customer_name : string;
  account_number : string;
  transactions : string;
  sar_narrative : string;
  status : string;
  analyst_name : string;
  created_at : string;
  approved_at : option string;
  approved_by : option string;
  edited_narrative : option string;
  risk_score : Z;
  typology : string
}.

(** A row of the table [audit_log]. *)
Record AuditRow := {
  audit_id : Z;
  case_id : Z;
  action : string;
  analyst : string;
  detail : string;
  timestamp : string;
  data_used : string
}.

(** The two tables the program writes, rows in the order of insertion.
    A call on the store raises in two cases: it is given an [int] that
    SQLite cannot hold, or it inserts into a table that has no row id left.
    Apart from these the file is taken to accept every read and write. *)
Record Db := {
  cases : list CaseRow;
  audit_log : list AuditRow
}.

(** The store after [init_db] on a new file. *)
Definition empty_db : Db := {| cases := []; audit_log := [] |}.

(** SQLite holds an integer in 64 bits, signed. *)
Definition min_int64 : Z := (- 2 ^ 63)%Z.
Definition max_int64 : Z := (2 ^ 63 - 1)%Z.

Definition fits_int64 (n : Z) : bool := ((min_int64 <=? n) && (n <=? max_int64))%Z.

(** The text of the [OverflowError] that [sqlite3] raises when an [int]
    outside that range is bound to a statement, before the statement runs.
    SQLAlchemy passes the error on as it is. *)
Definition int_too_large : string := "Python int too large to convert to SQLite INTEGER".

(** The id an [INTEGER PRIMARY KEY AUTOINCREMENT] column gives the next
    row: one more than the largest id in the table, 1 for an empty table
    (no row is ever deleted). *)
Definition next_id (ids : list Z) : Z := (1 + fold_right Z.max 0 ids)%Z.

(** A table has a row id left when the next one is at most the largest
    integer SQLite holds; with none left SQLite refuses the [INSERT]. *)
Definition has_room (ids : list Z) : bool := (next_id ids <=? max_int64)%Z.

(** [data.get(key, default)] on the dict that [save_case] is given. *)
Fixpoint get (data : list (string * string)) (key default : string) : string :=
  match data with
  | [] => default
  | (k, v) :: rest => if String.eqb k key then v else get rest key default
  end.

Section WithDriver.

(** [operational_error table parameters]: the text of the error that
    SQLAlchemy raises when SQLite refuses an [INSERT] into [table]; it is
    made of the driver's message, the statement and its parameters. *)
Variable operational_error : string -> list string -> string.

(** [save_case(data, sar_text, risk_score, typology)]; [now] is the text of
    [datetime.datetime.now()] at the call.  Returns the store and
    [result.lastrowid]. *)
Definition save_case (db : Db) (now : string) (data : list (string * string))
    (sar_text : string) (risk_score : Z) (typology : string) : Db * outcome Z :=
  let lastrowid := next_id (map id (cases db)) in
  if negb (fits_int64 risk_score) then (db, Raises int_too_large)
  else if negb (has_room (map id (cases db))) then
    (db, Raises (operational_error "cases"
                   [ get data "customer_name" EmptyString;
                     get data "account_number" EmptyString;
                     get data "transactions" EmptyString;
                     sar_text;
                     get data "analyst_name" "Unknown";
                     now;
                     str_of_int risk_score;
                     typology ]))
  else
  ({| cases := cases db ++
               [ {| id := lastrowid;
                    customer_name := get data "customer_name" EmptyString;
                    account_number := get data "account_number" EmptyString;
                    transactions := get data "transactions" EmptyString;
                    sar_narrative := sar_text;
                    status := "DRAFT";
                    analyst_name := get data "analyst_name" "Unknown";
                    created_at := now;
                    approved_at := None;
                    approved_by := None;
                    edited_narrative := None;
                    risk_score := risk_score;
                    typology := typology |} ];
      audit_log := audit_log db |},
   Returns lastrowid).

(** [save_audit(case_id, action, analyst, detail, data_used)]. *)
Definition save_audit (db : Db) (now : string) (case_id : Z)
    (action analyst detail data_used : string) : Db * outcome unit :=
  if negb (fits_int64 case_id) then (db, Raises int_too_large)
  else if negb (has_room (map audit_id (audit_log db))) then
    (db, Raises (operational_error "audit_log"
                   [ str_of_int case_id; action; analyst; detail; now; data_used ]))
  else
  ({| cases := cases db;
      audit_log := audit_log db ++
                   [ {| audit_id := next_id (map audit_id (audit_log db));
                        case_id := case_id;
                        action := action;
                        analyst := analyst;
                        detail := detail;
                        timestamp := now;
                        data_used := data_used |} ] |},
   Returns tt).

End WithDriver.

(** The [UPDATE] of [approve_case] on one row. *)
Definition approve_row (now : string) (case_id : Z) (analyst edited_text : string)
    (row : CaseRow) : CaseRow :=
  if Z.eqb (id row) case_id then
    {| id := id row;
       customer_name := customer_name row;
       account_number := account_number row;
       transactions := transactions row;
       sar_narrative := sar_narrative row;
       status := "APPROVED";
       analyst_name := analyst_name row;
       created_at := created_at row;
       approved_at := Some now;
       approved_by := Some analyst;
       edited_narrative := Some edited_text;
       risk_score := risk_score row;
       typology := typology row |}
  else row.

(** [approve_case(case_id, analyst, edited_text)]. *)
Definition approve_case (db : Db) (now : string) (case_id : Z)
    (analyst edited_text : string) : Db * outcome unit :=
  if negb (fits_int64 case_id) then (db, Raises int_too_large)
  else
  ({| cases := map (approve_row now case_id analyst edited_text) (cases db);
      audit_log := audit_log db |},
   Returns tt).

(** [ORDER BY]: the rows sorted by [le], rows that compare equal left in
    the order of insertion. *)
Fixpoint insert_by {A : Type} (le : A -> A -> bool) (x : A) (l : list A) : list A :=
  match l with
  | [] => [x]
  | y :: rest => if le x y then x :: y :: rest else y :: insert_by le x rest
  end.

Definition order_by {A : Type} (le : A -> A -> bool) (l : list A) : list A :=
  fold_right (insert_by le) [] l.

(** [get_audit_trail(case_id)]: [ORDER BY timestamp ASC], texts compared
    byte by byte. *)
Definition get_audit_trail (db : Db) (case_id' : Z) : outcome (list AuditRow) :=
  if negb (fits_int64 case_id') then Raises int_too_large
  else
  Returns (order_by (fun a b => String.leb (timestamp a) (timestamp b))
             (filter (fun r => Z.eqb (case_id r) case_id') (audit_log db))).

(** [get_case(case_id)]: the first row with the id; [None] stands for the
    empty dict. *)
Definition get_case (db : Db) (case_id : Z) : outcome (option CaseRow) :=
  if negb (fits_int64 case_id) then Raises int_too_large
  else Returns (find (fun r => Z.eqb (id r) case_id) (cases db)).

(** [get_all_cases()]: [ORDER BY created_at DESC]. *)
Definition get_all_cases (db : Db) : list CaseRow :=
  order_by (fun a b => String.leb (created_at b) (created_at a)) (cases db).

(** The dict [get_stats] returns. *)
Record Stats := {
  total_cases : Z;
  approved : Z;
  draft : Z;
  high_risk : Z
}.

Definition count {A : Type} (p : A -> bool) (l : list A) : Z :=
  Z.of_nat (List.length (filter p l)).

(** [get_stats()]. *)
Definition get_stats (db : Db) : Stats :=
  {| total_cases := count (fun _ => true) (cases db);
     approved := count (fun r => String.eqb (status r) "APPROVED") (cases db);
     draft := count (fun r => String.eqb (status r) "DRAFT") (cases db);
     high_risk := count (fun r => Z.leb 70 (risk_score r)) (cases db) |}.

End Database.

(* ================================================================== *)
(** ** backend/main.py: the handlers on the store *)
(* ================================================================== *)

Module Server.
Import PyStr Exc PyJson Services.

(** The store is threaded through each handler; a handler is given the
    readings of the clock that its database calls make, in their order.
    A handler without a [try] lets an exception of the store pass: its
    answer is an [outcome], and the framework answers an exception with
    status 500. *)

(** The dict whose [json.dumps] the approval logs. *)
Record ApprovalAudit := {
  original_narrative_length : Z;
  final_narrative_length : Z;
  edits_made : bool
}.

Record ApprovalInput := {
  approval_case_id : Z;
  approval_analyst_name : string;
  edited_narrative : string
}.

Record RejectInput := {
  reject_case_id : Z;
  reject_analyst_name : string;
  reason : string
}.

(** The body of the answer to an approval or a rejection. *)
Record StatusResponse := {
  success : bool;
  response_case_id : Z;
  response_status : string;
  message : string
}.

Record AuditTrailResponse := {
  trail_case_id : Z;
  total_events : Z;
  audit_trail : list Database.AuditRow
}.

Record AllCasesResponse := {
  total : Z;
  all_cases : list Database.CaseRow
}.

(** The status of the response to a request. *)
Definition status_code {A : Type} (answer : outcome (Main.http A)) : Z :=
  match answer with
  | Returns (Main.Ok _) => 200
  | Returns (Main.HTTPException code _) => code
  | Raises _ => 500
  end.

Section WithServices.
Variable json : Json.
Variable dumps_approval : ApprovalAudit -> string.
Variable operational_error : string -> list string -> string.
Variable chroma_client : Chroma.
Variable llm : Llm.

(** [generate_sar_endpoint]: [now_case] and [now_audit] are the clock at
    [save_case] and at [save_audit]. *)
Definition generate_sar_endpoint (db : Database.Db) (now_case now_audit : string)
    (case_input : Main.CaseInput) : Database.Db * Main.http Main.GenerateResponse :=
  (* Combine transactions with any additional context *)
  let full_transaction_text :=
    if Main.truthy (Main.additional_context case_input)
    then Main.transactions case_input ++ nl ++ nl ++ "ADDITIONAL CONTEXT:" ++ nl ++
         match Main.additional_context case_input with Some c => c | None => EmptyString end
    else Main.transactions case_input in
  (* Generate SAR via LLM pipeline *)
  match Pipeline.generate_sar json chroma_client llm full_transaction_text
          (Main.customer_name case_input) (Main.account_number case_input) with
  | Raises e => (db, Main.HTTPException 500 ("SAR generation failed: " ++ e))
  | Returns result =>
      (* Save case to database *)
      match Database.save_case operational_error db now_case
              [ ("customer_name", Main.customer_name case_input);
                ("account_number", Main.account_number case_input);
                ("transactions", full_transaction_text);
                ("analyst_name", Main.analyst_name case_input) ]
              (Pipeline.narrative result) (Pipeline.risk_score result)
              (Pipeline.typology result) with
      | (db1, Raises e) => (db1, Main.HTTPException 500 ("SAR generation failed: " ++ e))
      | (db1, Returns case_id) =>
          (* Save audit trail entry *)
          match Database.save_audit operational_error db1 now_audit case_id
                  "SAR_GENERATED" (Main.analyst_name case_input)
                  ("SAR generated. Risk Score: " ++
                   str_of_int (Pipeline.risk_score result) ++
                   "/100. Typology: " ++ Pipeline.typology result)
                  (Pipeline.audit_data result) with
          | (db2, Raises e) =>
              (db2, Main.HTTPException 500 ("SAR generation failed: " ++ e))
          | (db2, Returns _) =>
              match loads json (Pipeline.audit_data result) with
              | Raises e =>
                  (db2, Main.HTTPException 500 ("SAR generation failed: " ++ e))
              | Returns audit_summary =>
                  (db2, Main.Ok {| Main.success := true;
                                   Main.case_id := case_id;
                                   Main.sar_narrative := Pipeline.narrative result;
                                   Main.response_risk_score := Pipeline.risk_score result;
                                   Main.response_typology := Pipeline.typology result;
                                   Main.audit_summary := audit_summary |})
              end
          end
      end
  end.

(** [approve_sar_endpoint]: [now_approve] and [now_audit] are the clock at
    [approve_case] and at [save_audit].  The 404 is raised again as it is;
    any other exception is answered with 500 and its text. *)
Definition approve_sar_endpoint (db : Database.Db) (now_approve now_audit : string)
    (approval : ApprovalInput) : Database.Db * Main.http StatusResponse :=
  match Database.get_case db (approval_case_id approval) with
  | Raises e => (db, Main.HTTPException 500 e)
  | Returns None => (db, Main.HTTPException 404 "Case not found")
  | Returns (Some case) =>
      (* Save approved case *)
      match Database.approve_case db now_approve (approval_case_id approval)
              (approval_analyst_name approval) (edited_narrative approval) with
      | (db1, Raises e) => (db1, Main.HTTPException 500 e)
      | (db1, Returns _) =>
          (* Audit log the approval *)
          match Database.save_audit operational_error db1 now_audit
                  (approval_case_id approval) "SAR_APPROVED"
                  (approval_analyst_name approval)
                  "Analyst reviewed and approved SAR for filing."
                  (dumps_approval
                     {| original_narrative_length := len (Database.sar_narrative case);
                        final_narrative_length := len (edited_narrative approval);
                        edits_made :=
                          negb (String.eqb (edited_narrative approval)
                                  (Database.sar_narrative case)) |}) with
          | (db2, Raises e) => (db2, Main.HTTPException 500 e)
          | (db2, Returns _) =>
              (db2, Main.Ok {| success := true;
                               response_case_id := approval_case_id approval;
                               response_status := "APPROVED";
                               message := "SAR approved and ready for regulatory filing." |})
          end
      end
  end.

(** [reject_sar_endpoint]. *)
Definition reject_sar_endpoint (db : Database.Db) (now_audit : string)
    (reject : RejectInput) : Database.Db * Main.http StatusResponse :=
  match Database.save_audit operational_error db now_audit (reject_case_id reject)
          "SAR_REJECTED" (reject_analyst_name reject)
          ("SAR rejected. Reason: " ++ reason reject)
          EmptyString with
  | (db1, Raises e) => (db1, Main.HTTPException 500 e)
  | (db1, Returns _) =>
      (db1, Main.Ok {| success := true;
                       response_case_id := reject_case_id reject;
                       response_status := "REJECTED";
                       message := "SAR sent back for revision." |})
  end.

End WithServices.

(** [get_audit_trail_endpoint]: no [try] around the read. *)
Definition get_audit_trail_endpoint (db : Database.Db) (case_id : Z)
    : outcome (Main.http AuditTrailResponse) :=
  trail <- Database.get_audit_trail db case_id ;;
  match trail with
  | [] => Returns (Main.HTTPException 404 "No audit trail found for this case")
  | _ => Returns (Main.Ok {| trail_case_id := case_id;
                             total_events := Z.of_nat (List.length trail);
                             audit_trail := trail |})
  end.

(** [get_case_endpoint]: no [try] around the read. *)
Definition get_case_endpoint (db : Database.Db) (case_id : Z)
    : outcome (Main.http Database.CaseRow) :=
  case <- Database.get_case db case_id ;;
  match case with
  | None => Returns (Main.HTTPException 404 "Case not found")
  | Some case => Returns (Main.Ok case)
  end.

(** [get_all_cases_endpoint]. *)
Definition get_all_cases_endpoint (db : Database.Db) : AllCasesResponse :=
  let cases := Database.get_all_cases db in
  {| total := Z.of_nat (List.length cases); all_cases := cases |}.

(** [get_stats_endpoint]. *)
Definition get_stats_endpoint (db : Database.Db) : Database.Stats :=
  Database.get_stats db.

End Server.

(* ================================================================== *)
(** ** frontend/app.py: risk bands *)
(* ================================================================== *)

Module Frontend.

Local Open Scope Z_scope.

(** [get_risk_color(score)]: a red, a yellow or a green disc. *)
Definition get_risk_color (score : Z) : string :=
  if score >=? 70 then "🔴"
  else if score >=? 40 then "🟡"
  else "🟢".

(** [get_risk_label(score)]. *)
Definition get_risk_label (score : Z) : string :=
  if score >=? 70 then "HIGH RISK"
  else if score >=? 40 then "MEDIUM RISK"
  else "LOW RISK".

(** The band of the dashboard's pie chart:
    [pd.cut(score, bins=[0, 40, 70, 100], labels=[...])], whose intervals
    are open on the left and closed on the right; a score outside them has
    no band. *)
Definition risk_band (score : Z) : option string :=
  if (0 <? score) && (score <=? 40) then Some "Low (0-40)"%string
  else if (40 <? score) && (score <=? 70) then Some "Medium (40-70)"%string
  else if (70 <? score) && (score <=? 100) then Some "High (70-100)"%string
  else None.

End Frontend.

(* ================================================================== *)
(** ** Properties of the risk scoring engine *)
(* ================================================================== *)

Module ScoringSpec.
Import PyStr Templates Scoring.

Local Open Scope Z_scope.

(** The keyword occurs in the lower-cased text. *)
Definition counts (text_lower : string) (kw : string) : bool :=
  contains (lower kw) text_lower.

(** [label] sits at position [i] of the table with [best] matches, no
    entry has more, and every earlier entry has strictly fewer. *)
Definition first_strict_max (text : string) (ps : list (string * list string))
    (i : nat) (label : string) (best : Z) : Prop :=
  exists kws,
    nth_error ps i = Some (label, kws) /\
    match_count text kws = best /\
    (forall j l k, nth_error ps j = Some (l, k) -> match_count text k <= best) /\
    (forall j l k, (j < i)%nat -> nth_error ps j = Some (l, k) -> match_count text k < best).

(** What the typology loop maintains on the entries it has read. *)
Definition typology_invariant (text : string) (ps : list (string * list string))
    (st : Z * string) : Prop :=
  (fst st = 0 /\ snd st = "General Suspicious Activity"%string /\
   forall j l k, nth_error ps j = Some (l, k) -> match_count text k = 0)
  \/
  (0 < fst st /\ exists i, first_strict_max text ps i (snd st) (fst st)).

(** The labels of the typology table. *)
Definition typology_labels : list string := map fst TYPOLOGY_PATTERNS.

(** *** The score *)

Lemma add_if_present_lower_bound w text score kw :
  0 <= w -> 0 <= score -> 0 <= add_if_present w text score kw.
Proof.
  intros Hw Hs. unfold add_if_present.
  destruct (contains (lower kw) text); lia.
Qed.

Lemma sub_if_present_lower_bound text score kw :
  0 <= score -> 0 <= sub_if_present text score kw.
Proof.
  intros Hs. unfold sub_if_present.
  destruct (contains (lower kw) text); lia.
Qed.

Lemma fold_add_absent w text kws :
  (forall kw, In kw kws -> contains (lower kw) text = false) ->
  forall score, fold_left (add_if_present w text) kws score = score.
Proof.
  induction kws as [|kw kws IH]; intros Habs score; simpl; [reflexivity|].
  unfold add_if_present at 2. rewrite (Habs kw) by (left; reflexivity).
  apply IH. intros k Hk. apply Habs. right. exact Hk.
Qed.

Lemma fold_sub_absent text kws :
  (forall kw, In kw kws -> contains (lower kw) text = false) ->
  forall score, fold_left (sub_if_present text) kws score = score.
Proof.
  induction kws as [|kw kws IH]; intros Habs score; simpl; [reflexivity|].
  unfold sub_if_present at 2. rewrite (Habs kw) by (left; reflexivity).
  apply IH. intros k Hk. apply Habs. right. exact Hk.
Qed.

(** A text that trips no keyword of any tier scores 0 before the floor,
    and so is reported at exactly 30. *)
Lemma score_without_keywords transactions customer_name :
  (forall kw,
     In kw (high_risk RISK_KEYWORDS ++ medium_risk RISK_KEYWORDS ++ low_risk RISK_KEYWORDS)%list ->
     contains (lower kw) (lower transactions) = false) ->
  keyword_score (lower transactions) = 0 /\
  fst (calculate_risk_score transactions customer_name) = 30.
Proof.
  intros Habs.
  assert (H0 : keyword_score (lower transactions) = 0).
  { unfold keyword_score.
    rewrite (fold_add_absent 8), (fold_add_absent 4), fold_sub_absent; [reflexivity| | |];
      intros kw Hkw; apply Habs; rewrite !in_app_iff; auto. }
  split; [exact H0|].
  unfold calculate_risk_score. cbn [fst]. rewrite H0. reflexivity.
Qed.

Example score_of_empty_text :
  calculate_risk_score "" "A. Customer" = (30, "General Suspicious Activity"%string).
Proof. vm_compute. reflexivity. Qed.

Example score_of_low_risk_only :
  calculate_risk_score "Monthly salary credit and one utility payment." "A. Customer"
  = (30, "General Suspicious Activity"%string).
Proof. vm_compute. reflexivity. Qed.

(** C3.  For every transaction text the reported risk score is the capped
    keyword score raised to the floor of 30, whatever the keywords matched:
    it lies in [0,100] and indeed in [30,100]. *)
Theorem risk_score_floor_and_cap :
  forall transactions customer_name : string,
    let score := fst (calculate_risk_score transactions customer_name) in
    score = Z.max (Z.min (keyword_score (lower transactions)) 100) 30 /\
    0 <= score <= 100 /\
    30 <= score <= 100.
Proof.
  intros transactions customer_name. unfold calculate_risk_score. cbn [fst].
  cbv zeta. split; [reflexivity|]. split; lia.
Qed.

(** C9.  The classifier reads the transaction text and the keyword tables
    only: the customer name passed with the text has no influence on the
    pair it returns. *)
Theorem classifier_ignores_customer_name :
  forall transactions customer_name customer_name' : string,
    calculate_risk_score transactions customer_name
    = calculate_risk_score transactions customer_name'.
Proof.
  intros transactions customer_name customer_name'.
  unfold calculate_risk_score. reflexivity.
Qed.

(** *** The typology *)

Lemma match_count_from text keywords :
  forall n,
    fold_left (fun n kw => if contains (lower kw) text then n + 1 else n) keywords n
    = n + Z.of_nat (List.length (filter (counts text) keywords)).
Proof.
  induction keywords as [|kw kws IH]; intros n; simpl.
  - lia.
  - rewrite IH. unfold counts at 2.
    destruct (contains (lower kw) text); simpl List.length; lia.
Qed.

(** [match_count] is the number of keywords of the list that occur in the
    text. *)
Lemma match_count_filter text keywords :
  match_count text keywords = Z.of_nat (List.length (filter (counts text) keywords)).
Proof. unfold match_count. rewrite match_count_from. lia. Qed.

Lemma match_count_nonneg text keywords : 0 <= match_count text keywords.
Proof. rewrite match_count_filter. lia. Qed.

Section Table.
Variable patterns : list (string * list string).
Variable text : string.

Lemma detect_typology_last ps item :
  detect_typology (ps ++ [item]) text = typology_step text (detect_typology ps text) item.
Proof. unfold detect_typology. rewrite fold_left_app. reflexivity. Qed.

Lemma nth_error_last_inv {A} (l : list A) (x y : A) j :
  nth_error (l ++ [x]) j = Some y ->
  ((j < List.length l)%nat /\ nth_error l j = Some y) \/ (j = List.length l /\ y = x).
Proof.
  intros H. destruct (Nat.lt_ge_cases j (List.length l)) as [Hlt|Hge].
  - left. split; [exact Hlt|]. rewrite nth_error_app1 in H by exact Hlt. exact H.
  - right. rewrite nth_error_app2 in H by exact Hge.
    destruct (j - List.length l)%nat as [|d] eqn:Hd; simpl in H.
    + split; [lia | congruence].
    + destruct d; discriminate.
Qed.

Lemma typology_invariant_all_le ps st :
  typology_invariant text ps st ->
  0 <= fst st /\ forall j l k, nth_error ps j = Some (l, k) -> match_count text k <= fst st.
Proof.
  intros [(Hb & _ & Hz) | (Hpos & i & kws & _ & _ & Hmax & _)].
  - split; [lia|]. intros j l k Hj. rewrite (Hz j l k Hj). lia.
  - split; [lia|]. exact Hmax.
Qed.

Lemma typology_step_invariant ps st item :
  typology_invariant text ps st ->
  typology_invariant text (ps ++ [item]) (typology_step text st item).
Proof.
  intros Hinv. destruct (typology_invariant_all_le ps st Hinv) as [Hst Hle].
  destruct st as [best matched]. destruct item as [ty kws].
  cbn [fst snd] in *. unfold typology_step.
  pose proof (match_count_nonneg text kws) as Hc.
  destruct (match_count text kws >? best) eqn:Hgt.
  - (* the new entry takes over *)
    apply Z.gtb_lt in Hgt. right. cbn [fst snd]. split; [lia|].
    exists (List.length ps), kws. repeat split.
    + rewrite nth_error_app2 by lia. rewrite Nat.sub_diag. reflexivity.
    + intros j l k Hj. apply nth_error_last_inv in Hj.
      destruct Hj as [[_ Hj] | [_ Hj]].
      * specialize (Hle j l k Hj). lia.
      * inversion Hj; subst. lia.
    + intros j l k Hlt Hj. rewrite nth_error_app1 in Hj by exact Hlt.
      specialize (Hle j l k Hj). lia.
  - (* the running best stays *)
    assert (Hngt : match_count text kws <= best).
    { destruct (Z.gtb_spec (match_count text kws) best); [discriminate | lia]. }
    destruct Hinv as [(Hb & Hm & Hz) | (Hpos & i & kws0 & Hi & Hbest & Hmax & Hfirst)];
      cbn [fst snd] in *.
    + left. cbn [fst snd]. repeat split; [exact Hb | exact Hm |].
      intros j l k Hj. apply nth_error_last_inv in Hj.
      destruct Hj as [[_ Hj] | [_ Hj]].
      * exact (Hz j l k Hj).
      * inversion Hj; subst. lia.
    + right. cbn [fst snd]. split; [exact Hpos|].
      assert (Hlen : (i < List.length ps)%nat).
      { apply nth_error_Some. rewrite Hi. discriminate. }
      exists i, kws0. repeat split.
      * rewrite nth_error_app1 by exact Hlen. exact Hi.
      * exact Hbest.
      * intros j l k Hj. apply nth_error_last_inv in Hj.
        destruct Hj as [[_ Hj] | [_ Hj]].
        -- exact (Hmax j l k Hj).
        -- inversion Hj; subst. exact Hngt.
      * intros j l k Hlt Hj. rewrite nth_error_app1 in Hj by lia.
        exact (Hfirst j l k Hlt Hj).
Qed.

Lemma detect_typology_invariant :
  typology_invariant text patterns (detect_typology patterns text).
Proof.
  induction patterns as [|item ps IH] using rev_ind.
  - left. cbn. repeat split. intros j l k Hj. destruct j; discriminate.
  - rewrite detect_typology_last. apply typology_step_invariant. exact IH.
Qed.

End Table.

(** The typology of a classification is the default or a label of the
    table. *)
Lemma typology_known_label transactions customer_name :
  In (snd (calculate_risk_score transactions customer_name))
     ("General Suspicious Activity"%string :: typology_labels).
Proof.
  pose proof (detect_typology_invariant TYPOLOGY_PATTERNS (lower transactions)) as Hinv.
  unfold calculate_risk_score. cbn [snd].
  destruct Hinv as [(_ & Hm & _) | (_ & i & kws & Hi & _)].
  - left. symmetry. exact Hm.
  - right. apply nth_error_In in Hi. unfold typology_labels.
    apply (in_map fst) in Hi. exact Hi.
Qed.

(** Two entries with the same count: the earlier one is kept. *)
Example typology_tie_keeps_first :
  snd (calculate_risk_score "invoice, new device" "A. Customer")
  = "Account Takeover Fraud"%string.
Proof. vm_compute. reflexivity. Qed.

End ScoringSpec.

(* ================================================================== *)
(** ** Properties of the fallback narrative *)
(* ================================================================== *)

Module NarrativeSpec.
Import PyStr Narrative Headings.

(** *** Lines of a text *)

(** No line feed occurs in the string. *)
Fixpoint single_line (s : string) : bool :=
  match s with
  | EmptyString => true
  | String c s' => negb (Ascii.eqb c "010") && single_line s'
  end.

(** The headings found after the first line of a text. *)
Definition later_headings (text : string) : list string :=
  map rstrip (filter is_heading (tl (split_lines text))).

(** The two strings differ at a position both have: neither is a prefix of
    an extension of the other. *)
Fixpoint diverges (a b : string) : bool :=
  match a, b with
  | String c a', String d b' => if Ascii.eqb c d then diverges a' b' else true
  | _, _ => false
  end.

(** [small] is [big] with some elements left out, order kept. *)
Inductive Subseq {A : Type} : list A -> list A -> Prop :=
| Subseq_nil : Subseq [] []
| Subseq_skip : forall x small big, Subseq small big -> Subseq small (x :: big)
| Subseq_keep : forall x small big, Subseq small big -> Subseq (x :: small) (x :: big).

Lemma split_lines_nonempty s : split_lines s <> [].
Proof.
  destruct s as [|c s]; simpl; [discriminate|].
  destruct (Ascii.eqb c "010"); [discriminate|].
  destruct (split_lines s); discriminate.
Qed.

Lemma split_lines_cons s : exists l ls, split_lines s = l :: ls.
Proof.
  pose proof (split_lines_nonempty s) as H.
  destruct (split_lines s) as [|l ls]; [contradiction|]. eauto.
Qed.

(** [(a + "\n" + b).split("\n") == a.split("\n") + b.split("\n")]. *)
Lemma split_lines_join a b :
  split_lines (a ++ nl ++ b) = (split_lines a ++ split_lines b)%list.
Proof.
  induction a as [|c a IH].
  - reflexivity.
  - change (String c a ++ nl ++ b) with (String c (a ++ nl ++ b)).
    cbn [split_lines]. rewrite IH.
    destruct (Ascii.eqb c "010"); [reflexivity|].
    destruct (split_lines_cons a) as (l & ls & Ha). rewrite Ha. reflexivity.
Qed.

Lemma split_lines_single s : single_line s = true -> split_lines s = [s].
Proof.
  induction s as [|c s IH]; intros H; [reflexivity|].
  cbn [single_line] in H. apply andb_true_iff in H. destruct H as [Hc Hs].
  cbn [split_lines]. apply negb_true_iff in Hc. rewrite Hc, (IH Hs). reflexivity.
Qed.

(** A prefix without line feed extends the first line only. *)
Lemma split_lines_prefixed p s :
  single_line p = true ->
  split_lines (p ++ s) =
  match split_lines s with
  | l :: ls => (p ++ l) :: ls
  | [] => [p]
  end.
Proof.
  induction p as [|c p IH]; intros H.
  - cbn [append]. destruct (split_lines_cons s) as (l & ls & Hs). rewrite Hs. reflexivity.
  - cbn [single_line] in H. apply andb_true_iff in H. destruct H as [Hc Hp].
    apply negb_true_iff in Hc.
    cbn [append split_lines]. rewrite Hc, (IH Hp).
    destruct (split_lines_cons s) as (l & ls & Hs). rewrite Hs. reflexivity.
Qed.

Lemma single_line_app a b :
  single_line (a ++ b) = single_line a && single_line b.
Proof.
  induction a as [|c a IH]; [reflexivity|].
  cbn [append single_line]. rewrite IH. apply andb_assoc.
Qed.

Lemma diverges_not_prefix a p s :
  diverges a p = true -> String.prefix a (p ++ s) = false.
Proof.
  revert p. induction a as [|c a IH]; intros p H; [discriminate|].
  destruct p as [|d p]; [discriminate|].
  cbn [diverges] in H. cbn [append String.prefix].
  destruct (Ascii.eqb c d) eqn:Hcd.
  - apply Ascii.eqb_eq in Hcd. subst d.
    destruct (ascii_dec c c) as [_|Hne]; [apply IH; exact H | contradiction].
  - apply Ascii.eqb_neq in Hcd.
    destruct (ascii_dec c d) as [Heq|_]; [contradiction | reflexivity].
Qed.

(** *** Headings of a text assembled from lines *)

Lemma headings_join a b :
  headings (a ++ nl ++ b) = (headings a ++ headings b)%list.
Proof.
  unfold headings. rewrite split_lines_join, filter_app, map_app. reflexivity.
Qed.

Lemma headings_unlines l ls :
  headings (unlines (l :: ls)) = flat_map headings (l :: ls).
Proof.
  revert l. induction ls as [|l' ls IH]; intros l.
  - cbn [unlines String.concat flat_map]. rewrite app_nil_r. reflexivity.
  - change (unlines (l :: l' :: ls)) with (l ++ nl ++ unlines (l' :: ls)).
    rewrite headings_join, IH. reflexivity.
Qed.

Lemma headings_first_line text :
  headings text =
  (match split_lines text with
   | l :: _ => if is_heading l then [rstrip l] else []
   | [] => []
   end ++ later_headings text)%list.
Proof.
  unfold headings, later_headings.
  destruct (split_lines text) as [|l ls]; [reflexivity|].
  cbn [filter tl]. destruct (is_heading l); reflexivity.
Qed.

(** A field written after a label that is no heading marker: its first
    line cannot be a heading, its later lines keep theirs. *)
Lemma headings_labelled label field :
  single_line label = true ->
  diverges "## " label = true ->
  headings (label ++ field) = later_headings field.
Proof.
  intros Hsingle Hdiv.
  rewrite headings_first_line. unfold later_headings.
  rewrite (split_lines_prefixed label field Hsingle).
  destruct (split_lines_cons field) as (l & ls & Hf). rewrite Hf.
  unfold is_heading, startswith.
  rewrite (diverges_not_prefix "## " label l Hdiv). reflexivity.
Qed.

Lemma later_headings_single s : single_line s = true -> later_headings s = [].
Proof.
  intros H. unfold later_headings. rewrite (split_lines_single s H). reflexivity.
Qed.

Lemma later_headings_none text : headings text = [] -> later_headings text = [].
Proof.
  rewrite headings_first_line. intros H.
  apply app_eq_nil in H. destruct H as [_ H]. exact H.
Qed.

(** *** The decimal rendering of an integer is one line *)

Lemma single_line_uint d : single_line (NilEmpty.string_of_uint d) = true.
Proof. induction d; cbn; auto. Qed.

Lemma single_line_str_of_int n : single_line (str_of_int n) = true.
Proof.
  unfold str_of_int, NilZero.string_of_int.
  destruct (Z.to_int n) as [d|d]; unfold NilZero.string_of_uint.
  - destruct d; try reflexivity; apply (single_line_uint (_ _)).
  - cbn [single_line]. destruct d; try reflexivity; apply (single_line_uint (_ _)).
Qed.

(** *** The headings of the fallback narrative *)

(** Evaluate the headings of every line of the narrative that is a literal. *)
Ltac headings_of_literals :=
  repeat match goal with
         | |- context [headings (String ?c ?s)] =>
             let r := eval vm_compute in (headings (String c s)) in
             change (headings (String c s)) with r
         | |- context [headings EmptyString] =>
             change (headings EmptyString) with (@nil string)
         end.

(** The prompt asks for seven sections. *)
Lemma prompt_headings :
  headings SAR_PROMPT_TEMPLATE =
  [ "## 1. SUBJECT INFORMATION";
    "## 2. TRANSACTION SUMMARY";
    "## 3. SUSPICIOUS ACTIVITY DESCRIPTION";
    "## 4. TYPOLOGY MATCH";
    "## 5. RED FLAGS IDENTIFIED";
    "## 6. ANALYST RECOMMENDATION";
    "## 7. AUDIT RATIONALE" ].
Proof. vm_compute. reflexivity. Qed.

(** The headings of the fallback narrative, for every input: the seven of
    the prompt, and between them the heading lines the interpolated fields
    bring along. *)
Lemma fallback_headings customer_name account_number transactions typology risk_score :
  headings (generate_fallback_sar customer_name account_number transactions
              typology risk_score) =
  ("## 1. SUBJECT INFORMATION" ::
     later_headings customer_name ++ later_headings account_number ++
   "## 2. TRANSACTION SUMMARY" ::
     headings transactions ++
   "## 3. SUSPICIOUS ACTIVITY DESCRIPTION" ::
   "## 4. TYPOLOGY MATCH" ::
     later_headings typology ++
   "## 5. RED FLAGS IDENTIFIED" ::
     later_headings typology ++
   "## 6. ANALYST RECOMMENDATION" ::
   "## 7. AUDIT RATIONALE" :: [])%list.
Proof.
  unfold generate_fallback_sar. rewrite headings_unlines. cbn [flat_map].
  rewrite !headings_labelled by reflexivity.
  rewrite (later_headings_single (str_of_int risk_score ++ "/100")).
  2:{ rewrite single_line_app, single_line_str_of_int. reflexivity. }
  headings_of_literals.
  cbn [app]. reflexivity.
Qed.

Lemma Subseq_skip_app {A : Type} (extra small big : list A) :
  Subseq small big -> Subseq small (extra ++ big).
Proof.
  intros H. induction extra as [|x extra IH]; [exact H|].
  cbn [app]. apply Subseq_skip. exact IH.
Qed.

Lemma Subseq_length {A : Type} (small big : list A) :
  Subseq small big -> (List.length small <= List.length big)%nat.
Proof. induction 1; cbn [List.length]; lia. Qed.

(** A transaction text with a line of its own that opens with the heading
    marker: the line shows up as an eighth heading of the narrative. *)
Lemma fallback_heading_from_field :
  headings (generate_fallback_sar "R. Mehta" "ACC-1042"
              ("9 cash deposits of 49,000 each" ++ nl ++ "## 8. BRANCH NOTES")
              "Structuring / Smurfing" 30)
  = [ "## 1. SUBJECT INFORMATION";
      "## 2. TRANSACTION SUMMARY";
      "## 8. BRANCH NOTES";
      "## 3. SUSPICIOUS ACTIVITY DESCRIPTION";
      "## 4. TYPOLOGY MATCH";
      "## 5. RED FLAGS IDENTIFIED";
      "## 6. ANALYST RECOMMENDATION";
      "## 7. AUDIT RATIONALE" ]
  /\ headings (generate_fallback_sar "R. Mehta" "ACC-1042"
                 ("9 cash deposits of 49,000 each" ++ nl ++ "## 8. BRANCH NOTES")
                 "Structuring / Smurfing" 30)
     <> headings SAR_PROMPT_TEMPLATE.
Proof.
  split.
  - vm_compute. reflexivity.
  - intros H. apply (f_equal (@List.length string)) in H.
    vm_compute in H. discriminate H.
Qed.

(** C5 (as amended).  For every case input the fallback narrative is built
    from the fields alone and carries the seven section headings of the
    prompt, in the prompt's order; they are all of its headings when no line
    of the customer name, account number, transaction text or typology
    opens with the heading marker. *)
Theorem fallback_has_prompt_headings :
  forall (customer_name account_number transactions typology : string) (risk_score : Z),
    Subseq (headings SAR_PROMPT_TEMPLATE)
           (headings (generate_fallback_sar customer_name account_number transactions
                        typology risk_score))
    /\
    (headings customer_name = [] -> headings account_number = [] ->
     headings transactions = [] -> headings typology = [] ->
     headings (generate_fallback_sar customer_name account_number transactions
                 typology risk_score)
     = headings SAR_PROMPT_TEMPLATE).
Proof.
  intros customer_name account_number transactions typology risk_score.
  rewrite fallback_headings, prompt_headings. split.
  - apply Subseq_keep.
    apply Subseq_skip_app, Subseq_skip_app. apply Subseq_keep.
    apply Subseq_skip_app. do 2 apply Subseq_keep.
    apply Subseq_skip_app. apply Subseq_keep.
    apply Subseq_skip_app. do 2 apply Subseq_keep. apply Subseq_nil.
  - intros Hc Ha Ht Hy.
    rewrite (later_headings_none _ Hc), (later_headings_none _ Ha),
            (later_headings_none _ Hy), Ht.
    reflexivity.
Qed.

Lemma fallback_has_prompt_headings_witness :
  headings (generate_fallback_sar "R. Mehta" "ACC-1042"
              ("9 cash deposits of 49,000 each" ++ nl ++ "Immediate transfer to wallet")
              "Structuring / Smurfing" 30)
  = headings SAR_PROMPT_TEMPLATE.
Proof.
  apply (proj2 (fallback_has_prompt_headings "R. Mehta" "ACC-1042"
                  ("9 cash deposits of 49,000 each" ++ nl ++ "Immediate transfer to wallet")
                  "Structuring / Smurfing" 30)); reflexivity.
Defined.

End NarrativeSpec.

(* ================================================================== *)
(** ** A [json] module to run the pipeline with *)
(* ================================================================== *)

Module FieldJson.
Import PyStr Exc PyJson.

(** Fields are written one after the other, each closed by [sep]; inside a
    field [sep] and [esc] are written after an [esc]. *)
Definition sep : ascii := ";"%char.
Definition esc : ascii := "\"%char.

Definition special (c : ascii) : bool := Ascii.eqb c esc || Ascii.eqb c sep.

Fixpoint escape (s : string) : string :=
  match s with
  | EmptyString => EmptyString
  | String c s' =>
      if special c then String esc (String c (escape s')) else String c (escape s')
  end.

Fixpoint write_fields (fields : list string) : string :=
  match fields with
  | [] => EmptyString
  | f :: rest => escape f ++ String sep (write_fields rest)
  end.

(** Put [c] in front of the field being read. *)
Definition push (c : ascii) (fields : list string) : list string :=
  match fields with
  | f :: rest => String c f :: rest
  | [] => [String c EmptyString]
  end.

Fixpoint read_fields (s : string) : list string :=
  match s with
  | EmptyString => []
  | String c s' =>
      if Ascii.eqb c esc then
        match s' with
        | String d s'' => push d (read_fields s'')
        | EmptyString => []
        end
      else if Ascii.eqb c sep then EmptyString :: read_fields s'
      else push c (read_fields s')
  end.

(** An entry is its key, a tag for the kind of value, and the value. *)
Definition write_entry (entry : string * value) : string :=
  write_fields
    (fst entry ::
     match snd entry with
     | JInt n => ["i"; str_of_int n]
     | JStr s => ["s"; s]
     | JList l => "l" :: l
     end).

Definition read_int (s : string) : outcome Z :=
  match NilZero.int_of_string s with
  | Some d => Returns (Z.of_int d)
  | None => Raises "Expecting value"
  end.

Definition read_entry (s : string) : outcome (string * value) :=
  match read_fields s with
  | key :: tag :: payload =>
      if String.eqb tag "i" then
        match payload with
        | [digits] => n <- read_int digits ;; Returns (key, JInt n)
        | _ => Raises "Expecting value"
        end
      else if String.eqb tag "s" then
        match payload with
        | [text] => Returns (key, JStr text)
        | _ => Raises "Expecting value"
        end
      else if String.eqb tag "l" then Returns (key, JList payload)
      else Raises "Expecting value"
  | _ => Raises "Expecting value"
  end.

Fixpoint read_entries (entries : list string) : outcome dict :=
  match entries with
  | [] => Returns []
  | e :: rest =>
      entry <- read_entry e ;;
      d <- read_entries rest ;;
      Returns (entry :: d)
  end.

Definition field_dumps (d : dict) : string := write_fields (map write_entry d).

Definition field_loads (s : string) : outcome dict := read_entries (read_fields s).

Lemma read_escaped_field f rest :
  read_fields (escape f ++ String sep rest) = f :: read_fields rest.
Proof.
  induction f as [|c f IH].
  - reflexivity.
  - cbn [escape]. destruct (special c) eqn:Hsp.
    + cbn [append read_fields]. rewrite Ascii.eqb_refl, IH. reflexivity.
    + unfold special in Hsp. apply orb_false_iff in Hsp. destruct Hsp as [Hesc Hsep].
      cbn [append read_fields]. rewrite Hesc, Hsep, IH. reflexivity.
Qed.

Lemma read_write_fields fields : read_fields (write_fields fields) = fields.
Proof.
  induction fields as [|f rest IH]; [reflexivity|].
  cbn [write_fields]. rewrite read_escaped_field, IH. reflexivity.
Qed.

Lemma read_int_str_of_int n : read_int (str_of_int n) = Returns n.
Proof.
  unfold read_int, str_of_int. rewrite NilZero.isi.
  - rewrite DecimalZ.of_to. reflexivity.
  - destruct n; cbn; intros H; inversion H as [H'].
    apply (DecimalPos.Unsigned.to_uint_nonnil _ H').
  - destruct n; cbn; intros H; inversion H as [H'].
    apply (DecimalPos.Unsigned.to_uint_nonnil _ H').
Qed.

Lemma read_write_entry entry : read_entry (write_entry entry) = Returns entry.
Proof.
  destruct entry as [key v]. unfold read_entry, write_entry.
  rewrite read_write_fields. cbn [fst snd].
  destruct v as [n|s|l]; cbn [String.eqb Ascii.eqb Bool.eqb].
  - rewrite read_int_str_of_int. reflexivity.
  - reflexivity.
  - reflexivity.
Qed.

Lemma field_loads_dumps d : field_loads (field_dumps d) = Returns d.
Proof.
  unfold field_loads, field_dumps. rewrite read_write_fields.
  induction d as [|entry d IH]; [reflexivity|].
  cbn [map read_entries]. rewrite read_write_entry. cbn [bind].
  rewrite IH. reflexivity.
Qed.

Definition field_json : Json :=
  {| dumps := field_dumps;
     loads := field_loads;
     loads_dumps := field_loads_dumps |}.

Example field_dumps_example :
  field_dumps [("risk_score", JInt 30); ("steps", JList ["a;b"; "c"])]
  = "risk_score\;i\;30\;;steps\;l\;a\\\;b\;c\;;".
Proof. vm_compute. reflexivity. Qed.

End FieldJson.

(* ================================================================== *)
(** ** Properties of [generate_sar] and its audit record *)
(* ================================================================== *)

Module PipelineSpec.
Import PyStr Exc PyJson Services Templates Scoring Retrieval Narrative Pipeline FieldJson.

(** *** Service instances *)

(** An entry of an in-memory collection: document, metadata, id. *)
Definition entry : Type := string * metadata * string.

(** A ChromaDB client that starts without the collection and answers a
    query with the first [n_results] entries in the order [rank] gives. *)
Definition memory_chroma (rank : string -> list entry -> list entry) : Chroma :=
  {| collection := list entry;
     get_collection := fun name => Raises ("Collection " ++ name ++ " does not exist.");
     create_collection := fun _ _ => Returns [];
     add := fun c docs metas ids => Returns (c ++ combine (combine docs metas) ids)%list;
     query := fun c texts n =>
       Returns {| documents := map (fun t => map (fun e => fst (fst e)) (firstn n (rank t c))) texts;
                  metadatas := map (fun t => map (fun e => snd (fst e)) (firstn n (rank t c))) texts |} |}.

(** A ChromaDB client whose store cannot be reached. *)
Definition unreachable_chroma : Chroma :=
  {| collection := unit;
     get_collection := fun _ => Raises "Could not connect to the database";
     create_collection := fun _ _ => Raises "Could not connect to the database";
     add := fun _ _ _ _ => Raises "Could not connect to the database";
     query := fun _ _ _ => Raises "Could not connect to the database" |}.

(** A ChromaDB client that holds the collection and fails on every query. *)
Definition failing_query_chroma : Chroma :=
  {| collection := unit;
     get_collection := fun _ => Returns tt;
     create_collection := fun _ _ => Returns tt;
     add := fun _ _ _ _ => Returns tt;
     query := fun _ _ _ => Raises "Error executing plan: Internal error" |}.

(** A generation backend that is not running. *)
Definition offline_llm : Llm :=
  {| invoke := fun _ => Raises "Connection refused" |}.

(** A generation backend that answers every prompt with the same text. *)
Definition constant_llm (text : string) : Llm :=
  {| invoke := fun _ => Returns text |}.

(** *** The shape of a run *)

(** The reference text a run works with: what the query gave, or the body
    of the first template when the [try] of the retrieval raised. *)
Definition reference_of (chroma_client : Chroma) (transactions : string) : string :=
  match query_templates chroma_client transactions 2 with
  | Returns templates_text => templates_text
  | Raises _ => template tmpl_001
  end.

(** The prompt a run sends to the backend. *)
Definition prompt_of (chroma_client : Chroma) (transactions customer_name account_number : string)
    : string :=
  SAR_PROMPT_format (reference_of chroma_client transactions) customer_name account_number
    (snd (calculate_risk_score transactions customer_name))
    (str_of_int (fst (calculate_risk_score transactions customer_name)))
    transactions.

(** The six steps every audit dict is built with. *)
Definition normal_steps : list string :=
  [ "1. Risk keywords scanned and scored";
    "2. Typology pattern matched";
    "3. ChromaDB queried for relevant SAR templates";
    "4. LangChain prompt assembled with context";
    "5. Ollama LLM generated narrative";
    "6. Narrative stored with full audit trail" ].

Definition fallback_note (e : string) : string :=
  "NOTE: LLM unavailable, fallback template used. Error: " ++ e.

(** The audit dict with its list of steps replaced. *)
Definition audit_with_steps (risk_score : Z) (typology transactions : string)
    (steps : list string) : dict :=
  [ ("risk_score", JInt risk_score);
    ("typology_detected", JStr typology);
    ("rag_templates_used", JList ["Money Laundering - Layering"; "Structuring / Smurfing"]);
    ("transaction_length", JInt (len transactions));
    ("model_used", JStr "llama3.1:8b (local)");
    ("prompt_template", JStr "SAR_PROMPT_V1");
    ("processing_steps", JList steps) ].

(** The text that opens one retrieved template in the reference text. *)
Definition reference_block (label doc : string) : string :=
  nl ++ nl ++ "--- REFERENCE TEMPLATE (" ++ label ++ ") ---" ++ nl ++ doc.

Lemma build_audit_data_steps risk_score typology transactions :
  build_audit_data risk_score typology transactions
  = audit_with_steps risk_score typology transactions normal_steps.
Proof. reflexivity. Qed.

Lemma audit_append risk_score typology transactions steps x :
  dict_append (audit_with_steps risk_score typology transactions steps) "processing_steps" x
  = Returns (audit_with_steps risk_score typology transactions (steps ++ [x])).
Proof. reflexivity. Qed.

Lemma retrieve_relevant_template_eq chroma_client transactions :
  retrieve_relevant_template chroma_client transactions 2
  = Returns (reference_of chroma_client transactions).
Proof.
  unfold retrieve_relevant_template, reference_of, try_except.
  destruct (query_templates chroma_client transactions 2); reflexivity.
Qed.

(** [generate_sar] run to its two ends: the live one and the fallback. *)
Lemma generate_sar_eq json chroma_client llm transactions customer_name account_number :
  generate_sar json chroma_client llm transactions customer_name account_number
  = let risk_score := fst (calculate_risk_score transactions customer_name) in
    let typology := snd (calculate_risk_score transactions customer_name) in
    match invoke llm (prompt_of chroma_client transactions customer_name account_number) with
    | Returns text =>
        Returns {| narrative := text;
                   risk_score := risk_score;
                   typology := typology;
                   audit_data :=
                     dumps json
                       (audit_with_steps risk_score typology transactions normal_steps) |}
    | Raises e =>
        Returns {| narrative := generate_fallback_sar customer_name account_number
                                  transactions typology risk_score;
                   risk_score := risk_score;
                   typology := typology;
                   audit_data :=
                     dumps json
                       (audit_with_steps risk_score typology transactions
                          (normal_steps ++ [fallback_note e])) |}
    end.
Proof.
  unfold generate_sar, prompt_of.
  destruct (calculate_risk_score transactions customer_name) as [score label].
  rewrite retrieve_relevant_template_eq. cbn [bind fst snd].
  rewrite build_audit_data_steps.
  destruct (invoke llm _) as [text|e]; cbn [bind try_except].
  - reflexivity.
  - rewrite audit_append. reflexivity.
Qed.

(** Every run returns, and its payload is the text of some dict. *)
Lemma generate_sar_returns json chroma_client llm transactions customer_name account_number :
  exists result audit,
    generate_sar json chroma_client llm transactions customer_name account_number
    = Returns result
    /\ audit_data result = dumps json audit.
Proof.
  rewrite generate_sar_eq. cbv zeta.
  destruct (invoke llm _) as [text|e]; eexists; eexists; split; reflexivity.
Qed.

(** *** The entry point returns *)

(** C4 (as amended).  The generation entry point hands no failure to its
    caller: for every transaction text and customer name, the empty ones
    included, and whatever the retrieval and generation services do, it
    returns a result. *)
Theorem generate_sar_always_returns :
  forall (json : Json) (chroma_client : Chroma) (llm : Llm)
         (transactions customer_name account_number : string),
    (exists result,
       generate_sar json chroma_client llm transactions customer_name account_number
       = Returns result)
    /\ ~ raised (generate_sar json chroma_client llm transactions customer_name
                   account_number).
Proof.
  intros json chroma_client llm transactions customer_name account_number.
  destruct (generate_sar_returns json chroma_client llm transactions customer_name
              account_number) as (result & audit & Hresult & _).
  split.
  - exists result. exact Hresult.
  - intros [e He]. rewrite Hresult in He. discriminate He.
Qed.

(** With the customer name and the transaction text both empty, and both
    services down, the entry point still returns: an empty required field is
    no failure. *)
Lemma empty_fields_are_accepted :
  (exists result,
     generate_sar field_json unreachable_chroma offline_llm EmptyString EmptyString "N/A"
     = Returns result
     /\ risk_score result = 30%Z
     /\ typology result = "General Suspicious Activity")
  /\ ~ (raised (generate_sar field_json unreachable_chroma offline_llm
                  EmptyString EmptyString "N/A")
        <-> (EmptyString = EmptyString \/ EmptyString = EmptyString)).
Proof.
  split.
  - eexists. vm_compute. repeat split; reflexivity.
  - intros [_ H]. destruct (H (or_introl eq_refl)) as [e He].
    vm_compute in He. discriminate He.
Qed.

(** *** What the audit payload records *)

(** C7.  Every run returns a result whose audit payload reads back as a
    dict; the risk score and the typology in that dict are those of the
    result itself, its backend entry is set, and its list of processing
    steps is not empty.  The run may be a live one or a fallback one. *)
Theorem result_agrees_with_its_audit :
  forall (json : Json) (chroma_client : Chroma) (llm : Llm)
         (transactions customer_name account_number : string),
    exists result audit,
      generate_sar json chroma_client llm transactions customer_name account_number
      = Returns result
      /\ loads json (audit_data result) = Returns audit
      /\ dict_get audit "risk_score" = Returns (JInt (risk_score result))
      /\ dict_get audit "typology_detected" = Returns (JStr (typology result))
      /\ (exists backend, dict_get audit "model_used" = Returns (JStr backend))
      /\ (exists steps,
            dict_get audit "processing_steps" = Returns (JList steps)
            /\ steps <> []).
Proof.
  intros json chroma_client llm transactions customer_name account_number.
  rewrite generate_sar_eq. cbv zeta.
  destruct (invoke llm _) as [text|e]; eexists; eexists; (split; [reflexivity|]);
    cbn [audit_data risk_score typology];
    (split; [apply loads_dumps|]);
    (split; [reflexivity|]); (split; [reflexivity|]);
    (split; [eexists; reflexivity|]);
    eexists; (split; [reflexivity|]); discriminate.
Qed.

(** C10.  When the backend raises, the list of processing steps in the
    payload is the six steps the dict was built with, untouched, followed by
    one note that names the error: steps 5 and 6 still say that the model
    generated the narrative and that it was stored. *)
Theorem fallback_appends_to_normal_steps :
  forall (json : Json) (chroma_client : Chroma) (llm : Llm)
         (transactions customer_name account_number e : string),
    invoke llm (prompt_of chroma_client transactions customer_name account_number)
    = Raises e ->
    exists result audit steps,
      generate_sar json chroma_client llm transactions customer_name account_number
      = Returns result
      /\ loads json (audit_data result) = Returns audit
      /\ dict_get audit "processing_steps" = Returns (JList steps)
      /\ dict_get (build_audit_data (risk_score result) (typology result) transactions)
           "processing_steps" = Returns (JList (firstn 6 steps))
      /\ List.length steps = 7%nat
      /\ nth_error steps 4 = Some "5. Ollama LLM generated narrative"
      /\ nth_error steps 5 = Some "6. Narrative stored with full audit trail"
      /\ nth_error steps 6
         = Some ("NOTE: LLM unavailable, fallback template used. Error: " ++ e).
Proof.
  intros json chroma_client llm transactions customer_name account_number e Hdown.
  rewrite generate_sar_eq, Hdown. cbv zeta.
  eexists. eexists. exists (normal_steps ++ [fallback_note e])%list.
  split; [reflexivity|]. cbn [audit_data risk_score typology].
  split; [apply loads_dumps|].
  repeat split; reflexivity.
Qed.

Lemma fallback_appends_to_normal_steps_witness :
  invoke offline_llm
    (prompt_of unreachable_chroma "9 cash deposits of 49,000 each" "R. Mehta" "ACC-1042")
  = Raises "Connection refused"
  /\
  exists result audit steps,
    generate_sar field_json unreachable_chroma offline_llm
      "9 cash deposits of 49,000 each" "R. Mehta" "ACC-1042"
    = Returns result
    /\ loads field_json (audit_data result) = Returns audit
    /\ dict_get audit "processing_steps" = Returns (JList steps)
    /\ dict_get (build_audit_data (risk_score result) (typology result)
                   "9 cash deposits of 49,000 each")
         "processing_steps" = Returns (JList (firstn 6 steps))
    /\ List.length steps = 7%nat
    /\ nth_error steps 4 = Some "5. Ollama LLM generated narrative"
    /\ nth_error steps 5 = Some "6. Narrative stored with full audit trail"
    /\ nth_error steps 6
       = Some ("NOTE: LLM unavailable, fallback template used. Error: "
               ++ "Connection refused").
Proof.
  split; [reflexivity|].
  apply (fallback_appends_to_normal_steps field_json unreachable_chroma offline_llm
           "9 cash deposits of 49,000 each" "R. Mehta" "ACC-1042" "Connection refused").
  reflexivity.
Defined.

(** C2 (the code at a backend that fails).  Whatever error [e] the backend
    raises, the run returns the fallback narrative and its payload holds a
    note naming [e] after the processing steps; the [model_used] entry of
    the payload is the one a live run records. *)
Theorem fallback_run_keeps_model_used :
  forall (json : Json) (chroma_client : Chroma)
         (transactions customer_name account_number e : string),
    exists result audit,
      generate_sar json chroma_client {| invoke := fun _ => Raises e |}
        transactions customer_name account_number
      = Returns result
      /\ narrative result
         = generate_fallback_sar customer_name account_number transactions
             (typology result) (risk_score result)
      /\ loads json (audit_data result) = Returns audit
      /\ dict_get audit "processing_steps"
         = Returns (JList (normal_steps ++ [fallback_note e]))
      /\ dict_get audit "model_used" = Returns (JStr "llama3.1:8b (local)")
      /\ forall text,
           exists live live_audit,
             generate_sar json chroma_client (constant_llm text)
               transactions customer_name account_number
             = Returns live
             /\ narrative live = text
             /\ loads json (audit_data live) = Returns live_audit
             /\ dict_get live_audit "model_used" = dict_get audit "model_used".
Proof.
  intros json chroma_client transactions customer_name account_number e.
  rewrite generate_sar_eq. cbv zeta. cbn [invoke].
  eexists. eexists. split; [reflexivity|].
  cbn [audit_data narrative risk_score typology].
  split; [reflexivity|]. split; [apply loads_dumps|].
  split; [reflexivity|]. split; [reflexivity|].
  intros text. rewrite generate_sar_eq. cbv zeta. cbn [invoke constant_llm].
  eexists. eexists. split; [reflexivity|].
  cbn [audit_data narrative]. split; [reflexivity|].
  split; [apply loads_dumps | reflexivity].
Qed.

(** No typology the classifier returns has a heading line in it. *)
Lemma typology_has_no_heading transactions customer_name :
  Headings.headings (snd (calculate_risk_score transactions customer_name)) = [].
Proof.
  pose proof (ScoringSpec.typology_known_label transactions customer_name) as Hin.
  set (label := snd (calculate_risk_score transactions customer_name)) in *.
  clearbody label. cbn in Hin.
  repeat (destruct Hin as [Hin|Hin]; [subst label; reflexivity|]).
  contradiction.
Qed.

(** On a fallback run the narrative has the seven headings of the prompt
    and no other, unless a line of the customer name, the account number or
    the transaction text opens with the heading marker. *)
Lemma fallback_run_headings json chroma_client llm transactions customer_name
    account_number e :
  invoke llm (prompt_of chroma_client transactions customer_name account_number)
  = Raises e ->
  Headings.headings customer_name = [] ->
  Headings.headings account_number = [] ->
  Headings.headings transactions = [] ->
  exists result,
    generate_sar json chroma_client llm transactions customer_name account_number
    = Returns result
    /\ Headings.headings (narrative result) = Headings.headings SAR_PROMPT_TEMPLATE.
Proof.
  intros Hdown Hc Ha Ht. rewrite generate_sar_eq, Hdown. cbv zeta.
  eexists. split; [reflexivity|]. cbn [narrative].
  rewrite NarrativeSpec.fallback_headings, NarrativeSpec.prompt_headings.
  rewrite (NarrativeSpec.later_headings_none _ Hc),
          (NarrativeSpec.later_headings_none _ Ha),
          (NarrativeSpec.later_headings_none _
             (typology_has_no_heading transactions customer_name)),
          Ht.
  reflexivity.
Qed.

(** *** Retrieval *)

(** Whatever is raised inside the [try] of the retrieval, the handler
    answers with the body of the first template. *)
Lemma retrieval_absorbs_errors chroma_client transactions e :
  query_templates chroma_client transactions 2 = Raises e ->
  retrieve_relevant_template chroma_client transactions 2 = Returns (template tmpl_001)
  /\ reference_of chroma_client transactions = template tmpl_001.
Proof.
  intros H. rewrite retrieve_relevant_template_eq. unfold reference_of.
  rewrite H. split; reflexivity.
Qed.

Lemma unavailable_index_raises chroma_client transactions e :
  get_or_create_collection chroma_client = Raises e ->
  query_templates chroma_client transactions 2 = Raises e.
Proof. intros H. unfold query_templates. rewrite H. reflexivity. Qed.

Lemma failing_query_raises chroma_client transactions c e :
  get_or_create_collection chroma_client = Returns c ->
  query chroma_client c [transactions] 2 = Raises e ->
  query_templates chroma_client transactions 2 = Raises e.
Proof.
  intros Hc Hq. unfold query_templates. rewrite Hc. cbn [bind].
  change (Nat.min 2 (List.length SAR_TEMPLATES)) with 2%nat.
  rewrite Hq. reflexivity.
Qed.

(** A query that answers with fewer metadata dicts than documents, or with
    one that has no typology, ends in the handler as well. *)
Example malformed_answer_is_absorbed :
  let chroma_client :=
    {| collection := unit;
       get_collection := fun _ => Returns tt;
       create_collection := fun _ _ => Returns tt;
       add := fun _ _ _ _ => Returns tt;
       query := fun _ _ _ =>
         Returns {| documents := [["first document"; "second document"]];
                    metadatas := [[[("typology", "Terrorist Financing")]]] |} |} in
  query_templates chroma_client "9 cash deposits" 2 = Raises "list index out of range"
  /\ retrieve_relevant_template chroma_client "9 cash deposits" 2
     = Returns (template tmpl_001).
Proof. split; vm_compute; reflexivity. Qed.

(** C8.  When the collection cannot be obtained, or the query on it raises,
    the retrieval returns the body of the first template of the knowledge
    base and raises nothing; the run goes on with that body as its reference
    text and returns a narrative, the backend's answer to the prompt built
    on it or else the fallback narrative. *)
Theorem retrieval_failure_uses_first_template :
  forall (json : Json) (chroma_client : Chroma) (llm : Llm)
         (transactions customer_name account_number e : string),
    (get_or_create_collection chroma_client = Raises e
     \/ exists c, get_or_create_collection chroma_client = Returns c
                  /\ query chroma_client c [transactions] 2 = Raises e) ->
    (exists first,
       nth_error SAR_TEMPLATES 0 = Some first
       /\ retrieve_relevant_template chroma_client transactions 2
          = Returns (template first))
    /\
    (exists result,
       generate_sar json chroma_client llm transactions customer_name account_number
       = Returns result
       /\ narrative result
          = match invoke llm
                    (SAR_PROMPT_format (template tmpl_001) customer_name account_number
                       (typology result) (str_of_int (risk_score result)) transactions)
            with
            | Returns text => text
            | Raises _ =>
                generate_fallback_sar customer_name account_number transactions
                  (typology result) (risk_score result)
            end).
Proof.
  intros json chroma_client llm transactions customer_name account_number e Hfail.
  assert (Hraise : query_templates chroma_client transactions 2 = Raises e).
  { destruct Hfail as [Hdown | (c & Hc & Hq)].
    - apply unavailable_index_raises. exact Hdown.
    - apply (failing_query_raises _ _ c); assumption. }
  destruct (retrieval_absorbs_errors _ _ _ Hraise) as [Hret Href].
  split.
  - exists tmpl_001. split; [reflexivity | exact Hret].
  - rewrite generate_sar_eq. cbv zeta. unfold prompt_of. rewrite Href.
    destruct (invoke llm _) as [text|e'] eqn:Hllm; eexists; (split; [reflexivity|]);
      cbn [narrative typology risk_score]; rewrite Hllm; reflexivity.
Qed.

Lemma retrieval_failure_uses_first_template_witness :
  (get_or_create_collection failing_query_chroma = Raises "Error executing plan: Internal error"
   \/ exists c, get_or_create_collection failing_query_chroma = Returns c
                /\ query failing_query_chroma c ["9 cash deposits of 49,000 each"] 2
                   = Raises "Error executing plan: Internal error")
  /\
  (exists first,
     nth_error SAR_TEMPLATES 0 = Some first
     /\ retrieve_relevant_template failing_query_chroma "9 cash deposits of 49,000 each" 2
        = Returns (template first))
  /\
  (exists result,
     generate_sar field_json failing_query_chroma offline_llm
       "9 cash deposits of 49,000 each" "R. Mehta" "ACC-1042"
     = Returns result
     /\ narrative result
        = match invoke offline_llm
                  (SAR_PROMPT_format (template tmpl_001) "R. Mehta" "ACC-1042"
                     (typology result) (str_of_int (risk_score result))
                     "9 cash deposits of 49,000 each")
          with
          | Returns text => text
          | Raises _ =>
              generate_fallback_sar "R. Mehta" "ACC-1042" "9 cash deposits of 49,000 each"
                (typology result) (risk_score result)
          end).
Proof.
  assert (H : get_or_create_collection failing_query_chroma
              = Raises "Error executing plan: Internal error"
              \/ exists c, get_or_create_collection failing_query_chroma = Returns c
                           /\ query failing_query_chroma c ["9 cash deposits of 49,000 each"] 2
                              = Raises "Error executing plan: Internal error").
  { right. exists tt. split; reflexivity. }
  split; [exact H|].
  exact (retrieval_failure_uses_first_template field_json failing_query_chroma offline_llm
           "9 cash deposits of 49,000 each" "R. Mehta" "ACC-1042"
           "Error executing plan: Internal error" H).
Defined.

(** C1 (the code at two retrievals).  The [rag_templates_used] entry of the
    audit payload is the labels of the first two templates of the knowledge
    base on every run.  A retrieval that selects the third and fourth
    template, and one that fails and falls back on the first template alone,
    are both recorded that way. *)
Theorem audit_templates_do_not_follow_retrieval :
  (forall (json : Json) (chroma_client : Chroma) (llm : Llm)
          (transactions customer_name account_number : string),
     exists result audit,
       generate_sar json chroma_client llm transactions customer_name account_number
       = Returns result
       /\ loads json (audit_data result) = Returns audit
       /\ dict_get audit "rag_templates_used"
          = Returns (JList ["Money Laundering - Layering"; "Structuring / Smurfing"]))
  /\ retrieve_relevant_template (memory_chroma (fun _ c => skipn 2 c))
       "Login from a new device, then an unauthorized transfer to a mule account." 2
     = Returns (reference_block "Account Takeover Fraud" (template tmpl_003) ++
                reference_block "Trade-Based Money Laundering" (template tmpl_004))
  /\ retrieve_relevant_template unreachable_chroma
       "Login from a new device, then an unauthorized transfer to a mule account." 2
     = Returns (template tmpl_001).
Proof.
  split; [|split].
  - intros json chroma_client llm transactions customer_name account_number.
    rewrite generate_sar_eq. cbv zeta.
    destruct (invoke llm _) as [text|e]; eexists; eexists; (split; [reflexivity|]);
      cbn [audit_data]; (split; [apply loads_dumps | reflexivity]).
  - vm_compute. reflexivity.
  - vm_compute. reflexivity.
Qed.

End PipelineSpec.

(* ================================================================== *)
(** ** Properties of the [/generate-sar] handler *)
(* ================================================================== *)

Module MainSpec.
Import PyStr Exc PyJson Services Pipeline Main FieldJson PipelineSpec.

(** A database that stores every case under the id 1. *)
Definition accepting_db : Database :=
  {| save_case := fun _ _ _ _ _ _ _ => Returns 1%Z;
     save_audit := fun _ _ _ _ _ => Returns tt |}.

(** The handler checks no field: with a database that accepts the two
    writes it answers every request with a success body. *)
Lemma endpoint_succeeds_when_database_does json chroma_client llm db case_input :
  (forall cn an tx analyst sar rs ty, exists case_id,
      save_case db cn an tx analyst sar rs ty = Returns case_id) ->
  (forall case_id action analyst detail data,
      save_audit db case_id action analyst detail data = Returns tt) ->
  exists body,
    generate_sar_endpoint json chroma_client llm db case_input = Ok body
    /\ success body = true.
Proof.
  intros Hcase Haudit. unfold generate_sar_endpoint.
  match goal with
  | |- context [generate_sar ?j ?c ?l ?t ?n ?a] =>
      destruct (generate_sar_returns j c l t n a) as (result & audit & Hres & Hpayload);
      rewrite Hres
  end.
  cbn [bind].
  match goal with
  | |- context [save_case ?d ?a ?b ?c ?e ?f ?g ?h] =>
      destruct (Hcase a b c e f g h) as [case_id Hid]; rewrite Hid
  end.
  cbn [bind]. rewrite Haudit. cbn [bind].
  rewrite Hpayload, loads_dumps. cbn [bind].
  eexists. split; reflexivity.
Qed.

Example endpoint_accepts_empty_fields :
  exists body,
    generate_sar_endpoint field_json unreachable_chroma offline_llm accepting_db
      {| customer_name := EmptyString;
         account_number := "N/A";
         transactions := EmptyString;
         analyst_name := "analyst";
         additional_context := Some EmptyString |}
    = Ok body
    /\ success body = true
    /\ response_risk_score body = 30%Z
    /\ response_typology body = "General Suspicious Activity".
Proof. eexists. vm_compute. repeat split; reflexivity. Qed.

End MainSpec.

(* ================================================================== *)
(** ** More on the risk scoring engine *)
(* ================================================================== *)

Module ScoringMore.
Import PyStr Templates Scoring ScoringSpec.

Local Open Scope Z_scope.

(** How many keywords of the list occur in the lower-cased text. *)
Definition present (text_lower : string) (keywords : list string) : Z :=
  Z.of_nat (List.length (filter (counts text_lower) keywords)).

Lemma present_bounds text keywords :
  0 <= present text keywords <= Z.of_nat (List.length keywords).
Proof.
  unfold present. pose proof (filter_length_le (counts text) keywords). lia.
Qed.

Lemma present_cons text kw keywords :
  present text (kw :: keywords)
  = (if contains (lower kw) text then 1 else 0) + present text keywords.
Proof.
  unfold present. cbn [filter]. unfold counts at 1.
  destruct (contains (lower kw) text); cbn [List.length]; lia.
Qed.

Lemma fold_add_present w text keywords :
  forall score,
    fold_left (add_if_present w text) keywords score
    = score + w * present text keywords.
Proof.
  induction keywords as [|kw kws IH]; intros score.
  - cbn. unfold present. cbn. lia.
  - cbn [fold_left]. rewrite IH, present_cons. unfold add_if_present.
    destruct (contains (lower kw) text); lia.
Qed.

Lemma fold_sub_present text keywords :
  forall score,
    0 <= score ->
    fold_left (sub_if_present text) keywords score
    = Z.max 0 (score - 2 * present text keywords).
Proof.
  induction keywords as [|kw kws IH]; intros score Hscore.
  - cbn. unfold present. cbn. lia.
  - cbn [fold_left]. rewrite present_cons.
    pose proof (present_bounds text kws) as Hp.
    unfold sub_if_present at 2.
    destruct (contains (lower kw) text).
    + rewrite IH by lia. lia.
    + rewrite IH by lia. lia.
Qed.

(** The keyword score in closed form. *)
Lemma keyword_score_closed_form text :
  keyword_score text
  = Z.max 0 (8 * present text (high_risk RISK_KEYWORDS)
             + 4 * present text (medium_risk RISK_KEYWORDS)
             - 2 * present text (low_risk RISK_KEYWORDS)).
Proof.
  unfold keyword_score.
  rewrite (fold_add_present 8), (fold_add_present 4).
  pose proof (present_bounds text (high_risk RISK_KEYWORDS)).
  pose proof (present_bounds text (medium_risk RISK_KEYWORDS)).
  rewrite fold_sub_present by lia. f_equal.
Qed.

(** X1.  The reported score is 8 points for each high-risk keyword in the
    text, plus 4 for each medium-risk one, minus 2 for each low-risk one,
    brought into the range from 30 to 100. *)
Theorem risk_score_closed_form :
  forall transactions customer_name : string,
    let text_lower := lower transactions in
    fst (calculate_risk_score transactions customer_name)
    = Z.max 30 (Z.min 100
        (8 * present text_lower (high_risk RISK_KEYWORDS)
         + 4 * present text_lower (medium_risk RISK_KEYWORDS)
         - 2 * present text_lower (low_risk RISK_KEYWORDS))).
Proof.
  intros transactions customer_name text_lower.
  unfold calculate_risk_score. cbn [fst]. fold text_lower.
  rewrite keyword_score_closed_form. lia.
Qed.

(** X2.  Before the cap and the floor the running score is never negative,
    however many low-risk keywords the text has, and never above 188, the
    score of a text with every high-risk and medium-risk keyword. *)
Theorem keyword_score_range :
  (forall text_lower : string, 0 <= keyword_score text_lower <= 188)
  /\ (exists text_lower, keyword_score text_lower = 188)
  /\ (exists text_lower,
        contains "salary credit" text_lower = true /\ keyword_score text_lower = 0).
Proof.
  split; [|split].
  2:{ exists (String.concat ", " (high_risk RISK_KEYWORDS ++ medium_risk RISK_KEYWORDS)).
      vm_compute. reflexivity. }
  2:{ exists "salary credit and utility payment"%string. split; vm_compute; reflexivity. }
  intros text_lower. rewrite keyword_score_closed_form.
  pose proof (present_bounds text_lower (high_risk RISK_KEYWORDS)) as Hh.
  pose proof (present_bounds text_lower (medium_risk RISK_KEYWORDS)) as Hm.
  pose proof (present_bounds text_lower (low_risk RISK_KEYWORDS)) as Hl.
  change (Z.of_nat (List.length (high_risk RISK_KEYWORDS))) with 18 in Hh.
  change (Z.of_nat (List.length (medium_risk RISK_KEYWORDS))) with 11 in Hm.
  change (Z.of_nat (List.length (low_risk RISK_KEYWORDS))) with 6 in Hl.
  lia.
Qed.

End ScoringMore.

(* ================================================================== *)
(** ** Letter case *)
(* ================================================================== *)

Module CaseFolding.
Import PyStr Scoring.

(** What [lower] writes for a string that opens with one of the two code
    points it treats apart. *)
Definition special_head (s : string) : option string :=
  match s with
  | String "226" (String "132" (String "170" s')) => Some (String "k" (lower s'))
  | String "196" (String "176" s') =>
      Some (String "i" (String "204" (String "135" (lower s'))))
  | _ => None
  end.

Ltac by_bits c := destruct c as [[] [] [] [] [] [] [] []]; try reflexivity.

Lemma lower_unfold c s :
  lower (String c s) =
  match special_head (String c s) with
  | Some r => r
  | None => String (lower_ascii c) (lower s)
  end.
Proof.
  by_bits c.
  - destruct s as [|d s]; [reflexivity|]. by_bits d.
    destruct s as [|e s]; [reflexivity|]. by_bits e.
  - destruct s as [|d s]; [reflexivity|]. by_bits d.
Qed.

Lemma lower_ascii_fixed c : (128 <=? nat_of_ascii c)%nat = true -> lower_ascii c = c.
Proof. by_bits c; discriminate. Qed.

Lemma lower_ascii_high c :
  (128 <=? nat_of_ascii (lower_ascii c))%nat = (128 <=? nat_of_ascii c)%nat.
Proof. by_bits c. Qed.

Lemma lower_ascii_idempotent c : lower_ascii (lower_ascii c) = lower_ascii c.
Proof. by_bits c. Qed.

Lemma lower_ascii_nonascii c b :
  lower_ascii c = b -> (128 <=? nat_of_ascii b)%nat = true -> c = b.
Proof.
  intros H Hb. subst b. rewrite lower_ascii_high in Hb.
  symmetry. apply lower_ascii_fixed. exact Hb.
Qed.

Lemma special_head_some s r :
  special_head s = Some r ->
  (exists s', s = String "226" (String "132" (String "170" s')) /\ r = String "k" (lower s'))
  \/ (exists s', s = String "196" (String "176" s')
                 /\ r = String "i" (String "204" (String "135" (lower s')))).
Proof.
  destruct s as [|c s]; [discriminate|].
  destruct c as [[] [] [] [] [] [] [] []]; try discriminate.
  - destruct s as [|d s]; [discriminate|].
    destruct d as [[] [] [] [] [] [] [] []]; try discriminate.
    destruct s as [|e s]; [discriminate|].
    destruct e as [[] [] [] [] [] [] [] []]; try discriminate.
    intros H. injection H as <-. left. eexists. split; reflexivity.
  - destruct s as [|d s]; [discriminate|].
    destruct d as [[] [] [] [] [] [] [] []]; try discriminate.
    intros H. injection H as <-. right. eexists. split; reflexivity.
Qed.

(** A byte outside ASCII at the head of a lower-cased string was at the
    head of the string before. *)
Lemma lower_head s b r :
  (128 <=? nat_of_ascii b)%nat = true ->
  lower s = String b r ->
  exists s1, s = String b s1 /\ r = lower s1.
Proof.
  intros Hb H. destruct s as [|c s1]; [discriminate|].
  rewrite lower_unfold in H.
  destruct (special_head (String c s1)) as [r0|] eqn:Hsp.
  - apply special_head_some in Hsp.
    destruct Hsp as [(s' & _ & ->) | (s' & _ & ->)]; injection H as <- _; discriminate Hb.
  - injection H as Hc Hr. apply lower_ascii_nonascii in Hc; [|exact Hb]. subst c.
    exists s1. split; [reflexivity|]. symmetry. exact Hr.
Qed.

Lemma special_head_lower c s1 :
  special_head (String c s1) = None ->
  special_head (String (lower_ascii c) (lower s1)) = None.
Proof.
  intros Hnone.
  destruct (special_head (String (lower_ascii c) (lower s1))) as [r|] eqn:Hsp; [|reflexivity].
  exfalso. apply special_head_some in Hsp.
  destruct Hsp as [(s' & Heq & _) | (s' & Heq & _)]; injection Heq as Hc Hs.
  - apply lower_ascii_nonascii in Hc; [|reflexivity]. subst c.
    apply lower_head in Hs; [|reflexivity]. destruct Hs as (s2 & -> & Hs).
    symmetry in Hs. apply lower_head in Hs; [|reflexivity]. destruct Hs as (s3 & -> & _).
    discriminate Hnone.
  - apply lower_ascii_nonascii in Hc; [|reflexivity]. subst c.
    apply lower_head in Hs; [|reflexivity]. destruct Hs as (s2 & -> & _).
    discriminate Hnone.
Qed.

Lemma lower_idempotent_upto n :
  forall s, (String.length s <= n)%nat -> lower (lower s) = lower s.
Proof.
  induction n as [|n IH]; intros s Hlen.
  - destruct s; [reflexivity | cbn in Hlen; lia].
  - destruct s as [|c s1]; [reflexivity|].
    rewrite (lower_unfold c s1).
    destruct (special_head (String c s1)) as [r|] eqn:Hsp.
    + apply special_head_some in Hsp.
      destruct Hsp as [(s' & Heq & ->) | (s' & Heq & ->)];
        injection Heq as -> ->; cbn [String.length] in Hlen.
      * rewrite lower_unfold. cbn [special_head]. rewrite IH by lia. reflexivity.
      * do 3 (rewrite lower_unfold; cbn [special_head]).
        rewrite IH by lia. reflexivity.
    + rewrite lower_unfold, (special_head_lower _ _ Hsp).
      cbn [String.length] in Hlen.
      rewrite lower_ascii_idempotent, IH by lia. reflexivity.
Qed.

(** Lower-casing twice is lower-casing once. *)
Lemma lower_idempotent s : lower (lower s) = lower s.
Proof. apply (lower_idempotent_upto (String.length s)). lia. Qed.

(** X3.  The classifier does not see letter case: a text and its
    lower-cased form get the same risk score and the same typology. *)
Theorem classification_ignores_letter_case :
  forall transactions customer_name : string,
    calculate_risk_score (lower transactions) customer_name
    = calculate_risk_score transactions customer_name.
Proof.
  intros transactions customer_name.
  unfold calculate_risk_score. rewrite lower_idempotent. reflexivity.
Qed.

Example upper_case_keywords_count :
  calculate_risk_score "NEW DEVICE, then funds sent OFFSHORE via HAWALA" "A. Customer"
  = calculate_risk_score "new device, then funds sent offshore via hawala" "A. Customer".
Proof. vm_compute. reflexivity. Qed.

End CaseFolding.

(* ================================================================== *)
(** ** More on the retrieval *)
(* ================================================================== *)

Module RetrievalMore.
Import PyStr Exc Services Templates Retrieval PipelineSpec.

(** The metadata dict holds [label] under the key [typology]. *)
Definition has_typology (meta : metadata) (label : string) : Prop :=
  meta_get meta "typology" = Returns label.

(** The reference text for the labelled documents, in their order. *)
Definition reference_text (labelled : list (string * string)) : string :=
  String.concat EmptyString (map (fun ld => reference_block (fst ld) (snd ld)) labelled).

(** A ChromaDB client that answers every query with the given lists. *)
Definition answering_chroma (docs : list string) (metas : list metadata) : Chroma :=
  {| collection := unit;
     get_collection := fun _ => Returns tt;
     create_collection := fun _ _ => Returns tt;
     add := fun _ _ _ _ => Returns tt;
     query := fun _ _ _ => Returns {| documents := [docs]; metadatas := [metas] |} |}.

Lemma append_assoc (a b c : string) : ((a ++ b) ++ c)%string = (a ++ b ++ c)%string.
Proof. induction a as [|x a IH]; [reflexivity|]. cbn [append]. rewrite IH. reflexivity. Qed.

Lemma append_empty_r (a : string) : (a ++ EmptyString)%string = a.
Proof. induction a as [|x a IH]; [reflexivity|]. cbn [append]. rewrite IH. reflexivity. Qed.

Lemma reference_text_cons ld rest :
  reference_text (ld :: rest)
  = (reference_block (fst ld) (snd ld) ++ reference_text rest)%string.
Proof.
  unfold reference_text. cbn [map String.concat].
  destruct (map _ rest) as [|b bs].
  - cbn [String.concat]. rewrite append_empty_r. reflexivity.
  - reflexivity.
Qed.

Lemma reference_loop_blocks results metas more :
  metadatas results = metas :: more ->
  forall docs labels i templates_text,
    Forall2 has_typology (firstn (List.length docs) (skipn i metas)) labels ->
    List.length docs = List.length labels ->
    reference_loop results i docs templates_text
    = Returns (templates_text ++ reference_text (combine labels docs)).
Proof.
  intros Hmetas. induction docs as [|doc docs IH]; intros labels i templates_text Hall Hlen.
  - destruct labels; [|discriminate]. cbn. rewrite append_empty_r. reflexivity.
  - destruct labels as [|label labels]; [discriminate|].
    cbn [List.length firstn] in Hall.
    destruct (skipn i metas) as [|meta rest] eqn:Hskip; [inversion Hall|].
    inversion Hall as [|? ? ? ? Hmeta Hrest]; subst.
    assert (Hnth : nth_error metas i = Some meta).
    { rewrite <- hd_error_skipn, Hskip. reflexivity. }
    assert (Hnext : skipn (S i) metas = rest).
    { change (S i) with (1 + i)%nat. rewrite <- skipn_skipn, Hskip. reflexivity. }
    cbn [reference_loop]. unfold reference_entry, index.
    rewrite Hmetas. cbn [nth_error bind]. rewrite Hnth. cbn [bind].
    unfold has_typology in Hmeta. rewrite Hmeta. cbn [bind].
    rewrite (IH labels (S i)).
    + f_equal. cbn [combine]. rewrite reference_text_cons. cbn [fst snd].
      unfold reference_block. rewrite !append_assoc. reflexivity.
    + rewrite Hnext. exact Hrest.
    + cbn [List.length] in Hlen. lia.
Qed.

Lemma query_templates_answer chroma_client c transaction_text n_results results docs more :
  get_or_create_collection chroma_client = Returns c ->
  query chroma_client c [transaction_text] (Nat.min n_results (List.length SAR_TEMPLATES))
  = Returns results ->
  documents results = docs :: more ->
  query_templates chroma_client transaction_text n_results
  = reference_loop results 0 docs EmptyString.
Proof.
  intros Hc Hq Hdocs. unfold query_templates. rewrite Hc. cbn [bind].
  rewrite Hq. cbn [bind]. unfold index. rewrite Hdocs. reflexivity.
Qed.

(** X4.  When the query answers with as many metadata dicts as documents,
    each with a typology, the reference text is one block per document, in
    the order of the answer, each under a header that names the typology of
    its metadata. *)
Theorem retrieval_lists_documents_in_order :
  forall (chroma_client : Chroma) (c : collection chroma_client)
         (transaction_text : string) (n_results : nat) (results : QueryResult)
         (docs : list string) (metas : list metadata) (labels : list string)
         (more_docs : list (list string)) (more_metas : list (list metadata)),
    get_or_create_collection chroma_client = Returns c ->
    query chroma_client c [transaction_text] (Nat.min n_results (List.length SAR_TEMPLATES))
    = Returns results ->
    documents results = docs :: more_docs ->
    metadatas results = metas :: more_metas ->
    List.length docs = List.length metas ->
    Forall2 has_typology metas labels ->
    retrieve_relevant_template chroma_client transaction_text n_results
    = Returns (reference_text (combine labels docs)).
Proof.
  intros chroma_client c transaction_text n_results results docs metas labels
         more_docs more_metas Hc Hq Hdocs Hmetas Hlen Hall.
  unfold retrieve_relevant_template.
  rewrite (query_templates_answer _ _ _ _ _ _ _ Hc Hq Hdocs).
  rewrite (reference_loop_blocks results metas more_metas Hmetas docs labels).
  - reflexivity.
  - cbn [skipn]. rewrite Hlen, firstn_all. exact Hall.
  - rewrite Hlen. apply (Forall2_length Hall).
Qed.

Lemma retrieval_lists_documents_in_order_witness :
  retrieve_relevant_template
    (answering_chroma [template tmpl_005; template tmpl_002]
       [[("typology", "Terrorist Financing"); ("title", title tmpl_005)];
        [("id", "tmpl_002"); ("typology", "Structuring / Smurfing")]])
    "small transfers to a monitored jurisdiction" 2
  = Returns (reference_text [("Terrorist Financing", template tmpl_005);
                             ("Structuring / Smurfing", template tmpl_002)]).
Proof.
  apply (retrieval_lists_documents_in_order
           (answering_chroma [template tmpl_005; template tmpl_002]
              [[("typology", "Terrorist Financing"); ("title", title tmpl_005)];
               [("id", "tmpl_002"); ("typology", "Structuring / Smurfing")]])
           tt "small transfers to a monitored jurisdiction" 2
           {| documents := [[template tmpl_005; template tmpl_002]];
              metadatas := [[[("typology", "Terrorist Financing"); ("title", title tmpl_005)];
                             [("id", "tmpl_002"); ("typology", "Structuring / Smurfing")]]] |}
           [template tmpl_005; template tmpl_002]
           [[("typology", "Terrorist Financing"); ("title", title tmpl_005)];
            [("id", "tmpl_002"); ("typology", "Structuring / Smurfing")]]
           ["Terrorist Financing"; "Structuring / Smurfing"] [] []);
    try reflexivity.
  repeat constructor.
Defined.

(** X5.  When the query answers with no document, the retrieval returns the
    empty text: the first template stands in only when something raises,
    not when nothing is found. *)
Theorem empty_answer_gives_empty_reference :
  forall (chroma_client : Chroma) (c : collection chroma_client)
         (transaction_text : string) (n_results : nat) (results : QueryResult)
         (more_docs : list (list string)),
    get_or_create_collection chroma_client = Returns c ->
    query chroma_client c [transaction_text] (Nat.min n_results (List.length SAR_TEMPLATES))
    = Returns results ->
    documents results = [] :: more_docs ->
    retrieve_relevant_template chroma_client transaction_text n_results
    = Returns EmptyString
    /\ Returns (template tmpl_001)
       <> retrieve_relevant_template chroma_client transaction_text n_results.
Proof.
  intros chroma_client c transaction_text n_results results more_docs Hc Hq Hdocs.
  unfold retrieve_relevant_template.
  rewrite (query_templates_answer _ _ _ _ _ _ _ Hc Hq Hdocs).
  cbn [reference_loop try_except]. split; [reflexivity|].
  intros H. injection H as H. vm_compute in H. discriminate H.
Qed.

Lemma empty_answer_gives_empty_reference_witness :
  retrieve_relevant_template (answering_chroma [] []) "9 cash deposits" 2
  = Returns EmptyString
  /\ Returns (template tmpl_001)
     <> retrieve_relevant_template (answering_chroma [] []) "9 cash deposits" 2.
Proof.
  apply (empty_answer_gives_empty_reference (answering_chroma [] []) tt
           "9 cash deposits" 2 {| documents := [[]]; metadatas := [[]] |} []);
    reflexivity.
Defined.

Lemma reference_loop_short results metas more :
  metadatas results = metas :: more ->
  forall docs i templates_text,
    (List.length metas - i < List.length docs)%nat ->
    exists e, reference_loop results i docs templates_text = Raises e.
Proof.
  intros Hmetas. induction docs as [|doc docs IH]; intros i templates_text Hshort.
  - cbn [List.length] in Hshort. lia.
  - cbn [reference_loop]. unfold reference_entry, index.
    rewrite Hmetas. cbn [nth_error bind].
    destruct (nth_error metas i) as [meta|] eqn:Hnth; cbn [bind]; [|eauto].
    destruct (meta_get meta "typology") as [label|e]; cbn [bind]; [|eauto].
    apply IH. cbn [List.length] in Hshort.
    assert (i < List.length metas)%nat by (apply nth_error_Some; congruence).
    lia.
Qed.

Lemma reference_loop_missing_key results metas more k meta e :
  metadatas results = metas :: more ->
  nth_error metas k = Some meta ->
  meta_get meta "typology" = Raises e ->
  forall docs i templates_text,
    (i <= k < i + List.length docs)%nat ->
    exists e', reference_loop results i docs templates_text = Raises e'.
Proof.
  intros Hmetas Hk Hkey. induction docs as [|doc docs IH]; intros i templates_text Hrange.
  - cbn [List.length] in Hrange. lia.
  - cbn [reference_loop]. unfold reference_entry, index.
    rewrite Hmetas. cbn [nth_error bind].
    destruct (nth_error metas i) as [meta'|] eqn:Hnth; cbn [bind]; [|eauto].
    destruct (meta_get meta' "typology") as [label|e'] eqn:Hget; cbn [bind]; [|eauto].
    apply IH. cbn [List.length] in Hrange.
    destruct (Nat.eq_dec i k) as [->|Hne]; [|lia].
    rewrite Hk in Hnth. injection Hnth as <-. congruence.
Qed.

(** X6.  When the answer has fewer metadata dicts than documents, or the
    metadata of one of its documents has no typology, the retrieval gives
    up the text it has built so far and returns the body of the first
    template. *)
Theorem malformed_answer_uses_first_template :
  forall (chroma_client : Chroma) (c : collection chroma_client)
         (transaction_text : string) (n_results : nat) (results : QueryResult)
         (docs : list string) (metas : list metadata)
         (more_docs : list (list string)) (more_metas : list (list metadata)),
    get_or_create_collection chroma_client = Returns c ->
    query chroma_client c [transaction_text] (Nat.min n_results (List.length SAR_TEMPLATES))
    = Returns results ->
    documents results = docs :: more_docs ->
    metadatas results = metas :: more_metas ->
    ((List.length metas < List.length docs)%nat
     \/ exists k meta e,
          (k < List.length docs)%nat /\ nth_error metas k = Some meta
          /\ meta_get meta "typology" = Raises e) ->
    retrieve_relevant_template chroma_client transaction_text n_results
    = Returns (template tmpl_001).
Proof.
  intros chroma_client c transaction_text n_results results docs metas
         more_docs more_metas Hc Hq Hdocs Hmetas Hbad.
  unfold retrieve_relevant_template.
  rewrite (query_templates_answer _ _ _ _ _ _ _ Hc Hq Hdocs).
  assert (Hraise : exists e, reference_loop results 0 docs EmptyString = Raises e).
  { destruct Hbad as [Hshort | (k & meta & e & Hk & Hnth & Hkey)].
    - apply (reference_loop_short results metas more_metas Hmetas). lia.
    - apply (reference_loop_missing_key results metas more_metas k meta e Hmetas Hnth Hkey).
      lia. }
  destruct Hraise as [e He]. rewrite He. reflexivity.
Qed.

Lemma malformed_answer_uses_first_template_witness :
  retrieve_relevant_template
    (answering_chroma [template tmpl_005; template tmpl_002]
       [[("typology", "Terrorist Financing")]; [("id", "tmpl_002")]])
    "small transfers to a monitored jurisdiction" 2
  = Returns (template tmpl_001).
Proof.
  apply (malformed_answer_uses_first_template
           (answering_chroma [template tmpl_005; template tmpl_002]
              [[("typology", "Terrorist Financing")]; [("id", "tmpl_002")]])
           tt "small transfers to a monitored jurisdiction" 2
           {| documents := [[template tmpl_005; template tmpl_002]];
              metadatas := [[[("typology", "Terrorist Financing")]; [("id", "tmpl_002")]]] |}
           [template tmpl_005; template tmpl_002]
           [[("typology", "Terrorist Financing")]; [("id", "tmpl_002")]] [] []);
    try reflexivity.
  right. exists 1%nat, [("id", "tmpl_002")], "'typology'"%string.
  repeat split. cbn. lia.
Defined.

End RetrievalMore.

(* ================================================================== *)
(** ** Substring search *)
(* ================================================================== *)

Module Substring.
Import PyStr Scoring ScoringSpec.

Lemma prefix_here x rest : String.prefix x (x ++ rest) = true.
Proof.
  induction x as [|c x IH]; [destruct rest; reflexivity|].
  cbn [append String.prefix]. destruct (ascii_dec c c); [exact IH | contradiction].
Qed.

Lemma prefix_split x s : String.prefix x s = true -> exists rest, s = (x ++ rest)%string.
Proof.
  revert s. induction x as [|c x IH]; intros s H.
  - exists s. reflexivity.
  - destruct s as [|d s]; [discriminate|]. cbn [String.prefix] in H.
    destruct (ascii_dec c d) as [->|]; [|discriminate].
    destruct (IH s H) as [rest ->]. exists rest. reflexivity.
Qed.

Lemma contains_here x rest : contains x (x ++ rest) = true.
Proof.
  destruct (x ++ rest)%string eqn:E; cbn [contains];
    rewrite <- E, prefix_here; reflexivity.
Qed.

Lemma contains_skip x before s : contains x s = true -> contains x (before ++ s) = true.
Proof.
  intros H. induction before as [|c before IH]; [exact H|].
  cbn [append contains]. rewrite IH. apply orb_true_r.
Qed.

(** [x in s] holds exactly when [s] is some text, then [x], then some text. *)
Lemma contains_iff x s :
  contains x s = true <-> exists before rest, s = (before ++ x ++ rest)%string.
Proof.
  split.
  - induction s as [|c s IH]; cbn [contains]; intros H.
    + rewrite orb_false_r in H. apply prefix_split in H. destruct H as [rest ->].
      exists EmptyString, rest. reflexivity.
    + apply orb_true_iff in H. destruct H as [H|H].
      * apply prefix_split in H. destruct H as [rest ->].
        exists EmptyString, rest. reflexivity.
      * destruct (IH H) as (before & rest & ->).
        exists (String c before), rest. reflexivity.
  - intros (before & rest & ->). apply contains_skip, contains_here.
Qed.

(** X7.  Each of the three keyword loops, and the count of the typology
    loop, takes a keyword into account exactly when the lower-cased text has
    the lower-cased keyword somewhere inside it, whatever stands before and
    after: the search knows no word boundaries. *)
Theorem keyword_counts_anywhere :
  forall (text_lower kw : string) (w score : Z),
    ((exists before rest, text_lower = (before ++ lower kw ++ rest)%string)
     /\ add_if_present w text_lower score kw = (score + w)%Z
     /\ sub_if_present text_lower score kw = Z.max 0 (score - 2)
     /\ match_count text_lower [kw] = 1%Z)
    \/
    ((forall before rest, text_lower <> (before ++ lower kw ++ rest)%string)
     /\ add_if_present w text_lower score kw = score
     /\ sub_if_present text_lower score kw = score
     /\ match_count text_lower [kw] = 0%Z).
Proof.
  intros text_lower kw w score.
  unfold add_if_present, sub_if_present, match_count. cbn [fold_left].
  destruct (contains (lower kw) text_lower) eqn:Hin.
  - left. split; [apply contains_iff; exact Hin|]. repeat split.
  - right. split; [|repeat split].
    intros before rest Heq.
    assert (Hyes : contains (lower kw) text_lower = true).
    { apply contains_iff. exists before, rest. exact Heq. }
    congruence.
Qed.

Example pep_inside_a_word :
  fst (calculate_risk_score "Bought peppermint tea" "A. Customer")
  = fst (calculate_risk_score "Customer is a PEP" "A. Customer")
  /\ ScoringMore.present (lower "Bought peppermint tea") (Templates.high_risk Templates.RISK_KEYWORDS)
     = 1%Z.
Proof. split; vm_compute; reflexivity. Qed.

End Substring.

(* ================================================================== *)
(** ** What the typology loop counts *)
(* ================================================================== *)

Module TypologySpec.
Import PyStr Templates Scoring ScoringSpec CaseFolding Substring.

Local Open Scope Z_scope.

(** The keyword, lower-cased, stands somewhere in the lower-cased text. *)
Definition occurs (text_lower kw : string) : Prop :=
  exists before rest, text_lower = (before ++ lower kw ++ rest)%string.

(** [n] keywords of the list occur in the text. *)
Inductive occurrences (text_lower : string) : list string -> Z -> Prop :=
| occurrences_nil : occurrences text_lower [] 0
| occurrences_hit : forall kw kws n,
    occurs text_lower kw -> occurrences text_lower kws n ->
    occurrences text_lower (kw :: kws) (n + 1)
| occurrences_miss : forall kw kws n,
    ~ occurs text_lower kw -> occurrences text_lower kws n ->
    occurrences text_lower (kw :: kws) n.

(** The capital letters, each beside its small letter. *)
Definition letters : list (ascii * ascii) :=
  combine (list_ascii_of_string "ABCDEFGHIJKLMNOPQRSTUVWXYZ")
          (list_ascii_of_string "abcdefghijklmnopqrstuvwxyz").

(** Two characters that are the same, or a letter in its two cases. *)
Definition same_letter (c d : ascii) : Prop :=
  c = d \/ In (c, d) letters \/ In (d, c) letters.

(** Two texts that differ in the case of letters only. *)
Inductive same_up_to_case : string -> string -> Prop :=
| same_empty : same_up_to_case EmptyString EmptyString
| same_char : forall c d s t,
    same_letter c d -> same_up_to_case s t ->
    same_up_to_case (String c s) (String d t).

(** A text of ASCII characters only. *)
Fixpoint ascii_only (s : string) : bool :=
  match s with
  | EmptyString => true
  | String c s' => (nat_of_ascii c <? 128)%nat && ascii_only s'
  end.

(** *** The count *)

Lemma occurs_counts text_lower kw : occurs text_lower kw <-> counts text_lower kw = true.
Proof. unfold occurs, counts. symmetry. apply contains_iff. Qed.

Lemma match_count_cons text_lower kw kws :
  match_count text_lower (kw :: kws)
  = (if counts text_lower kw then 1 else 0) + match_count text_lower kws.
Proof.
  rewrite !match_count_filter. cbn [filter].
  destruct (counts text_lower kw); cbn [List.length]; lia.
Qed.

Lemma occurrences_match_count text_lower keywords n :
  occurrences text_lower keywords n <-> match_count text_lower keywords = n.
Proof.
  split.
  - induction 1 as [|kw kws n Hkw _ IH|kw kws n Hkw _ IH].
    + reflexivity.
    + rewrite match_count_cons, IH. apply occurs_counts in Hkw. rewrite Hkw. lia.
    + rewrite match_count_cons, IH.
      destruct (counts text_lower kw) eqn:Hc; [|lia].
      exfalso. apply Hkw, occurs_counts. exact Hc.
  - intros <-. induction keywords as [|kw kws IH].
    + constructor.
    + rewrite match_count_cons. destruct (counts text_lower kw) eqn:Hc.
      * replace (1 + match_count text_lower kws) with (match_count text_lower kws + 1) by lia.
        apply occurrences_hit; [apply occurs_counts; exact Hc | exact IH].
      * apply occurrences_miss; [|exact IH].
        intros Hkw. apply occurs_counts in Hkw. congruence.
Qed.

(** *** Letters in their two cases *)

Lemma same_letter_lower c d : same_letter c d -> lower_ascii c = lower_ascii d.
Proof.
  intros [->|[H|H]]; [reflexivity| |]; cbn in H;
    repeat (destruct H as [H|H]; [injection H as <- <-; reflexivity|]); contradiction.
Qed.

Lemma same_letter_high c d :
  same_letter c d -> (128 <=? nat_of_ascii c)%nat = true -> c = d.
Proof.
  intros [->|[H|H]] Hc; [reflexivity| |]; cbn in H;
    repeat (destruct H as [H|H]; [injection H as <- <-; discriminate Hc|]); contradiction.
Qed.

Lemma same_letter_sym c d : same_letter c d -> same_letter d c.
Proof. intros [->|[H|H]]; [left; reflexivity | right; right; exact H | right; left; exact H]. Qed.

Lemma same_up_to_case_sym s t : same_up_to_case s t -> same_up_to_case t s.
Proof.
  induction 1 as [|c d s t Hcd _ IH]; constructor; [apply same_letter_sym; exact Hcd | exact IH].
Qed.

Lemma same_up_to_case_refl s : same_up_to_case s s.
Proof. induction s; constructor; [left; reflexivity | assumption]. Qed.

(** A byte outside ASCII stands in both texts. *)
Lemma same_head_high c s t :
  (128 <=? nat_of_ascii c)%nat = true ->
  same_up_to_case (String c s) t ->
  exists t', t = String c t' /\ same_up_to_case s t'.
Proof.
  intros Hc H. inversion H as [|c0 d s0 t' Hcd Hrest]; subst.
  apply same_letter_high in Hcd; [|exact Hc]. subst d.
  exists t'. split; [reflexivity | exact Hrest].
Qed.

Lemma special_head_same s t r :
  same_up_to_case s t ->
  special_head s = Some r ->
  (exists s' t', s = String "226" (String "132" (String "170" s'))
                 /\ t = String "226" (String "132" (String "170" t'))
                 /\ same_up_to_case s' t')
  \/ (exists s' t', s = String "196" (String "176" s')
                    /\ t = String "196" (String "176" t')
                    /\ same_up_to_case s' t').
Proof.
  intros Hsame Hsp. apply special_head_some in Hsp.
  destruct Hsp as [(s' & -> & _) | (s' & -> & _)].
  - left.
    apply same_head_high in Hsame; [|reflexivity]. destruct Hsame as (t1 & -> & Hsame).
    apply same_head_high in Hsame; [|reflexivity]. destruct Hsame as (t2 & -> & Hsame).
    apply same_head_high in Hsame; [|reflexivity]. destruct Hsame as (t3 & -> & Hsame).
    exists s', t3. repeat split. exact Hsame.
  - right.
    apply same_head_high in Hsame; [|reflexivity]. destruct Hsame as (t1 & -> & Hsame).
    apply same_head_high in Hsame; [|reflexivity]. destruct Hsame as (t2 & -> & Hsame).
    exists s', t2. repeat split. exact Hsame.
Qed.

Lemma same_lower_upto n :
  forall s t, (String.length s <= n)%nat -> same_up_to_case s t -> lower s = lower t.
Proof.
  induction n as [|n IH]; intros s t Hlen Hsame.
  - destruct s; [inversion Hsame; reflexivity | cbn in Hlen; lia].
  - destruct (special_head s) as [r|] eqn:Hs.
    + destruct (special_head_same s t r Hsame Hs)
        as [(s' & t' & -> & -> & Hrest) | (s' & t' & -> & -> & Hrest)];
        cbn [String.length] in Hlen; cbn [lower];
        rewrite (IH s' t') by (lia || exact Hrest); reflexivity.
    + destruct (special_head t) as [r|] eqn:Ht.
      * exfalso. apply same_up_to_case_sym in Hsame.
        destruct (special_head_same t s r Hsame Ht)
          as [(t' & s' & _ & -> & _) | (t' & s' & _ & -> & _)]; discriminate Hs.
      * inversion Hsame as [|c d s1 t1 Hcd Hrest]; subst; [reflexivity|].
        rewrite (lower_unfold c s1), (lower_unfold d t1), Hs, Ht.
        cbn [String.length] in Hlen.
        rewrite (same_letter_lower c d Hcd), (IH s1 t1) by (lia || exact Hrest).
        reflexivity.
Qed.

(** Texts that differ in the case of letters only have one lower-cased
    form. *)
Lemma same_lower s t : same_up_to_case s t -> lower s = lower t.
Proof. apply (same_lower_upto (String.length s)). lia. Qed.

Lemma lower_ascii_cases d : lower_ascii d = d \/ In (d, lower_ascii d) letters.
Proof.
  destruct d as [[] [] [] [] [] [] [] []];
    first [ left; reflexivity
          | right; cbn; repeat (first [left; reflexivity | right]) ].
Qed.

Lemma letters_capital c x : In (c, x) letters -> c = ascii_of_nat (nat_of_ascii x - 32).
Proof.
  intros H. cbn in H.
  repeat (destruct H as [H|H]; [injection H as <- <-; reflexivity|]). contradiction.
Qed.

Lemma lower_ascii_same c d : lower_ascii c = lower_ascii d -> same_letter c d.
Proof.
  intros H.
  destruct (lower_ascii_cases c) as [Hc|Hc], (lower_ascii_cases d) as [Hd|Hd].
  - left. congruence.
  - right. right. rewrite <- H, Hc in Hd. exact Hd.
  - right. left. rewrite H, Hd in Hc. exact Hc.
  - left. rewrite H in Hc.
    transitivity (ascii_of_nat (nat_of_ascii (lower_ascii d) - 32)).
    + exact (letters_capital _ _ Hc).
    + symmetry. exact (letters_capital _ _ Hd).
Qed.

(** *** Texts of ASCII characters *)

Lemma ascii_head c s : (nat_of_ascii c <? 128)%nat = true -> special_head (String c s) = None.
Proof.
  destruct c as [[] [] [] [] [] [] [] []]; intros H; try reflexivity; discriminate H.
Qed.

Lemma lower_ascii_cons c s :
  (nat_of_ascii c <? 128)%nat = true -> lower (String c s) = String (lower_ascii c) (lower s).
Proof. intros H. rewrite lower_unfold, (ascii_head c s H). reflexivity. Qed.

Lemma ascii_only_app a b : ascii_only (a ++ b) = ascii_only a && ascii_only b.
Proof.
  induction a as [|c a IH]; [reflexivity|].
  cbn [append ascii_only]. rewrite IH. apply andb_assoc.
Qed.

Lemma lower_app_ascii a b : ascii_only a = true -> lower (a ++ b) = (lower a ++ lower b)%string.
Proof.
  induction a as [|c a IH]; intros Ha; [reflexivity|].
  cbn [ascii_only] in Ha. apply andb_true_iff in Ha. destruct Ha as [Hc Ha].
  cbn [append]. rewrite !lower_ascii_cons by exact Hc.
  cbn [append]. rewrite IH by exact Ha. reflexivity.
Qed.

Lemma lower_split t :
  forall x y,
    ascii_only t = true -> lower t = (x ++ y)%string ->
    exists a b, t = (a ++ b)%string /\ lower a = x /\ lower b = y.
Proof.
  induction t as [|c t IH]; intros x y Ht H.
  - destruct x; [|discriminate H]. exists EmptyString, EmptyString.
    repeat split. exact H.
  - destruct x as [|d x].
    + exists EmptyString, (String c t). repeat split. exact H.
    + cbn [ascii_only] in Ht. apply andb_true_iff in Ht. destruct Ht as [Hc Ht].
      rewrite lower_ascii_cons in H by exact Hc. cbn [append] in H.
      injection H as Hd Hrest.
      destruct (IH x y Ht Hrest) as (a & b & -> & Ha & Hb).
      exists (String c a), b. split; [reflexivity|]. split; [|exact Hb].
      assert (Hca : lower (String c a) = String (lower_ascii c) (lower a))
        by (apply lower_ascii_cons; exact Hc).
      rewrite Hca, Hd, Ha. reflexivity.
Qed.

Lemma lower_eq_same s :
  forall t, ascii_only s = true -> ascii_only t = true -> lower s = lower t ->
            same_up_to_case s t.
Proof.
  induction s as [|c s IH]; intros t Hs Ht H.
  - destruct t as [|d t]; [constructor|].
    cbn [ascii_only] in Ht. apply andb_true_iff in Ht. destruct Ht as [Hd _].
    rewrite (lower_ascii_cons d t Hd) in H. discriminate H.
  - cbn [ascii_only] in Hs. apply andb_true_iff in Hs. destruct Hs as [Hc Hs].
    rewrite (lower_ascii_cons c s Hc) in H.
    destruct t as [|d t]; [discriminate H|].
    cbn [ascii_only] in Ht. apply andb_true_iff in Ht. destruct Ht as [Hd Ht].
    rewrite (lower_ascii_cons d t Hd) in H. injection H as Hcd Hrest.
    constructor; [apply lower_ascii_same; exact Hcd | apply IH; assumption].
Qed.

(** The keywords of the typology table are ASCII texts. *)
Lemma table_keywords_ascii j l k kw :
  nth_error TYPOLOGY_PATTERNS j = Some (l, k) -> In kw k -> ascii_only kw = true.
Proof.
  intros Hj Hkw. apply nth_error_In in Hj.
  assert (Hall : forallb (fun item => forallb ascii_only (snd item)) TYPOLOGY_PATTERNS = true)
    by (vm_compute; reflexivity).
  rewrite forallb_forall in Hall. specialize (Hall _ Hj). cbn [snd] in Hall.
  rewrite forallb_forall in Hall. exact (Hall kw Hkw).
Qed.

(** In a text of ASCII characters a keyword of ASCII characters occurs when
    a piece of the text is the keyword up to the case of its letters. *)
Lemma occurs_in_ascii_text transactions kw :
  ascii_only transactions = true -> ascii_only kw = true ->
  (occurs (lower transactions) kw
   <-> exists before piece rest,
         transactions = (before ++ piece ++ rest)%string /\ same_up_to_case piece kw).
Proof.
  intros Ht Hkw. split.
  - intros (before & rest & H).
    destruct (lower_split transactions before _ Ht H) as (a & b & -> & Ha & Hb).
    rewrite ascii_only_app in Ht. apply andb_true_iff in Ht. destruct Ht as [_ Hb'].
    destruct (lower_split b (lower kw) rest Hb' Hb) as (p & r & -> & Hp & Hr).
    rewrite ascii_only_app in Hb'. apply andb_true_iff in Hb'. destruct Hb' as [Hp' _].
    exists a, p, r. split; [reflexivity|].
    apply lower_eq_same; assumption.
  - intros (before & piece & rest & -> & Hsame).
    rewrite ascii_only_app in Ht. apply andb_true_iff in Ht. destruct Ht as [Hb Ht].
    rewrite ascii_only_app in Ht. apply andb_true_iff in Ht. destruct Ht as [Hp _].
    exists (lower before), (lower rest).
    rewrite (lower_app_ascii before _ Hb), (lower_app_ascii piece _ Hp).
    rewrite (same_lower piece kw Hsame). reflexivity.
Qed.

(** C6.  The typology returned for a text is the generic default when no
    typology keyword occurs in the lower-cased text; otherwise it is the
    label of the table entry with the most keyword matches, the first such
    entry in table order: no entry matches more, every earlier entry matches
    strictly fewer.  Either way it is the default or a label of the table.
    What is counted for an entry is the number of its keywords whose
    lower-cased form stands in the lower-cased text as a contiguous
    substring.  The case of letters plays no part: two texts that differ in
    it get the same typology, and in a text of ASCII characters a keyword of
    the table is counted exactly when a piece of the text as it was given is
    the keyword up to the case of its letters. *)
Theorem typology_is_first_strict_max :
  forall transactions customer_name : string,
    let text_lower := lower transactions in
    let typology := snd (calculate_risk_score transactions customer_name) in
    (((forall j l k, nth_error TYPOLOGY_PATTERNS j = Some (l, k) ->
                     match_count text_lower k = 0) /\
      typology = "General Suspicious Activity"%string)
     \/
     (exists i kws,
        nth_error TYPOLOGY_PATTERNS i = Some (typology, kws) /\
        0 < match_count text_lower kws /\
        (forall j l k, nth_error TYPOLOGY_PATTERNS j = Some (l, k) ->
                       match_count text_lower k <= match_count text_lower kws) /\
        (forall j l k, (j < i)%nat -> nth_error TYPOLOGY_PATTERNS j = Some (l, k) ->
                       match_count text_lower k < match_count text_lower kws)))
    /\ In typology ("General Suspicious Activity"%string :: typology_labels)
    /\ typology <> EmptyString
    /\ (forall keywords n,
          match_count text_lower keywords = n <-> occurrences text_lower keywords n)
    /\ (forall other,
          same_up_to_case transactions other ->
          snd (calculate_risk_score other customer_name) = typology)
    /\ (ascii_only transactions = true ->
        forall j l k kw,
          nth_error TYPOLOGY_PATTERNS j = Some (l, k) -> In kw k ->
          (occurs text_lower kw
           <-> exists before piece rest,
                 transactions = (before ++ piece ++ rest)%string
                 /\ same_up_to_case piece kw)).
Proof.
  intros transactions customer_name text_lower typology.
  assert (Hshape :
    ((forall j l k, nth_error TYPOLOGY_PATTERNS j = Some (l, k) ->
                    match_count text_lower k = 0) /\
     typology = "General Suspicious Activity"%string)
    \/
    (exists i kws,
       nth_error TYPOLOGY_PATTERNS i = Some (typology, kws) /\
       0 < match_count text_lower kws /\
       (forall j l k, nth_error TYPOLOGY_PATTERNS j = Some (l, k) ->
                      match_count text_lower k <= match_count text_lower kws) /\
       (forall j l k, (j < i)%nat -> nth_error TYPOLOGY_PATTERNS j = Some (l, k) ->
                      match_count text_lower k < match_count text_lower kws))).
  { pose proof (detect_typology_invariant TYPOLOGY_PATTERNS text_lower) as Hinv.
    subst typology. unfold calculate_risk_score. cbn [snd]. fold text_lower.
    destruct Hinv as [(_ & Hm & Hz) | (Hpos & i & kws & Hi & Hbest & Hmax & Hfirst)].
    - left. split; [exact Hz | exact Hm].
    - right. exists i, kws. rewrite Hbest. repeat split; assumption. }
  split; [exact Hshape|].
  pose proof (typology_known_label transactions customer_name) as Hin.
  fold typology in Hin.
  split; [exact Hin|].
  split.
  { intros Hempty. rewrite Hempty in Hin. cbn in Hin.
    repeat (destruct Hin as [Hin|Hin]; [discriminate|]). exact Hin. }
  split.
  { intros keywords n. symmetry. apply occurrences_match_count. }
  split.
  { intros other Hsame. subst typology. unfold calculate_risk_score. cbn [snd].
    rewrite (same_lower transactions other Hsame). reflexivity. }
  intros Hascii j l k kw Hj Hkw.
  apply occurs_in_ascii_text; [exact Hascii|].
  exact (table_keywords_ascii j l k kw Hj Hkw).
Qed.

(** A keyword in capitals inside a longer word is counted. *)
Example capitals_inside_a_word :
  snd (calculate_risk_score "REIMPORTED goods" "A. Customer")
  = "Trade-Based Money Laundering"%string
  /\ match_count (lower "REIMPORTED goods") ["import"; "export"] = 1.
Proof. split; vm_compute; reflexivity. Qed.

End TypologySpec.

(* ================================================================== *)
(** ** More on [generate_sar] *)
(* ================================================================== *)

Module PipelineMore.
Import PyStr Exc PyJson Services Templates Scoring Retrieval Narrative Pipeline FieldJson.
Import Headings NarrativeSpec PipelineSpec Substring.

(** X8.  When the backend answers, the narrative of the result is the
    answer as it came, and the processing steps in the audit payload are the
    six steps alone, without a note. *)
Theorem live_run_returns_backend_text :
  forall (json : Json) (chroma_client : Chroma) (llm : Llm)
         (transactions customer_name account_number text : string),
    invoke llm (prompt_of chroma_client transactions customer_name account_number)
    = Returns text ->
    exists result audit,
      generate_sar json chroma_client llm transactions customer_name account_number
      = Returns result
      /\ narrative result = text
      /\ loads json (audit_data result) = Returns audit
      /\ dict_get audit "processing_steps" = Returns (JList normal_steps)
      /\ forall e, ~ In (fallback_note e) normal_steps.
Proof.
  intros json chroma_client llm transactions customer_name account_number text Hlive.
  rewrite generate_sar_eq, Hlive. cbv zeta.
  eexists. eexists. split; [reflexivity|]. cbn [narrative audit_data].
  split; [reflexivity|]. split; [apply loads_dumps|]. split; [reflexivity|].
  intros e Hin. cbn in Hin.
  repeat (destruct Hin as [Hin|Hin]; [discriminate Hin|]). exact Hin.
Qed.

Lemma live_run_returns_backend_text_witness :
  exists result audit,
    generate_sar field_json unreachable_chroma (constant_llm "## 1. SUBJECT INFORMATION")
      "9 cash deposits of 49,000 each" "R. Mehta" "ACC-1042"
    = Returns result
    /\ narrative result = "## 1. SUBJECT INFORMATION"
    /\ loads field_json (audit_data result) = Returns audit
    /\ dict_get audit "processing_steps" = Returns (JList normal_steps)
    /\ forall e, ~ In (fallback_note e) normal_steps.
Proof.
  apply (live_run_returns_backend_text field_json unreachable_chroma
           (constant_llm "## 1. SUBJECT INFORMATION")
           "9 cash deposits of 49,000 each" "R. Mehta" "ACC-1042").
  reflexivity.
Defined.

(** X9.  Whatever the retrieval and the backend do, the risk score and the
    typology of the result are the classifier's for the transaction text;
    the score lies between 30 and 100 and the typology is the default or a
    label of the typology table. *)
Theorem result_carries_the_classification :
  forall (json : Json) (chroma_client : Chroma) (llm : Llm)
         (transactions customer_name account_number : string),
    exists result,
      generate_sar json chroma_client llm transactions customer_name account_number
      = Returns result
      /\ (risk_score result, typology result)
         = calculate_risk_score transactions customer_name
      /\ (30 <= risk_score result <= 100)%Z
      /\ In (typology result)
            ("General Suspicious Activity" :: map fst TYPOLOGY_PATTERNS).
Proof.
  intros json chroma_client llm transactions customer_name account_number.
  rewrite generate_sar_eq. cbv zeta.
  assert (Hrange : (30 <= fst (calculate_risk_score transactions customer_name) <= 100)%Z).
  { unfold calculate_risk_score. cbn [fst]. lia. }
  pose proof (ScoringSpec.typology_known_label transactions customer_name) as Hlabel.
  destruct (invoke llm _) as [text|e]; eexists; (split; [reflexivity|]);
    cbn [risk_score typology];
    (split; [symmetry; apply surjective_pairing|]); (split; [exact Hrange | exact Hlabel]).
Qed.

(** The headings of a prompt: those the fields bring along, then the seven
    of the template. *)
Lemma prompt_headings_formula reference_templates customer_name account_number typology
    risk_score transactions :
  headings (SAR_PROMPT_format reference_templates customer_name account_number typology
              (str_of_int risk_score) transactions)
  = ((headings reference_templates ++ later_headings customer_name ++
      later_headings account_number ++ later_headings typology ++
      headings transactions) ++ headings SAR_PROMPT_TEMPLATE)%list.
Proof.
  rewrite prompt_headings.
  unfold SAR_PROMPT_format. rewrite headings_unlines. cbn [flat_map].
  rewrite !headings_labelled by reflexivity.
  rewrite (later_headings_single (str_of_int risk_score ++ "/100")).
  2:{ rewrite single_line_app, single_line_str_of_int. reflexivity. }
  headings_of_literals.
  cbn [app]. rewrite <- !app_assoc. reflexivity.
Qed.

(** X10.  Every prompt ends, as far as headings go, with the seven section
    headings in their order: a heading line inside the reference text or a
    case field comes before them and never between them. *)
Theorem prompt_ends_with_section_headings :
  forall (reference_templates customer_name account_number typology transactions : string)
         (risk_score : Z),
    exists from_fields,
      headings (SAR_PROMPT_format reference_templates customer_name account_number typology
                  (str_of_int risk_score) transactions)
      = (from_fields ++ headings SAR_PROMPT_TEMPLATE)%list
      /\ (headings reference_templates = [] -> headings customer_name = [] ->
          headings account_number = [] -> headings typology = [] ->
          headings transactions = [] -> from_fields = []).
Proof.
  intros reference_templates customer_name account_number typology transactions risk_score.
  eexists. split; [apply prompt_headings_formula|].
  intros Hr Hc Ha Hy Ht.
  rewrite Hr, Ht, (later_headings_none _ Hc), (later_headings_none _ Ha),
          (later_headings_none _ Hy).
  reflexivity.
Qed.

(** The five templates of the knowledge base have no heading line. *)
Lemma templates_have_no_heading :
  Forall (fun t => headings (template t) = []) SAR_TEMPLATES.
Proof. repeat constructor. Qed.

Lemma unlines_cons l next rest :
  unlines (l :: next :: rest) = (l ++ nl ++ unlines (next :: rest))%string.
Proof. reflexivity. Qed.

(** A line of a text stands in the text. *)
Lemma contains_line lines :
  forall k l, nth_error lines k = Some l -> contains l (unlines lines) = true.
Proof.
  induction lines as [|a lines IH]; intros k l Hk; [destruct k; discriminate|].
  destruct k as [|k].
  - injection Hk as ->. destruct lines as [|b lines].
    + cbn. rewrite <- (RetrievalMore.append_empty_r l) at 2. apply contains_here.
    + rewrite unlines_cons. apply contains_here.
  - destruct lines as [|b lines]; [destruct k; discriminate|].
    rewrite unlines_cons. apply contains_skip, contains_skip. exact (IH k l Hk).
Qed.

(** A line that is not the last one stands in the text with its line feed. *)
Lemma contains_line_nl lines :
  forall k l next,
    nth_error lines k = Some l -> nth_error lines (S k) = Some next ->
    contains (l ++ nl) (unlines lines) = true.
Proof.
  induction lines as [|a lines IH]; intros k l next Hk Hnext; [destruct k; discriminate|].
  destruct lines as [|b lines]; [destruct k as [|[|k]]; discriminate|].
  rewrite unlines_cons. destruct k as [|k].
  - injection Hk as ->. rewrite <- RetrievalMore.append_assoc. apply contains_here.
  - apply contains_skip, contains_skip. exact (IH k l next Hk Hnext).
Qed.

(** A line between two others stands in the text between two line feeds. *)
Lemma contains_nl_line_nl lines :
  forall k previous l next,
    nth_error lines k = Some previous -> nth_error lines (S k) = Some l ->
    nth_error lines (S (S k)) = Some next ->
    contains (nl ++ l ++ nl) (unlines lines) = true.
Proof.
  induction lines as [|a lines IH]; intros k previous l next Hp Hk Hnext;
    [destruct k; discriminate|].
  destruct lines as [|b lines]; [destruct k as [|[|k]]; discriminate|].
  rewrite unlines_cons. destruct k as [|k].
  - cbn [nth_error] in Hk. injection Hk as ->.
    destruct lines as [|c lines]; [discriminate|].
    rewrite unlines_cons. apply contains_skip.
    set (rest := unlines (c :: lines)).
    rewrite <- (RetrievalMore.append_assoc l nl rest).
    rewrite <- (RetrievalMore.append_assoc nl (l ++ nl) rest).
    apply contains_here.
  - apply contains_skip, contains_skip. exact (IH k previous l next Hp Hk Hnext).
Qed.

(** X11.  The fallback narrative quotes the case: the customer name, the
    account number, the typology and the risk score each stand on a line
    with their label, and the transaction text stands on lines of its own,
    all as they were given. *)
Theorem fallback_quotes_the_case :
  forall (customer_name account_number transactions typology : string) (risk_score : Z),
    let narrative :=
      generate_fallback_sar customer_name account_number transactions typology risk_score in
    contains (("Customer Name: " ++ customer_name) ++ nl) narrative = true
    /\ contains (("Account Number: " ++ account_number) ++ nl) narrative = true
    /\ contains (nl ++ transactions ++ nl) narrative = true
    /\ contains (("Detected Typology: " ++ typology) ++ nl) narrative = true
    /\ contains ("Risk Score: " ++ str_of_int risk_score ++ "/100") narrative = true.
Proof.
  intros customer_name account_number transactions typology risk_score narrative.
  subst narrative. unfold generate_fallback_sar.
  split; [|split; [|split; [|split]]].
  - eapply (contains_line_nl _ 1); reflexivity.
  - eapply (contains_line_nl _ 2); reflexivity.
  - eapply (contains_nl_line_nl _ 7); reflexivity.
  - eapply (contains_line_nl _ 18); reflexivity.
  - eapply (contains_line _ 39); reflexivity.
Qed.

End PipelineMore.

(* ================================================================== *)
(** ** Properties of the store *)
(* ================================================================== *)

From Stdlib Require Import Sorted Permutation.

Module DatabaseSpec.
Import PyStr Exc Database.

Local Open Scope Z_scope.

(** The row [approve_case] leaves in place of [row]. *)
Definition approved_row (now analyst edited_text : string) (row : CaseRow) : CaseRow :=
  {| id := id row;
     customer_name := customer_name row;
     account_number := account_number row;
     transactions := transactions row;
     sar_narrative := sar_narrative row;
     status := "APPROVED";
     analyst_name := analyst_name row;
     created_at := created_at row;
     approved_at := Some now;
     approved_by := Some analyst;
     edited_narrative := Some edited_text;
     risk_score := risk_score row;
     typology := typology row |}.

(** The stores the program can get to: the empty one, and what the three
    writing calls make of a store. *)
Inductive reachable : Db -> Prop :=
| reach_empty : reachable empty_db
| reach_save_case : forall operational_error db now data sar_text risk_score typology,
    reachable db ->
    reachable (fst (save_case operational_error db now data sar_text risk_score typology))
| reach_save_audit : forall operational_error db now case_id action analyst detail data_used,
    reachable db ->
    reachable (fst (save_audit operational_error db now case_id action analyst detail
                      data_used))
| reach_approve_case : forall db now case_id analyst edited_text,
    reachable db ->
    reachable (fst (approve_case db now case_id analyst edited_text)).

(** An error text of the database for the examples: the driver's message,
    then the table and the parameters of the statement. *)
Definition plain_error (table : string) (parameters : list string) : string :=
  "(sqlite3.OperationalError) database or disk is full [" ++ table ++ ": " ++
  String.concat ", " parameters ++ "]".

(** A table of cases whose last row has the largest id there is. *)
Definition full_cases : Db :=
  {| cases := [ {| id := max_int64;
                   customer_name := "R. Mehta";
                   account_number := "ACC-1042";
                   transactions := "9 cash deposits of 49,000 each";
                   sar_narrative := "first narrative";
                   status := "DRAFT";
                   analyst_name := "P. Verma";
                   created_at := "2026-02-07 10:00:00.000000";
                   approved_at := None;
                   approved_by := None;
                   edited_narrative := None;
                   risk_score := 30;
                   typology := "Structuring / Smurfing" |} ];
     audit_log := [] |}.

(** *** Ids *)

Lemma fits_int64_spec n : fits_int64 n = true <-> min_int64 <= n <= max_int64.
Proof. unfold fits_int64. rewrite andb_true_iff, !Z.leb_le. reflexivity. Qed.

Lemma next_id_above ids x : In x ids -> x < next_id ids.
Proof.
  unfold next_id. induction ids as [|y ids IH]; intros Hin; [contradiction|].
  cbn [fold_right]. destruct Hin as [->|Hin]; [lia|]. specialize (IH Hin). lia.
Qed.

Lemma next_id_positive ids : 0 < next_id ids.
Proof.
  unfold next_id. induction ids as [|y ids IH]; cbn [fold_right]; lia.
Qed.

(** The id of a table with room is one SQLite holds. *)
Lemma has_room_fits ids : has_room ids = true -> fits_int64 (next_id ids) = true.
Proof.
  unfold has_room. rewrite Z.leb_le. intros H. apply fits_int64_spec.
  split; [|exact H]. pose proof (next_id_positive ids).
  change min_int64 with (-9223372036854775808). lia.
Qed.

Lemma find_last {A : Type} (p : A -> bool) (l : list A) (x : A) :
  find p (l ++ [x]) =
  match find p l with
  | Some y => Some y
  | None => if p x then Some x else None
  end.
Proof.
  induction l as [|a l IH]; cbn [app find]; [reflexivity|].
  destruct (p a); [reflexivity | exact IH].
Qed.

Lemma find_fresh rows : find (fun r => id r =? next_id (map id rows)) rows = None.
Proof.
  destruct (find _ rows) as [row|] eqn:Hfind; [|reflexivity].
  apply find_some in Hfind. destruct Hfind as [Hin Hid]. apply Z.eqb_eq in Hid.
  pose proof (next_id_above (map id rows) (id row) (in_map id _ _ Hin)). lia.
Qed.

(** *** Reading a case *)

Lemma get_case_fits db case_id :
  fits_int64 case_id = true ->
  get_case db case_id = Returns (find (fun r => id r =? case_id) (cases db)).
Proof. intros H. unfold get_case. rewrite H. reflexivity. Qed.

Lemma get_case_too_large db case_id :
  fits_int64 case_id = false -> get_case db case_id = Raises int_too_large.
Proof. intros H. unfold get_case. rewrite H. reflexivity. Qed.

Lemma get_case_returns db case_id found :
  get_case db case_id = Returns found ->
  fits_int64 case_id = true /\ find (fun r => id r =? case_id) (cases db) = found.
Proof.
  unfold get_case. destruct (fits_int64 case_id); cbn [negb]; intros H;
    [injection H as H; split; [reflexivity | exact H] | discriminate H].
Qed.

Lemma get_case_in db case_id row :
  get_case db case_id = Returns (Some row) -> In row (cases db) /\ id row = case_id.
Proof.
  intros H. apply get_case_returns in H. destruct H as [_ H].
  apply find_some in H. destruct H as [Hin Hid].
  split; [exact Hin | apply Z.eqb_eq; exact Hid].
Qed.

(** A read depends on the table of cases only. *)
Lemma get_case_same_cases db db' case_id :
  cases db' = cases db -> get_case db' case_id = get_case db case_id.
Proof. intros H. unfold get_case. rewrite H. reflexivity. Qed.

Lemma get_case_fresh db :
  has_room (map id (cases db)) = true ->
  get_case db (next_id (map id (cases db))) = Returns None.
Proof.
  intros Hroom. rewrite get_case_fits by (apply has_room_fits; exact Hroom).
  rewrite find_fresh. reflexivity.
Qed.

(** *** Saving a case *)

Lemma save_case_returns operational_error db now data sar_text score label :
  fits_int64 score = true -> has_room (map id (cases db)) = true ->
  save_case operational_error db now data sar_text score label
  = ({| cases := cases db ++
                 [ {| id := next_id (map id (cases db));
                      customer_name := get data "customer_name" EmptyString;
                      account_number := get data "account_number" EmptyString;
                      transactions := get data "transactions" EmptyString;
                      sar_narrative := sar_text;
                      status := "DRAFT";
                      analyst_name := get data "analyst_name" "Unknown";
                      created_at := now;
                      approved_at := None;
                      approved_by := None;
                      edited_narrative := None;
                      risk_score := score;
                      typology := label |} ];
        audit_log := audit_log db |},
     Returns (next_id (map id (cases db)))).
Proof. intros Hfits Hroom. unfold save_case. rewrite Hfits, Hroom. reflexivity. Qed.

(** A call that raises has written nothing. *)
Lemma save_case_raises operational_error db now data sar_text score label e :
  snd (save_case operational_error db now data sar_text score label) = Raises e ->
  fst (save_case operational_error db now data sar_text score label) = db.
Proof.
  unfold save_case.
  destruct (fits_int64 score), (has_room (map id (cases db)));
    cbn [negb fst snd]; intros H; (reflexivity || discriminate H).
Qed.

Lemma save_case_answers operational_error db now data sar_text score label :
  (fits_int64 score = true /\ has_room (map id (cases db)) = true)
  \/ exists e, save_case operational_error db now data sar_text score label
               = (db, Raises e).
Proof.
  unfold save_case.
  destruct (fits_int64 score), (has_room (map id (cases db))); cbn [negb]; eauto.
Qed.

Lemma get_case_after_save operational_error db now data sar_text score label :
  fits_int64 score = true -> has_room (map id (cases db)) = true ->
  get_case (fst (save_case operational_error db now data sar_text score label))
           (next_id (map id (cases db)))
  = Returns (Some {| id := next_id (map id (cases db));
                     customer_name := get data "customer_name" EmptyString;
                     account_number := get data "account_number" EmptyString;
                     transactions := get data "transactions" EmptyString;
                     sar_narrative := sar_text;
                     status := "DRAFT";
                     analyst_name := get data "analyst_name" "Unknown";
                     created_at := now;
                     approved_at := None;
                     approved_by := None;
                     edited_narrative := None;
                     risk_score := score;
                     typology := label |}).
Proof.
  intros Hfits Hroom. rewrite save_case_returns by assumption. cbn [fst].
  rewrite get_case_fits by (apply has_room_fits; exact Hroom).
  cbn [cases]. rewrite find_last, find_fresh. cbn [id]. rewrite Z.eqb_refl. reflexivity.
Qed.

(** X12.  A case whose score SQLite can hold, saved to a table with a row
    id left, can be read back under the id that [save_case] returns: the row
    holds the fields that were given, in status DRAFT and without approval
    data; the id is positive and was not in use before.  A score outside the
    signed 64-bit range raises the [OverflowError] of [sqlite3], a table
    without a row id left raises too, and a call that raises stores
    nothing. *)
Theorem save_case_then_get_case :
  forall (operational_error : string -> list string -> string)
         (db : Db) (now : string) (data : list (string * string))
         (sar_text : string) (risk_score : Z) (typology : string),
    let db' := fst (save_case operational_error db now data sar_text risk_score typology) in
    let answer := snd (save_case operational_error db now data sar_text risk_score typology) in
    (fits_int64 risk_score = true -> has_room (map id (cases db)) = true ->
     exists case_id,
       answer = Returns case_id
       /\ get_case db' case_id
          = Returns (Some {| id := case_id;
                             customer_name := get data "customer_name" EmptyString;
                             account_number := get data "account_number" EmptyString;
                             transactions := get data "transactions" EmptyString;
                             sar_narrative := sar_text;
                             status := "DRAFT";
                             analyst_name := get data "analyst_name" "Unknown";
                             created_at := now;
                             approved_at := None;
                             approved_by := None;
                             edited_narrative := None;
                             risk_score := risk_score;
                             typology := typology |})
       /\ get_case db case_id = Returns None
       /\ 0 < case_id)
    /\ (fits_int64 risk_score = false -> answer = Raises int_too_large)
    /\ (has_room (map id (cases db)) = false -> exists e, answer = Raises e)
    /\ (forall e, answer = Raises e -> db' = db).
Proof.
  intros operational_error db now data sar_text risk_score typology db' answer.
  split; [|split; [|split]].
  - intros Hfits Hroom. exists (next_id (map id (cases db))).
    split; [|split; [|split]].
    + subst answer. rewrite save_case_returns by assumption. reflexivity.
    + subst db'. apply get_case_after_save; assumption.
    + apply get_case_fresh. exact Hroom.
    + apply next_id_positive.
  - intros Hfits. subst answer. unfold save_case. rewrite Hfits. reflexivity.
  - intros Hroom. subst answer. unfold save_case. rewrite Hroom.
    destruct (fits_int64 risk_score); cbn [negb snd]; eauto.
  - intros e He. subst db' answer. apply (save_case_raises _ _ _ _ _ _ _ e). exact He.
Qed.

Lemma save_case_then_get_case_witness :
  snd (save_case plain_error empty_db "2026-02-07 10:00:00.000000"
         [("customer_name", "R. Mehta")] "first narrative" 30 "Structuring / Smurfing")
  = Returns 1
  /\ snd (save_case plain_error empty_db "2026-02-07 10:00:00.000000"
            [("customer_name", "R. Mehta")] "first narrative" (2 ^ 63)
            "Structuring / Smurfing")
     = Raises int_too_large
  /\ (exists e,
        snd (save_case plain_error full_cases "2026-02-07 11:00:00.000000"
               [("customer_name", "A. Rao")] "second narrative" 72 "Terrorist Financing")
        = Raises e)
  /\ fst (save_case plain_error full_cases "2026-02-07 11:00:00.000000"
            [("customer_name", "A. Rao")] "second narrative" 72 "Terrorist Financing")
     = full_cases.
Proof.
  split; [vm_compute; reflexivity|].
  split.
  - apply (save_case_then_get_case plain_error empty_db "2026-02-07 10:00:00.000000"
             [("customer_name", "R. Mehta")] "first narrative" (2 ^ 63)
             "Structuring / Smurfing").
    vm_compute. reflexivity.
  - destruct (save_case_then_get_case plain_error full_cases "2026-02-07 11:00:00.000000"
                [("customer_name", "A. Rao")] "second narrative" 72 "Terrorist Financing")
      as (_ & _ & Hfull & Hkept).
    destruct (Hfull ltac:(vm_compute; reflexivity)) as [e He].
    split; [exists e; exact He | exact (Hkept e He)].
Defined.

(** X13.  Saving a case leaves every other case as it was, and the audit
    log too. *)
Theorem save_case_keeps_other_cases :
  forall (operational_error : string -> list string -> string)
         (db : Db) (now : string) (data : list (string * string))
         (sar_text : string) (risk_score : Z) (typology : string) (other : Z),
    let db' := fst (save_case operational_error db now data sar_text risk_score typology) in
    let answer := snd (save_case operational_error db now data sar_text risk_score typology) in
    answer <> Returns other ->
    get_case db' other = get_case db other
    /\ audit_log db' = audit_log db.
Proof.
  intros operational_error db now data sar_text risk_score typology other db' answer Hother.
  destruct (save_case_answers operational_error db now data sar_text risk_score typology)
    as [[Hfits Hroom] | [e He]].
  - subst db' answer. rewrite save_case_returns in * by assumption. cbn [fst snd] in *.
    split; [|reflexivity].
    unfold get_case. destruct (fits_int64 other); cbn [negb]; [|reflexivity].
    cbn [cases]. rewrite find_last.
    destruct (find _ (cases db)) as [row|]; [reflexivity|].
    cbn [id]. destruct (Z.eqb_spec (next_id (map id (cases db))) other); [|reflexivity].
    congruence.
  - subst db'. rewrite He. split; reflexivity.
Qed.

Lemma save_case_keeps_other_cases_witness :
  let db := fst (save_case plain_error empty_db "2026-02-07 10:00:00.000000"
                   [("customer_name", "R. Mehta")] "first narrative" 30
                   "Structuring / Smurfing") in
  snd (save_case plain_error db "2026-02-07 11:00:00.000000"
         [("customer_name", "A. Rao")] "second narrative" 72 "Terrorist Financing")
  = Returns 2
  /\ get_case (fst (save_case plain_error db "2026-02-07 11:00:00.000000"
                      [("customer_name", "A. Rao")] "second narrative" 72
                      "Terrorist Financing")) 1
     = get_case db 1
  /\ audit_log (fst (save_case plain_error db "2026-02-07 11:00:00.000000"
                       [("customer_name", "A. Rao")] "second narrative" 72
                       "Terrorist Financing"))
     = audit_log db.
Proof.
  intros db. split; [vm_compute; reflexivity|].
  apply (save_case_keeps_other_cases plain_error db "2026-02-07 11:00:00.000000"
           [("customer_name", "A. Rao")] "second narrative" 72 "Terrorist Financing" 1).
  vm_compute. discriminate.
Defined.

(** *** Approval *)

Lemma approve_row_id now case_id analyst edited_text row :
  id (approve_row now case_id analyst edited_text row) = id row.
Proof. unfold approve_row. destruct (id row =? case_id); reflexivity. Qed.

Lemma find_map_same_key {A : Type} (p : A -> bool) (f : A -> A) (l : list A) :
  (forall x, p (f x) = p x) ->
  find p (map f l) = option_map f (find p l).
Proof.
  intros Hp. induction l as [|a l IH]; [reflexivity|].
  cbn [map find]. rewrite Hp. destruct (p a); [reflexivity | exact IH].
Qed.

Lemma approve_case_fits db now case_id analyst edited_text :
  fits_int64 case_id = true ->
  approve_case db now case_id analyst edited_text
  = ({| cases := map (approve_row now case_id analyst edited_text) (cases db);
        audit_log := audit_log db |},
     Returns tt).
Proof. intros H. unfold approve_case. rewrite H. reflexivity. Qed.

Lemma approve_case_too_large db now case_id analyst edited_text :
  fits_int64 case_id = false ->
  approve_case db now case_id analyst edited_text = (db, Raises int_too_large).
Proof. intros H. unfold approve_case. rewrite H. reflexivity. Qed.

Lemma find_after_approve rows now case_id analyst edited_text other :
  find (fun r => id r =? other) (map (approve_row now case_id analyst edited_text) rows)
  = option_map (approve_row now case_id analyst edited_text)
      (find (fun r => id r =? other) rows).
Proof. apply find_map_same_key. intros row. rewrite approve_row_id. reflexivity. Qed.

(** What [approve_case] does for a case that is in the store. *)
Lemma approve_case_of_stored db now case_id analyst edited_text row :
  get_case db case_id = Returns (Some row) ->
  fits_int64 case_id = true
  /\ approve_case db now case_id analyst edited_text
     = ({| cases := map (approve_row now case_id analyst edited_text) (cases db);
           audit_log := audit_log db |},
        Returns tt)
  /\ get_case {| cases := map (approve_row now case_id analyst edited_text) (cases db);
                 audit_log := audit_log db |} case_id
     = Returns (Some (approved_row now analyst edited_text row)).
Proof.
  intros Hrow.
  pose proof (get_case_in _ _ _ Hrow) as [_ Hid].
  apply get_case_returns in Hrow. destruct Hrow as [Hfits Hfind].
  split; [exact Hfits|]. split; [apply approve_case_fits; exact Hfits|].
  rewrite get_case_fits by exact Hfits. cbn [cases].
  rewrite find_after_approve, Hfind. cbn [option_map].
  subst case_id. unfold approve_row. rewrite Z.eqb_refl. reflexivity.
Qed.

(** X14.  Approving a case that is in the store sets its status to
    APPROVED and records the analyst, the time and the edited narrative;
    every other column of the row, the generated narrative among them, stays
    as it was. *)
Theorem approve_case_marks_the_case :
  forall (db : Db) (now : string) (case_id : Z) (analyst edited_text : string)
         (row : CaseRow),
    get_case db case_id = Returns (Some row) ->
    get_case (fst (approve_case db now case_id analyst edited_text)) case_id
    = Returns (Some (approved_row now analyst edited_text row))
    /\ sar_narrative (approved_row now analyst edited_text row) = sar_narrative row
    /\ audit_log (fst (approve_case db now case_id analyst edited_text)) = audit_log db
    /\ snd (approve_case db now case_id analyst edited_text) = Returns tt.
Proof.
  intros db now case_id analyst edited_text row Hrow.
  pose proof (get_case_in _ _ _ Hrow) as [_ Hid].
  apply get_case_returns in Hrow. destruct Hrow as [Hfits Hfind].
  rewrite approve_case_fits by exact Hfits. cbn [fst snd].
  rewrite get_case_fits by exact Hfits. cbn [cases audit_log].
  rewrite find_after_approve, Hfind. cbn [option_map].
  subst case_id. unfold approve_row. rewrite Z.eqb_refl.
  split; [reflexivity|]. split; [reflexivity|]. split; reflexivity.
Qed.

Lemma approve_case_marks_the_case_witness :
  let db := fst (save_case plain_error empty_db "2026-02-07 10:00:00.000000"
                   [("customer_name", "R. Mehta")] "first narrative" 30
                   "Structuring / Smurfing") in
  exists row,
    get_case db 1 = Returns (Some row)
    /\ get_case (fst (approve_case db "2026-02-08 09:00:00.000000" 1 "P. Verma" "edited")) 1
       = Returns (Some (approved_row "2026-02-08 09:00:00.000000" "P. Verma" "edited" row))
    /\ sar_narrative (approved_row "2026-02-08 09:00:00.000000" "P. Verma" "edited" row)
       = sar_narrative row
    /\ audit_log (fst (approve_case db "2026-02-08 09:00:00.000000" 1 "P. Verma" "edited"))
       = audit_log db
    /\ snd (approve_case db "2026-02-08 09:00:00.000000" 1 "P. Verma" "edited") = Returns tt.
Proof.
  intros db. eexists. split; [vm_compute; reflexivity|].
  apply (approve_case_marks_the_case db "2026-02-08 09:00:00.000000" 1 "P. Verma" "edited").
  vm_compute. reflexivity.
Defined.

Lemma map_fixed {A : Type} (f : A -> A) (l : list A) :
  (forall x, In x l -> f x = x) -> map f l = l.
Proof.
  intros H. induction l as [|a l IH]; [reflexivity|].
  cbn [map]. rewrite H by (left; reflexivity). rewrite IH; [reflexivity|].
  intros x Hx. apply H. right. exact Hx.
Qed.

(** X15.  Approving touches the one case only: every case with another id
    reads as before, and approving an id that is not in the store leaves
    the store as it was and raises nothing.  An id outside the signed 64-bit
    range raises the [OverflowError] of [sqlite3], the store as it was. *)
Theorem approve_case_touches_one_case :
  forall (db : Db) (now : string) (case_id : Z) (analyst edited_text : string),
    let db' := fst (approve_case db now case_id analyst edited_text) in
    let answer := snd (approve_case db now case_id analyst edited_text) in
    (forall other, other <> case_id -> get_case db' other = get_case db other)
    /\ (get_case db case_id = Returns None -> db' = db /\ answer = Returns tt)
    /\ (fits_int64 case_id = false -> db' = db /\ answer = Raises int_too_large).
Proof.
  intros db now case_id analyst edited_text db' answer.
  split; [|split].
  - intros other Hother. subst db'. unfold approve_case.
    destruct (fits_int64 case_id); cbn [negb fst]; [|reflexivity].
    unfold get_case. destruct (fits_int64 other); cbn [negb]; [|reflexivity].
    cbn [cases]. rewrite find_after_approve.
    destruct (find _ (cases db)) as [row|] eqn:Hrow; [|reflexivity].
    apply find_some in Hrow. destruct Hrow as [_ Hid]. apply Z.eqb_eq in Hid.
    cbn [option_map]. unfold approve_row.
    destruct (Z.eqb_spec (id row) case_id); [congruence | reflexivity].
  - intros Hnone. apply get_case_returns in Hnone. destruct Hnone as [Hfits Hnone].
    subst db' answer. rewrite approve_case_fits by exact Hfits. cbn [fst snd].
    split; [|reflexivity].
    destruct db as [rows log]. cbn [cases audit_log] in *.
    f_equal. apply map_fixed. intros row Hin.
    pose proof (find_none _ _ Hnone row Hin) as Hid. cbn beta in Hid.
    unfold approve_row. rewrite Hid. reflexivity.
  - intros Hfits. subst db' answer. rewrite approve_case_too_large by exact Hfits.
    split; reflexivity.
Qed.

Lemma approve_case_touches_one_case_witness :
  let db := fst (save_case plain_error empty_db "2026-02-07 10:00:00.000000"
                   [("customer_name", "R. Mehta")] "first narrative" 30
                   "Structuring / Smurfing") in
  get_case (fst (approve_case db "2026-02-08 09:00:00.000000" 7 "P. Verma" "edited")) 1
  = get_case db 1
  /\ approve_case db "2026-02-08 09:00:00.000000" 7 "P. Verma" "edited" = (db, Returns tt)
  /\ approve_case db "2026-02-08 09:00:00.000000" (2 ^ 63) "P. Verma" "edited"
     = (db, Raises int_too_large).
Proof.
  intros db.
  destruct (approve_case_touches_one_case db "2026-02-08 09:00:00.000000" 7
              "P. Verma" "edited") as (Hother & Hnone & _).
  destruct (approve_case_touches_one_case db "2026-02-08 09:00:00.000000" (2 ^ 63)
              "P. Verma" "edited") as (_ & _ & Hlarge).
  split; [apply Hother; discriminate|].
  split.
  - destruct (Hnone ltac:(vm_compute; reflexivity)) as [Hdb Hanswer].
    rewrite (surjective_pairing (approve_case _ _ _ _ _)), Hdb, Hanswer. reflexivity.
  - destruct (Hlarge ltac:(vm_compute; reflexivity)) as [Hdb Hanswer].
    rewrite (surjective_pairing (approve_case _ _ _ _ _)), Hdb, Hanswer. reflexivity.
Defined.

(** *** Ordered reads *)

Section OrderBy.
Context {A : Type}.
Variable le : A -> A -> bool.
Hypothesis le_total : forall a b, le a b = true \/ le b a = true.

Lemma insert_by_permutation x l : Permutation (x :: l) (insert_by le x l).
Proof.
  induction l as [|y l IH]; cbn [insert_by]; [apply Permutation_refl|].
  destruct (le x y); [apply Permutation_refl|].
  apply perm_trans with (y :: x :: l); [apply perm_swap|].
  apply perm_skip. exact IH.
Qed.

Lemma order_by_permutation l : Permutation l (order_by le l).
Proof.
  induction l as [|x l IH]; [apply Permutation_refl|].
  unfold order_by in *. cbn [fold_right].
  apply perm_trans with (x :: fold_right (insert_by le) [] l).
  - apply perm_skip. exact IH.
  - apply insert_by_permutation.
Qed.

Lemma insert_by_sorted x l :
  Sorted (fun a b => le a b = true) l ->
  Sorted (fun a b => le a b = true) (insert_by le x l).
Proof.
  induction l as [|y l IH]; intros Hs; cbn [insert_by].
  - repeat constructor.
  - destruct (le x y) eqn:Hxy.
    + constructor; [exact Hs|]. constructor. exact Hxy.
    + inversion Hs as [|? ? Hs' Hhd]; subst.
      constructor; [apply IH; exact Hs'|].
      destruct l as [|z l]; cbn [insert_by].
      * constructor. destruct (le_total x y) as [H|H]; [congruence | exact H].
      * destruct (le x z).
        -- constructor. destruct (le_total x y) as [H|H]; [congruence | exact H].
        -- inversion Hhd; subst. constructor. assumption.
Qed.

Lemma order_by_sorted l : Sorted (fun a b => le a b = true) (order_by le l).
Proof.
  induction l as [|x l IH]; [constructor|].
  unfold order_by in *. cbn [fold_right]. apply insert_by_sorted. exact IH.
Qed.

End OrderBy.

Lemma timestamp_order_total (a b : AuditRow) :
  String.leb (timestamp a) (timestamp b) = true
  \/ String.leb (timestamp b) (timestamp a) = true.
Proof. apply String.leb_total. Qed.

(** The trail that [get_audit_trail] returns for an id SQLite can hold. *)
Definition ordered_trail (db : Db) (case_id' : Z) : list AuditRow :=
  order_by (fun a b => String.leb (timestamp a) (timestamp b))
    (filter (fun r => case_id r =? case_id') (audit_log db)).

Lemma get_audit_trail_fits db case_id' :
  fits_int64 case_id' = true ->
  get_audit_trail db case_id' = Returns (ordered_trail db case_id').
Proof. intros H. unfold get_audit_trail. rewrite H. reflexivity. Qed.

Lemma get_audit_trail_too_large db case_id' :
  fits_int64 case_id' = false -> get_audit_trail db case_id' = Raises int_too_large.
Proof. intros H. unfold get_audit_trail. rewrite H. reflexivity. Qed.

(** X16.  For an id that SQLite can hold, the audit trail of a case is the
    rows of the log with that case id, all of them and no other, each as it
    was written, from the earliest timestamp to the latest.  For an id
    outside the signed 64-bit range the read raises the [OverflowError] of
    [sqlite3]. *)
Theorem audit_trail_is_complete_and_ordered :
  forall (db : Db) (case_id' : Z),
    (fits_int64 case_id' = true ->
     exists trail,
       get_audit_trail db case_id' = Returns trail
       /\ Permutation (filter (fun r => case_id r =? case_id') (audit_log db)) trail
       /\ Sorted (fun a b => String.leb (timestamp a) (timestamp b) = true) trail
       /\ (forall row, In row trail <-> In row (audit_log db) /\ case_id row = case_id'))
    /\ (fits_int64 case_id' = false ->
        get_audit_trail db case_id' = Raises int_too_large).
Proof.
  intros db case_id'. split; [|apply get_audit_trail_too_large].
  intros Hfits. exists (ordered_trail db case_id').
  split; [apply get_audit_trail_fits; exact Hfits|].
  unfold ordered_trail.
  set (rows := filter (fun r => case_id r =? case_id') (audit_log db)).
  pose proof (order_by_permutation
                (fun a b => String.leb (timestamp a) (timestamp b)) rows) as Hperm.
  split; [exact Hperm|]. split.
  - apply order_by_sorted. intros a b. apply timestamp_order_total.
  - intros row. split.
    + intros Hin. apply (Permutation_in _ (Permutation_sym Hperm)) in Hin.
      subst rows. apply filter_In in Hin. destruct Hin as [Hin Hid].
      split; [exact Hin | apply Z.eqb_eq; exact Hid].
    + intros [Hin Hid]. apply (Permutation_in _ Hperm).
      subst rows. apply filter_In. split; [exact Hin | apply Z.eqb_eq; exact Hid].
Qed.

Lemma audit_trail_is_complete_and_ordered_witness :
  let db := fst (save_audit plain_error
                   (fst (save_audit plain_error empty_db "2026-02-08 09:00:00.000000" 1
                           "SAR_APPROVED" "P. Verma" "approved" EmptyString))
                   "2026-02-07 10:00:00.000000" 1 "SAR_GENERATED" "P. Verma" "generated"
                   EmptyString) in
  (exists first second,
     get_audit_trail db 1 = Returns [first; second]
     /\ action first = "SAR_GENERATED"%string
     /\ action second = "SAR_APPROVED"%string)
  /\ get_audit_trail db (2 ^ 63) = Raises int_too_large.
Proof.
  intros db. split.
  - eexists. eexists. split; [vm_compute; reflexivity|]. split; reflexivity.
  - apply (audit_trail_is_complete_and_ordered db (2 ^ 63)). vm_compute. reflexivity.
Defined.

(** X17.  The list of all cases holds every case of the store once, from
    the latest creation time to the earliest. *)
Theorem all_cases_are_listed_latest_first :
  forall db : Db,
    Permutation (cases db) (get_all_cases db)
    /\ Sorted (fun a b => String.leb (created_at b) (created_at a) = true)
              (get_all_cases db)
    /\ Server.total (Server.get_all_cases_endpoint db)
       = Z.of_nat (List.length (cases db)).
Proof.
  intros db. unfold get_all_cases.
  pose proof (order_by_permutation
                (fun a b => String.leb (created_at b) (created_at a)) (cases db)) as Hperm.
  split; [exact Hperm|]. split.
  - apply (order_by_sorted (fun a b => String.leb (created_at b) (created_at a))).
    intros a b. apply String.leb_total.
  - unfold Server.get_all_cases_endpoint. cbn [Server.total]. unfold get_all_cases.
    rewrite <- (Permutation_length Hperm). reflexivity.
Qed.

(** *** Statistics *)

(** Every case is a draft or approved. *)
Definition known_status (row : CaseRow) : Prop :=
  status row = "DRAFT"%string \/ status row = "APPROVED"%string.

Lemma approve_row_known_status now case_id analyst edited_text row :
  known_status row -> known_status (approve_row now case_id analyst edited_text row).
Proof.
  intros H. unfold approve_row. destruct (id row =? case_id); [right; reflexivity | exact H].
Qed.

Lemma reachable_known_status db : reachable db -> Forall known_status (cases db).
Proof.
  induction 1 as [|operational_error db now data sar_text score label _ IH
                  |operational_error db now case_id action analyst detail data_used _ IH
                  |db now case_id analyst edited_text _ IH].
  - constructor.
  - unfold save_case.
    destruct (fits_int64 score), (has_room (map id (cases db)));
      cbn [negb fst cases]; try exact IH.
    apply Forall_app. split; [exact IH|].
    constructor; [left; reflexivity | constructor].
  - unfold save_audit.
    destruct (fits_int64 case_id), (has_room (map audit_id (audit_log db)));
      cbn [negb fst cases]; exact IH.
  - unfold approve_case. destruct (fits_int64 case_id); cbn [negb fst cases]; [|exact IH].
    apply Forall_map.
    apply (Forall_impl _ (approve_row_known_status now case_id analyst edited_text)).
    exact IH.
Qed.

Lemma count_cons {A : Type} (p : A -> bool) (x : A) (l : list A) :
  count p (x :: l) = (if p x then 1 else 0) + count p l.
Proof. unfold count. cbn [filter]. destruct (p x); cbn [List.length]; lia. Qed.

Lemma count_bounds {A : Type} (p : A -> bool) (l : list A) :
  0 <= count p l <= count (fun _ => true) l.
Proof.
  induction l as [|x l IH]; [unfold count; cbn; lia|].
  rewrite !count_cons. destruct (p x); lia.
Qed.

(** X18.  In every store the program can get to, each case counts either
    as approved or as a draft: the total of the statistics is the sum of the
    two, and the high-risk count is part of it. *)
Theorem stats_add_up :
  forall db : Db,
    reachable db ->
    total_cases (get_stats db) = approved (get_stats db) + draft (get_stats db)
    /\ 0 <= high_risk (get_stats db) <= total_cases (get_stats db).
Proof.
  intros db Hreach. apply reachable_known_status in Hreach.
  unfold get_stats. cbn [total_cases approved draft high_risk].
  split; [|apply count_bounds].
  induction Hreach as [|row rows Hrow _ IH]; [reflexivity|].
  rewrite !count_cons, IH.
  destruct Hrow as [Hs|Hs]; rewrite Hs.
  - change (String.eqb "DRAFT" "APPROVED") with false.
    change (String.eqb "DRAFT" "DRAFT") with true. cbv iota. lia.
  - change (String.eqb "APPROVED" "APPROVED") with true.
    change (String.eqb "APPROVED" "DRAFT") with false. cbv iota. lia.
Qed.

Lemma stats_add_up_witness :
  let db :=
    fst (approve_case
           (fst (save_case plain_error
                   (fst (save_case plain_error empty_db "2026-02-07 10:00:00.000000"
                           [("customer_name", "R. Mehta")] "first narrative" 30
                           "Structuring / Smurfing"))
                   "2026-02-07 11:00:00.000000"
                   [("customer_name", "A. Rao")] "second narrative" 72
                   "Terrorist Financing"))
           "2026-02-08 09:00:00.000000" 2 "P. Verma" "edited") in
  get_stats db = {| total_cases := 2; approved := 1; draft := 1; high_risk := 1 |}
  /\ total_cases (get_stats db) = approved (get_stats db) + draft (get_stats db)
  /\ 0 <= high_risk (get_stats db) <= total_cases (get_stats db).
Proof.
  intros db. split; [vm_compute; reflexivity|].
  apply (stats_add_up db).
  subst db. repeat constructor.
Defined.

End DatabaseSpec.

(* ================================================================== *)
(** ** Properties of the risk bands *)
(* ================================================================== *)

Module FrontendSpec.
Import Frontend.

Local Open Scope Z_scope.

(** X19.  The label and the disc of a score always go together: HIGH RISK
    and red from 70 up, MEDIUM RISK and yellow from 40 to 69, LOW RISK and
    green below 40. *)
Theorem label_and_color_agree :
  forall score : Z,
    (70 <= score /\ get_risk_label score = "HIGH RISK"%string
     /\ get_risk_color score = "🔴"%string)
    \/ (40 <= score < 70 /\ get_risk_label score = "MEDIUM RISK"%string
        /\ get_risk_color score = "🟡"%string)
    \/ (score < 40 /\ get_risk_label score = "LOW RISK"%string
        /\ get_risk_color score = "🟢"%string).
Proof.
  intros score. unfold get_risk_label, get_risk_color.
  destruct (Z.geb_spec score 70) as [H70|H70].
  - left. repeat split. lia.
  - destruct (Z.geb_spec score 40) as [H40|H40].
    + right. left. repeat split; lia.
    + right. right. repeat split. lia.
Qed.

(** The band of the pie chart that goes with a label. *)
Definition band_of_label (label : string) : option string :=
  if String.eqb label "HIGH RISK" then Some "High (70-100)"%string
  else if String.eqb label "MEDIUM RISK" then Some "Medium (40-70)"%string
  else if String.eqb label "LOW RISK" then Some "Low (0-40)"%string
  else None.

(** X20.  For a score from 1 to 100 the band of the dashboard's pie chart
    is the band of the score's label, except at 40 and at 70: there the
    label says MEDIUM RISK and HIGH RISK, the pie chart Low and Medium. *)
Theorem pie_chart_band_differs_at_the_thresholds :
  forall score : Z,
    0 < score <= 100 ->
    (risk_band score = band_of_label (get_risk_label score)
     <-> score <> 40 /\ score <> 70).
Proof.
  intros score Hrange. unfold risk_band, get_risk_label.
  destruct (Z.geb_spec score 70) as [H70|H70];
    [|destruct (Z.geb_spec score 40) as [H40|H40]]; cbn [band_of_label String.eqb].
  - destruct (Z.eq_dec score 70) as [->|Hne].
    + cbn. split; [discriminate | intros [_ H]; contradiction].
    + replace ((0 <? score) && (score <=? 40)) with false by lia.
      replace ((40 <? score) && (score <=? 70)) with false by lia.
      replace ((70 <? score) && (score <=? 100)) with true by lia.
      cbn. split; [intros _; lia | reflexivity].
  - destruct (Z.eq_dec score 40) as [->|Hne].
    + cbn. split; [discriminate | intros [H _]; contradiction].
    + replace ((0 <? score) && (score <=? 40)) with false by lia.
      replace ((40 <? score) && (score <=? 70)) with true by lia.
      cbn. split; [intros _; lia | reflexivity].
  - replace ((0 <? score) && (score <=? 40)) with true by lia.
    cbn. split; [intros _; lia | reflexivity].
Qed.

Lemma pie_chart_band_differs_at_the_thresholds_witness :
  0 < 70 <= 100
  /\ (risk_band 70 = band_of_label (get_risk_label 70) <-> 70 <> 40 /\ 70 <> 70)
  /\ risk_band 70 = Some "Medium (40-70)"%string
  /\ get_risk_label 70 = "HIGH RISK"%string.
Proof.
  split; [lia|]. split; [|split; reflexivity].
  apply (pie_chart_band_differs_at_the_thresholds 70). lia.
Defined.

(** X21.  The high-risk count of the statistics is the number of cases
    whose score carries the label HIGH RISK. *)
Theorem high_risk_count_matches_the_label :
  forall db : Database.Db,
    Database.high_risk (Database.get_stats db)
    = Database.count
        (fun row => String.eqb (get_risk_label (Database.risk_score row)) "HIGH RISK")
        (Database.cases db).
Proof.
  intros db. unfold Database.get_stats. cbn [Database.high_risk].
  unfold Database.count. f_equal. f_equal.
  apply filter_ext. intros row. unfold get_risk_label.
  destruct (Z.geb_spec (Database.risk_score row) 70) as [H|H].
  - cbn. apply Z.leb_le. lia.
  - destruct (Database.risk_score row >=? 40); cbn; apply Z.leb_gt; lia.
Qed.

End FrontendSpec.

(* ================================================================== *)
(** ** Properties of the handlers on the store *)
(* ================================================================== *)

Module ServerSpec.
Import PyStr Exc PyJson Services FieldJson PipelineSpec.
Import Server Database DatabaseSpec.

Local Open Scope Z_scope.

(** A writer for the dict the approval logs. *)
Definition approval_text (a : ApprovalAudit) : string :=
  "original_narrative_length=" ++ str_of_int (original_narrative_length a) ++
  " final_narrative_length=" ++ str_of_int (final_narrative_length a) ++
  " edits_made=" ++ (if edits_made a then "true" else "false").

(** The text the pipeline is given for a request. *)
Definition full_text (case_input : Main.CaseInput) : string :=
  match Main.additional_context case_input with
  | Some (String c context) =>
      Main.transactions case_input ++ nl ++ nl ++ "ADDITIONAL CONTEXT:" ++ nl ++
      String c context
  | _ => Main.transactions case_input
  end.

(** The request of the demo used in the examples below. *)
Definition mehta_request : Main.CaseInput :=
  {| Main.customer_name := "R. Mehta";
     Main.account_number := "ACC-1042";
     Main.transactions := "9 cash deposits of 49,000 each";
     Main.analyst_name := "P. Verma";
     Main.additional_context := Some "customer cannot explain the source" |}.

(** An audit log whose last row has the largest id there is. *)
Definition full_log : Db :=
  {| cases := [];
     audit_log := [ {| audit_id := max_int64;
                       case_id := 1;
                       action := "SAR_GENERATED";
                       analyst := "P. Verma";
                       detail := "SAR generated. Risk Score: 30/100. Typology: Structuring / Smurfing";
                       timestamp := "2026-02-07 10:00:00.120000";
                       data_used := EmptyString |} ] |}.

Lemma full_text_eq case_input :
  (if Main.truthy (Main.additional_context case_input)
   then Main.transactions case_input ++ nl ++ nl ++ "ADDITIONAL CONTEXT:" ++ nl ++
        match Main.additional_context case_input with Some c => c | None => EmptyString end
   else Main.transactions case_input)%string
  = full_text case_input.
Proof.
  unfold full_text, Main.truthy.
  destruct (Main.additional_context case_input) as [[|c context]|]; reflexivity.
Qed.

(** *** Writing to the log *)

Lemma save_audit_returns operational_error db now case_id' action' analyst' detail' data :
  fits_int64 case_id' = true -> has_room (map audit_id (audit_log db)) = true ->
  save_audit operational_error db now case_id' action' analyst' detail' data
  = ({| cases := cases db;
        audit_log := audit_log db ++
                     [ {| audit_id := next_id (map audit_id (audit_log db));
                          case_id := case_id';
                          action := action';
                          analyst := analyst';
                          detail := detail';
                          timestamp := now;
                          data_used := data |} ] |},
     Returns tt).
Proof. intros Hfits Hroom. unfold save_audit. rewrite Hfits, Hroom. reflexivity. Qed.

Lemma save_audit_too_large operational_error db now case_id' action' analyst' detail' data :
  fits_int64 case_id' = false ->
  save_audit operational_error db now case_id' action' analyst' detail' data
  = (db, Raises int_too_large).
Proof. intros Hfits. unfold save_audit. rewrite Hfits. reflexivity. Qed.

Lemma save_audit_full operational_error db now case_id' action' analyst' detail' data :
  has_room (map audit_id (audit_log db)) = false ->
  exists e,
    save_audit operational_error db now case_id' action' analyst' detail' data
    = (db, Raises e).
Proof.
  intros Hroom. unfold save_audit. rewrite Hroom.
  destruct (fits_int64 case_id'); cbn [negb]; eauto.
Qed.

(** The log never writes to the table of cases. *)
Lemma save_audit_cases operational_error db now case_id' action' analyst' detail' data :
  cases (fst (save_audit operational_error db now case_id' action' analyst' detail' data))
  = cases db.
Proof.
  unfold save_audit.
  destruct (fits_int64 case_id'), (has_room (map audit_id (audit_log db))); reflexivity.
Qed.

Lemma fits_risk_score score : 30 <= score <= 100 -> fits_int64 score = true.
Proof.
  intros H. apply fits_int64_spec.
  change min_int64 with (-9223372036854775808).
  change max_int64 with 9223372036854775807. lia.
Qed.

(** Every run of the pipeline returns a payload that is the text of a dict
    and a score SQLite can hold. *)
Lemma generate_sar_scored json chroma_client llm transactions customer_name account_number :
  exists result audit,
    Pipeline.generate_sar json chroma_client llm transactions customer_name account_number
    = Returns result
    /\ Pipeline.audit_data result = dumps json audit
    /\ fits_int64 (Pipeline.risk_score result) = true.
Proof.
  rewrite generate_sar_eq. cbv zeta.
  assert (Hrange : 30 <= fst (Scoring.calculate_risk_score transactions customer_name) <= 100).
  { unfold Scoring.calculate_risk_score. cbn [fst]. lia. }
  apply fits_risk_score in Hrange.
  destruct (invoke llm _) as [text|e]; eexists; eexists;
    (split; [reflexivity|]); (split; [reflexivity | exact Hrange]).
Qed.

(** X22.  A request to generate, on a store whose two tables have a row id
    left, is answered with success, and the store then holds what the answer
    says: a new case, in status DRAFT, with the narrative, the risk score
    and the typology of the answer and the text that was classified; and one
    more audit row, for that case, with the action SAR_GENERATED and the
    audit payload of the answer.  With no row id left for the case the
    answer is 500 and the store is as it was; with none left for the audit
    row the answer is 500 too, and the case stays in the store without an
    audit row. *)
Theorem generated_case_is_stored :
  forall (json : Json) (operational_error : string -> list string -> string)
         (chroma_client : Chroma) (llm : Llm) (db : Db)
         (now_case now_audit : string) (case_input : Main.CaseInput),
    let answer :=
      generate_sar_endpoint json operational_error chroma_client llm db
        now_case now_audit case_input in
    (has_room (map id (cases db)) = true ->
     has_room (map audit_id (audit_log db)) = true ->
     exists db' body row entry,
       answer = (db', Main.Ok body)
       /\ Main.success body = true
       /\ get_case db (Main.case_id body) = Returns None
       /\ get_case db' (Main.case_id body) = Returns (Some row)
       /\ sar_narrative row = Main.sar_narrative body
       /\ risk_score row = Main.response_risk_score body
       /\ typology row = Main.response_typology body
       /\ status row = "DRAFT"%string
       /\ transactions row = full_text case_input
       /\ created_at row = now_case
       /\ audit_log db' = (audit_log db ++ [entry])%list
       /\ case_id entry = Main.case_id body
       /\ action entry = "SAR_GENERATED"%string
       /\ timestamp entry = now_audit
       /\ loads json (data_used entry) = Returns (Main.audit_summary body))
    /\ (has_room (map id (cases db)) = false ->
        exists e,
          answer = (db, Main.HTTPException 500 ("SAR generation failed: " ++ e)))
    /\ (has_room (map id (cases db)) = true ->
        has_room (map audit_id (audit_log db)) = false ->
        exists db' e row,
          answer = (db', Main.HTTPException 500 ("SAR generation failed: " ++ e))
          /\ cases db' = (cases db ++ [row])%list
          /\ status row = "DRAFT"%string
          /\ transactions row = full_text case_input
          /\ audit_log db' = audit_log db).
Proof.
  intros json operational_error chroma_client llm db now_case now_audit case_input answer.
  subst answer. unfold generate_sar_endpoint. rewrite full_text_eq.
  destruct (generate_sar_scored json chroma_client llm (full_text case_input)
              (Main.customer_name case_input) (Main.account_number case_input))
    as (result & audit & Hresult & Hpayload & Hscore).
  rewrite Hresult.
  split; [|split].
  - intros Hcases Hlog.
    pose proof (has_room_fits _ Hcases) as Hid.
    rewrite save_case_returns by assumption.
    rewrite save_audit_returns by assumption.
    rewrite Hpayload, loads_dumps.
    eexists. eexists. eexists. eexists.
    split; [reflexivity|].
    cbn [Main.success Main.case_id Main.sar_narrative Main.response_risk_score
         Main.response_typology Main.audit_summary].
    split; [reflexivity|].
    split; [apply get_case_fresh; exact Hcases|].
    split.
    { rewrite get_case_fits by exact Hid. cbn [cases].
      rewrite find_last, find_fresh. cbn [id]. rewrite Z.eqb_refl. reflexivity. }
    cbn [sar_narrative risk_score typology status transactions created_at get
         String.eqb Ascii.eqb Bool.eqb audit_log case_id action timestamp data_used].
    repeat (split; [reflexivity|]).
    apply loads_dumps.
  - intros Hcases. unfold save_case. rewrite Hscore, Hcases. cbn [negb].
    eexists. reflexivity.
  - intros Hcases Hlog.
    pose proof (has_room_fits _ Hcases) as Hid.
    rewrite save_case_returns by assumption.
    unfold save_audit. cbn [audit_log]. rewrite Hid, Hlog. cbn [negb].
    eexists. eexists. eexists.
    split; [reflexivity|]. cbn [cases audit_log].
    split; [reflexivity|].
    cbn [status transactions get String.eqb Ascii.eqb Bool.eqb].
    repeat split.
Qed.

(** The store after the demo request was generated at 10:00, with the
    retrieval and the backend both down. *)
Definition store_with_mehta : Db :=
  fst (generate_sar_endpoint field_json plain_error unreachable_chroma offline_llm empty_db
         "2026-02-07 10:00:00.000000" "2026-02-07 10:00:00.120000" mehta_request).

Lemma generated_case_is_stored_witness :
  (exists row entry,
     get_case store_with_mehta 1 = Returns (Some row)
     /\ status row = "DRAFT"%string
     /\ risk_score row = 30
     /\ audit_log store_with_mehta = [entry]
     /\ case_id entry = 1
     /\ action entry = "SAR_GENERATED"%string)
  /\ (exists e,
        generate_sar_endpoint field_json plain_error unreachable_chroma offline_llm
          full_cases "2026-02-07 10:00:00.000000" "2026-02-07 10:00:00.120000"
          mehta_request
        = (full_cases, Main.HTTPException 500 ("SAR generation failed: " ++ e)))
  /\ (exists db' e row,
        generate_sar_endpoint field_json plain_error unreachable_chroma offline_llm
          full_log "2026-02-07 10:00:00.000000" "2026-02-07 10:00:00.120000"
          mehta_request
        = (db', Main.HTTPException 500 ("SAR generation failed: " ++ e))
        /\ cases db' = (cases full_log ++ [row])%list
        /\ status row = "DRAFT"%string
        /\ transactions row = full_text mehta_request
        /\ audit_log db' = audit_log full_log).
Proof.
  split; [|split].
  - eexists. eexists. split; [vm_compute; reflexivity|]. repeat split.
  - apply (generated_case_is_stored field_json plain_error unreachable_chroma offline_llm
             full_cases "2026-02-07 10:00:00.000000" "2026-02-07 10:00:00.120000"
             mehta_request).
    vm_compute. reflexivity.
  - apply (generated_case_is_stored field_json plain_error unreachable_chroma offline_llm
             full_log "2026-02-07 10:00:00.000000" "2026-02-07 10:00:00.120000"
             mehta_request); vm_compute; reflexivity.
Defined.

(** X23.  Approving a case that is in the store, with a row id left in the
    log, is answered with success.  The case then reads as approved by the
    analyst with the edited narrative, its generated narrative kept; the log
    has one more row, with the action SAR_APPROVED, whose data say how long
    the two narratives are and whether they differ.  With no row id left in
    the log the answer is 500, and the case reads as approved all the same,
    with nothing in the log. *)
Theorem approval_is_stored_and_logged :
  forall (dumps_approval : ApprovalAudit -> string)
         (operational_error : string -> list string -> string) (db : Db)
         (now_approve now_audit : string) (approval : ApprovalInput) (row : CaseRow),
    get_case db (approval_case_id approval) = Returns (Some row) ->
    let answer :=
      approve_sar_endpoint dumps_approval operational_error db now_approve now_audit
        approval in
    (has_room (map audit_id (audit_log db)) = true ->
     exists db' entry,
       answer
       = (db', Main.Ok {| success := true;
                          response_case_id := approval_case_id approval;
                          response_status := "APPROVED";
                          message := "SAR approved and ready for regulatory filing." |})
       /\ get_case db' (approval_case_id approval)
          = Returns (Some (approved_row now_approve (approval_analyst_name approval)
                             (Server.edited_narrative approval) row))
       /\ audit_log db' = (audit_log db ++ [entry])%list
       /\ case_id entry = approval_case_id approval
       /\ action entry = "SAR_APPROVED"%string
       /\ analyst entry = approval_analyst_name approval
       /\ timestamp entry = now_audit
       /\ data_used entry
          = dumps_approval
              {| original_narrative_length := len (sar_narrative row);
                 final_narrative_length := len (Server.edited_narrative approval);
                 edits_made :=
                   negb (String.eqb (Server.edited_narrative approval)
                           (sar_narrative row)) |})
    /\ (has_room (map audit_id (audit_log db)) = false ->
        exists db' e,
          answer = (db', Main.HTTPException 500 e)
          /\ get_case db' (approval_case_id approval)
             = Returns (Some (approved_row now_approve (approval_analyst_name approval)
                                (Server.edited_narrative approval) row))
          /\ audit_log db' = audit_log db).
Proof.
  intros dumps_approval operational_error db now_approve now_audit approval row Hrow answer.
  pose proof (approve_case_of_stored db now_approve (approval_case_id approval)
                (approval_analyst_name approval) (Server.edited_narrative approval) row Hrow)
    as (Hfits & Happrove & Hread).
  subst answer. unfold approve_sar_endpoint. rewrite Hrow, Happrove.
  split.
  - intros Hlog. rewrite save_audit_returns by assumption.
    eexists. eexists. split; [reflexivity|].
    split.
    { rewrite <- Hread. apply get_case_same_cases. reflexivity. }
    cbn [audit_log case_id action analyst timestamp data_used].
    repeat split.
  - intros Hlog.
    destruct (save_audit_full operational_error
                {| cases := map (approve_row now_approve (approval_case_id approval)
                                   (approval_analyst_name approval)
                                   (Server.edited_narrative approval)) (cases db);
                   audit_log := audit_log db |}
                now_audit (approval_case_id approval) "SAR_APPROVED"
                (approval_analyst_name approval)
                "Analyst reviewed and approved SAR for filing."
                (dumps_approval
                   {| original_narrative_length := len (sar_narrative row);
                      final_narrative_length := len (Server.edited_narrative approval);
                      edits_made :=
                        negb (String.eqb (Server.edited_narrative approval)
                                (sar_narrative row)) |}) Hlog) as [e He].
    rewrite He. eexists. eexists. split; [reflexivity|].
    split; [exact Hread | reflexivity].
Qed.

Lemma approval_is_stored_and_logged_witness :
  exists row db' entry,
    get_case store_with_mehta 1 = Returns (Some row)
    /\ status row = "DRAFT"%string
    /\ approve_sar_endpoint approval_text plain_error store_with_mehta
         "2026-02-08 09:00:00.000000" "2026-02-08 09:00:00.050000"
         {| approval_case_id := 1;
            approval_analyst_name := "P. Verma";
            Server.edited_narrative := "edited narrative" |}
       = (db', Main.Ok {| success := true;
                          response_case_id := 1;
                          response_status := "APPROVED";
                          message := "SAR approved and ready for regulatory filing." |})
    /\ get_case db' 1
       = Returns (Some (approved_row "2026-02-08 09:00:00.000000" "P. Verma"
                          "edited narrative" row))
    /\ audit_log db' = (audit_log store_with_mehta ++ [entry])%list
    /\ case_id entry = 1
    /\ action entry = "SAR_APPROVED"%string
    /\ analyst entry = "P. Verma"%string
    /\ timestamp entry = "2026-02-08 09:00:00.050000"%string
    /\ data_used entry
       = approval_text
           {| original_narrative_length := len (sar_narrative row);
              final_narrative_length := len "edited narrative";
              edits_made := negb (String.eqb "edited narrative" (sar_narrative row)) |}.
Proof.
  assert (Hrow : exists row, get_case store_with_mehta 1 = Returns (Some row)
                             /\ status row = "DRAFT"%string).
  { eexists. split; vm_compute; reflexivity. }
  destruct Hrow as (row & Hrow & Hstatus).
  destruct (approval_is_stored_and_logged approval_text plain_error store_with_mehta
              "2026-02-08 09:00:00.000000" "2026-02-08 09:00:00.050000"
              {| approval_case_id := 1;
                 approval_analyst_name := "P. Verma";
                 Server.edited_narrative := "edited narrative" |} row Hrow)
    as [Hlogged _].
  destruct (Hlogged ltac:(vm_compute; reflexivity)) as (db' & entry & H).
  exists row, db', entry. split; [exact Hrow|]. split; [exact Hstatus | exact H].
Defined.

(** X24.  A rejection never writes the case: whatever the answer, every
    case reads as before, the rejected one still in the status it had, and
    the statistics do not change.  For an id that SQLite can hold, with a
    row id left in the log, the answer is the status REJECTED and the
    rejection is logged with its reason.  For an id outside the signed
    64-bit range the answer is 500 with the text of the [OverflowError], and
    with no row id left in the log it is 500 too; nothing is logged then. *)
Theorem rejection_is_logged_only :
  forall (operational_error : string -> list string -> string)
         (db : Db) (now_audit : string) (reject : RejectInput),
    let answer := reject_sar_endpoint operational_error db now_audit reject in
    (forall other, get_case (fst answer) other = get_case db other)
    /\ get_stats (fst answer) = get_stats db
    /\ (fits_int64 (reject_case_id reject) = true ->
        has_room (map audit_id (audit_log db)) = true ->
        exists entry,
          snd answer
          = Main.Ok {| success := true;
                       response_case_id := reject_case_id reject;
                       response_status := "REJECTED";
                       message := "SAR sent back for revision." |}
          /\ audit_log (fst answer) = (audit_log db ++ [entry])%list
          /\ case_id entry = reject_case_id reject
          /\ action entry = "SAR_REJECTED"%string
          /\ detail entry = ("SAR rejected. Reason: " ++ reason reject)%string
          /\ data_used entry = EmptyString)
    /\ (fits_int64 (reject_case_id reject) = false ->
        answer = (db, Main.HTTPException 500 int_too_large))
    /\ (has_room (map audit_id (audit_log db)) = false ->
        exists e, answer = (db, Main.HTTPException 500 e)).
Proof.
  intros operational_error db now_audit reject answer.
  assert (Hcases : cases (fst answer) = cases db).
  { subst answer. unfold reject_sar_endpoint, save_audit.
    destruct (fits_int64 (reject_case_id reject)),
             (has_room (map audit_id (audit_log db))); reflexivity. }
  split; [intros other; apply get_case_same_cases; exact Hcases|].
  split; [unfold get_stats; rewrite Hcases; reflexivity|].
  subst answer. unfold reject_sar_endpoint.
  split; [|split].
  - intros Hfits Hlog. rewrite save_audit_returns by assumption.
    eexists. cbn [fst snd audit_log case_id action detail data_used]. repeat split.
  - intros Hfits. rewrite save_audit_too_large by exact Hfits. reflexivity.
  - intros Hlog.
    destruct (save_audit_full operational_error db now_audit (reject_case_id reject)
                "SAR_REJECTED" (reject_analyst_name reject)
                ("SAR rejected. Reason: " ++ reason reject) EmptyString Hlog) as [e He].
    rewrite He. exists e. reflexivity.
Qed.

Lemma rejection_is_logged_only_witness :
  (exists entry,
     snd (reject_sar_endpoint plain_error store_with_mehta "2026-02-08 09:00:00.050000"
            {| reject_case_id := 1; reject_analyst_name := "P. Verma";
               reason := "amounts do not add up" |})
     = Main.Ok {| success := true;
                  response_case_id := 1;
                  response_status := "REJECTED";
                  message := "SAR sent back for revision." |}
     /\ audit_log
          (fst (reject_sar_endpoint plain_error store_with_mehta
                  "2026-02-08 09:00:00.050000"
                  {| reject_case_id := 1; reject_analyst_name := "P. Verma";
                     reason := "amounts do not add up" |}))
        = (audit_log store_with_mehta ++ [entry])%list
     /\ detail entry = "SAR rejected. Reason: amounts do not add up"%string)
  /\ reject_sar_endpoint plain_error store_with_mehta "2026-02-08 09:00:00.050000"
       {| reject_case_id := 2 ^ 63; reject_analyst_name := "P. Verma";
          reason := "amounts do not add up" |}
     = (store_with_mehta, Main.HTTPException 500 int_too_large).
Proof.
  split.
  - destruct (rejection_is_logged_only plain_error store_with_mehta
                "2026-02-08 09:00:00.050000"
                {| reject_case_id := 1; reject_analyst_name := "P. Verma";
                   reason := "amounts do not add up" |}) as (_ & _ & Hlogged & _).
    destruct (Hlogged ltac:(vm_compute; reflexivity) ltac:(vm_compute; reflexivity))
      as (entry & Hanswer & Hlog & _ & _ & Hdetail & _).
    exists entry. split; [exact Hanswer|]. split; [exact Hlog | exact Hdetail].
  - apply (rejection_is_logged_only plain_error store_with_mehta
             "2026-02-08 09:00:00.050000"
             {| reject_case_id := 2 ^ 63; reject_analyst_name := "P. Verma";
                reason := "amounts do not add up" |}).
    vm_compute. reflexivity.
Defined.

Lemma order_by_nil {A : Type} (le : A -> A -> bool) (l : list A) :
  order_by le l = [] <-> l = [].
Proof.
  split; intros H.
  - pose proof (Permutation_length (order_by_permutation le l)) as Hlen.
    rewrite H in Hlen. destruct l; [reflexivity | discriminate Hlen].
  - subst l. reflexivity.
Qed.

Lemma ordered_trail_length db case_id' :
  List.length (ordered_trail db case_id')
  = List.length (filter (fun r => case_id r =? case_id') (audit_log db)).
Proof.
  unfold ordered_trail. symmetry. apply Permutation_length, order_by_permutation.
Qed.

Lemma ordered_trail_nil db case_id' :
  ordered_trail db case_id' = []
  <-> forall row, In row (audit_log db) -> case_id row <> case_id'.
Proof.
  unfold ordered_trail. rewrite order_by_nil. split.
  - intros Hnil row Hin Hid.
    assert (Hrow : In row (filter (fun r => case_id r =? case_id') (audit_log db))).
    { apply filter_In. split; [exact Hin | apply Z.eqb_eq; exact Hid]. }
    rewrite Hnil in Hrow. exact Hrow.
  - intros Hnone.
    destruct (filter _ (audit_log db)) as [|first rest] eqn:Hf; [reflexivity|].
    exfalso.
    assert (Hin : In first (filter (fun r => case_id r =? case_id') (audit_log db)))
      by (rewrite Hf; left; reflexivity).
    apply filter_In in Hin. destruct Hin as [Hin Hid]. apply Z.eqb_eq in Hid.
    exact (Hnone first Hin Hid).
Qed.

(** X25.  For an id that SQLite can hold, the audit trail of a case is
    answered with 404 exactly when no row of the log carries the case id;
    otherwise the answer holds the ordered trail and counts its rows.  For
    an id outside the signed 64-bit range the [OverflowError] of the read
    leaves the handler, which the framework answers with 500. *)
Theorem audit_trail_answer :
  forall (db : Db) (case_id' : Z),
    (fits_int64 case_id' = true ->
     (get_audit_trail_endpoint db case_id'
      = Returns (Main.HTTPException 404 "No audit trail found for this case")
      <-> forall row, In row (audit_log db) -> case_id row <> case_id')
     /\ ((exists row, In row (audit_log db) /\ case_id row = case_id') ->
         exists trail,
           get_audit_trail db case_id' = Returns trail
           /\ get_audit_trail_endpoint db case_id'
              = Returns (Main.Ok {| trail_case_id := case_id';
                                    total_events :=
                                      count (fun r => case_id r =? case_id')
                                        (audit_log db);
                                    audit_trail := trail |})))
    /\ (fits_int64 case_id' = false ->
        get_audit_trail_endpoint db case_id' = Raises int_too_large
        /\ status_code (get_audit_trail_endpoint db case_id') = 500).
Proof.
  intros db case_id'. unfold get_audit_trail_endpoint. split.
  - intros Hfits. rewrite get_audit_trail_fits by exact Hfits. cbn [bind].
    destruct (ordered_trail db case_id') as [|first trail] eqn:Htrail.
    + pose proof (proj1 (ordered_trail_nil db case_id') Htrail) as Hnone.
      split.
      * split; [intros _; exact Hnone | reflexivity].
      * intros (row & Hin & Hid). exfalso. exact (Hnone row Hin Hid).
    + split.
      * split; [discriminate|]. intros Hnone.
        apply ordered_trail_nil in Hnone. rewrite Htrail in Hnone. discriminate Hnone.
      * intros _. eexists. split; [reflexivity|].
        unfold count. rewrite <- ordered_trail_length, Htrail. reflexivity.
  - intros Hfits. rewrite get_audit_trail_too_large by exact Hfits. cbn [bind].
    split; reflexivity.
Qed.

Lemma audit_trail_answer_witness :
  (exists trail,
     get_audit_trail store_with_mehta 1 = Returns trail
     /\ get_audit_trail_endpoint store_with_mehta 1
        = Returns (Main.Ok {| trail_case_id := 1;
                              total_events := 1;
                              audit_trail := trail |}))
  /\ get_audit_trail_endpoint store_with_mehta 7
     = Returns (Main.HTTPException 404 "No audit trail found for this case")
  /\ status_code (get_audit_trail_endpoint store_with_mehta (2 ^ 63)) = 500.
Proof.
  destruct (audit_trail_answer store_with_mehta 1) as [Hone _].
  destruct (Hone ltac:(vm_compute; reflexivity)) as [_ Hfound].
  destruct (audit_trail_answer store_with_mehta 7) as [Hseven _].
  destruct (Hseven ltac:(vm_compute; reflexivity)) as [[_ Hnone] _].
  destruct (audit_trail_answer store_with_mehta (2 ^ 63)) as [_ Hlarge].
  split; [|split].
  - destruct Hfound as (trail & Htrail & Hanswer).
    { eexists. split; [vm_compute; left; reflexivity | reflexivity]. }
    exists trail. split; [exact Htrail | exact Hanswer].
  - apply Hnone. intros row Hin. vm_compute in Hin.
    destruct Hin as [<-|[]]. vm_compute. discriminate.
  - apply Hlarge. vm_compute. reflexivity.
Defined.

(** X26.  For an id that SQLite can hold and no case has, an approval is
    answered with 404 and leaves the store as it was, while a rejection,
    with a row id left in the log, is answered with success: afterwards the
    case is still not found, and yet it has an audit trail.  For an id
    outside the signed 64-bit range both are answered with 500 and the text
    of the [OverflowError], the store as it was, and the read of the case
    lets the error pass. *)
Theorem rejecting_an_unknown_case_succeeds :
  forall (dumps_approval : ApprovalAudit -> string)
         (operational_error : string -> list string -> string) (db : Db)
         (now_approve now_audit : string) (unknown : Z) (analyst text : string),
    let approval :=
      approve_sar_endpoint dumps_approval operational_error db now_approve now_audit
        {| approval_case_id := unknown;
           approval_analyst_name := analyst;
           Server.edited_narrative := text |} in
    let rejection :=
      reject_sar_endpoint operational_error db now_audit
        {| reject_case_id := unknown; reject_analyst_name := analyst; reason := text |} in
    (get_case db unknown = Returns None ->
     approval = (db, Main.HTTPException 404 "Case not found")
     /\ (has_room (map audit_id (audit_log db)) = true ->
         exists db' trail,
           rejection
           = (db', Main.Ok {| success := true;
                              response_case_id := unknown;
                              response_status := "REJECTED";
                              message := "SAR sent back for revision." |})
           /\ get_case_endpoint db' unknown
              = Returns (Main.HTTPException 404 "Case not found")
           /\ get_audit_trail_endpoint db' unknown = Returns (Main.Ok trail)
           /\ 1 <= total_events trail))
    /\ (fits_int64 unknown = false ->
        approval = (db, Main.HTTPException 500 int_too_large)
        /\ rejection = (db, Main.HTTPException 500 int_too_large)
        /\ get_case_endpoint db unknown = Raises int_too_large).
Proof.
  intros dumps_approval operational_error db now_approve now_audit unknown analyst text
         approval rejection.
  subst approval rejection. unfold approve_sar_endpoint, reject_sar_endpoint.
  cbn [approval_case_id reject_case_id reject_analyst_name reason].
  split.
  - intros Hnone. rewrite Hnone. split; [reflexivity|].
    intros Hlog. apply get_case_returns in Hnone. destruct Hnone as [Hfits Hnone].
    rewrite save_audit_returns by assumption.
    set (db' := {| cases := cases db; audit_log := _ |}).
    assert (Htrail : exists first trail, ordered_trail db' unknown = first :: trail).
    { pose proof (ordered_trail_length db' unknown) as Hlen.
      destruct (ordered_trail db' unknown) as [|first trail] eqn:Hnil; [|eauto].
      exfalso. try rewrite Hnil in Hlen. subst db'. cbn [audit_log] in Hlen.
      rewrite filter_app, length_app in Hlen.
      cbn [filter case_id] in Hlen. rewrite Z.eqb_refl in Hlen.
      cbn [List.length] in Hlen. lia. }
    destruct Htrail as (first & trail & Htrail).
    exists db'. eexists. split; [reflexivity|].
    split.
    + unfold get_case_endpoint. rewrite get_case_fits by exact Hfits.
      subst db'. cbn [cases bind]. rewrite Hnone. reflexivity.
    + unfold get_audit_trail_endpoint. rewrite get_audit_trail_fits by exact Hfits.
      cbn [bind]. rewrite Htrail.
      split; [reflexivity|]. cbn [total_events List.length]. lia.
  - intros Hfits. rewrite get_case_too_large by exact Hfits.
    rewrite save_audit_too_large by exact Hfits.
    unfold get_case_endpoint. rewrite get_case_too_large by exact Hfits.
    repeat split.
Qed.

Lemma rejecting_an_unknown_case_succeeds_witness :
  get_case store_with_mehta 7 = Returns None
  /\ approve_sar_endpoint approval_text plain_error store_with_mehta
       "2026-02-08 09:00:00.000000" "2026-02-08 09:00:00.050000"
       {| approval_case_id := 7;
          approval_analyst_name := "P. Verma";
          Server.edited_narrative := "no such case" |}
     = (store_with_mehta, Main.HTTPException 404 "Case not found")
  /\ (exists db' trail,
        reject_sar_endpoint plain_error store_with_mehta "2026-02-08 09:00:00.050000"
          {| reject_case_id := 7; reject_analyst_name := "P. Verma";
             reason := "no such case" |}
        = (db', Main.Ok {| success := true;
                           response_case_id := 7;
                           response_status := "REJECTED";
                           message := "SAR sent back for revision." |})
        /\ get_case_endpoint db' 7 = Returns (Main.HTTPException 404 "Case not found")
        /\ get_audit_trail_endpoint db' 7 = Returns (Main.Ok trail)
        /\ 1 <= total_events trail)
  /\ approve_sar_endpoint approval_text plain_error store_with_mehta
       "2026-02-08 09:00:00.000000" "2026-02-08 09:00:00.050000"
       {| approval_case_id := 2 ^ 63;
          approval_analyst_name := "P. Verma";
          Server.edited_narrative := "no such case" |}
     = (store_with_mehta, Main.HTTPException 500 int_too_large).
Proof.
  assert (Hnone : get_case store_with_mehta 7 = Returns None) by (vm_compute; reflexivity).
  split; [exact Hnone|].
  destruct (rejecting_an_unknown_case_succeeds approval_text plain_error store_with_mehta
              "2026-02-08 09:00:00.000000" "2026-02-08 09:00:00.050000" 7
              "P. Verma" "no such case") as [Hseven _].
  destruct (Hseven Hnone) as [Happroval Hrejection].
  split; [exact Happroval|].
  split; [apply Hrejection; vm_compute; reflexivity|].
  apply (rejecting_an_unknown_case_succeeds approval_text plain_error store_with_mehta
           "2026-02-08 09:00:00.000000" "2026-02-08 09:00:00.050000" (2 ^ 63)
           "P. Verma" "no such case").
  vm_compute. reflexivity.
Defined.

End ServerSpec.

(* ================================================================== *)
(** ** The handler of [/generate-sar] when the database fails *)
(* ================================================================== *)

Module MainMore.
Import PyStr Exc PyJson Services Pipeline Main FieldJson PipelineSpec.

(** A database whose file cannot be written: the text of the error names
    the parameters of the statement that was refused. *)
Definition readonly_db : Database :=
  {| save_case := fun cn an _ _ _ _ _ =>
       Raises ("(sqlite3.OperationalError) attempt to write a readonly database " ++
               "[parameters: " ++ cn ++ ", " ++ an ++ "]");
     save_audit := fun _ action _ _ _ =>
       Raises ("(sqlite3.OperationalError) attempt to write a readonly database " ++
               "[parameters: " ++ action ++ "]") |}.

(** A database that takes the case and then loses the file. *)
Definition lost_after_case_db : Database :=
  {| save_case := fun _ _ _ _ _ _ _ => Returns 1%Z;
     save_audit := fun _ action _ _ _ =>
       Raises ("(sqlite3.OperationalError) unable to open database file " ++
               "[parameters: " ++ action ++ "]") |}.

(** The database calls of the handler as the store answers them, the clock
    at [now_case] and [now_audit]. *)
Definition store_view (operational_error : string -> list string -> string)
    (db : Database.Db) (now_case now_audit : string) : Database :=
  {| save_case := fun cn an tx analyst sar rs ty =>
       snd (Database.save_case operational_error db now_case
              [ ("customer_name", cn); ("account_number", an);
                ("transactions", tx); ("analyst_name", analyst) ] sar rs ty);
     save_audit := fun case_id action analyst detail data =>
       snd (Database.save_audit operational_error db now_audit case_id action analyst
              detail data) |}.

(** The handler on the store answers as the handler on the database calls
    that the store answers. *)
Lemma handler_on_store_answers_alike json operational_error chroma_client llm db
    now_case now_audit case_input :
  snd (Server.generate_sar_endpoint json operational_error chroma_client llm db
         now_case now_audit case_input)
  = generate_sar_endpoint json chroma_client llm
      (store_view operational_error db now_case now_audit) case_input.
Proof.
  unfold Server.generate_sar_endpoint, generate_sar_endpoint.
  destruct (generate_sar json chroma_client llm _ _ _) as [result|e]; [|reflexivity].
  cbn [bind store_view save_case save_audit].
  unfold Database.save_case.
  destruct (Database.fits_int64 (risk_score result)); cbn [negb snd]; [|reflexivity].
  destruct (Database.has_room (map Database.id (Database.cases db)));
    cbn [negb snd bind]; [|reflexivity].
  unfold Database.save_audit. cbn [Database.audit_log].
  destruct (Database.fits_int64 _); cbn [negb snd bind]; [|reflexivity].
  destruct (Database.has_room (map Database.audit_id (Database.audit_log db)));
    cbn [negb snd bind]; [|reflexivity].
  destruct (loads json (audit_data result)); reflexivity.
Qed.

(** X27.  When the write of the case that the handler asks for raises, or
    the write of its audit row after the case was saved, the handler answers
    500 and puts the text of the error after the words
    "SAR generation failed: ". *)
Theorem database_failure_answers_500 :
  forall (json : Json) (chroma_client : Chroma) (llm : Llm) (db : Database)
         (case_input : CaseInput) (result : SarResult) (e : string),
    generate_sar json chroma_client llm (ServerSpec.full_text case_input)
      (customer_name case_input) (account_number case_input)
    = Returns result ->
    (save_case db (customer_name case_input) (account_number case_input)
       (ServerSpec.full_text case_input) (analyst_name case_input)
       (narrative result) (risk_score result) (typology result)
     = Raises e
     \/ exists new_id,
          save_case db (customer_name case_input) (account_number case_input)
            (ServerSpec.full_text case_input) (analyst_name case_input)
            (narrative result) (risk_score result) (typology result)
          = Returns new_id
          /\ save_audit db new_id "SAR_GENERATED" (analyst_name case_input)
               ("SAR generated. Risk Score: " ++ str_of_int (risk_score result) ++
                "/100. Typology: " ++ typology result)
               (audit_data result)
             = Raises e) ->
    generate_sar_endpoint json chroma_client llm db case_input
    = HTTPException 500 ("SAR generation failed: " ++ e).
Proof.
  intros json chroma_client llm db case_input result e Hresult Hfail.
  unfold generate_sar_endpoint. rewrite ServerSpec.full_text_eq, Hresult.
  cbn [bind]. destruct Hfail as [Hcase | (new_id & Hcase & Haudit)].
  - rewrite Hcase. reflexivity.
  - rewrite Hcase. cbn [bind]. rewrite Haudit. reflexivity.
Qed.

Lemma database_failure_answers_500_witness :
  generate_sar_endpoint field_json unreachable_chroma offline_llm readonly_db
    {| customer_name := "R. Mehta";
       account_number := "ACC-1042";
       transactions := "9 cash deposits of 49,000 each";
       analyst_name := "P. Verma";
       additional_context := None |}
  = HTTPException 500
      ("SAR generation failed: (sqlite3.OperationalError) attempt to write a " ++
       "readonly database [parameters: R. Mehta, ACC-1042]")
  /\ generate_sar_endpoint field_json unreachable_chroma offline_llm lost_after_case_db
       {| customer_name := "R. Mehta";
          account_number := "ACC-1042";
          transactions := "9 cash deposits of 49,000 each";
          analyst_name := "P. Verma";
          additional_context := None |}
     = HTTPException 500
         ("SAR generation failed: (sqlite3.OperationalError) unable to open " ++
          "database file [parameters: SAR_GENERATED]").
Proof.
  split.
  - eapply (database_failure_answers_500 field_json unreachable_chroma offline_llm
              readonly_db
              {| customer_name := "R. Mehta";
                 account_number := "ACC-1042";
                 transactions := "9 cash deposits of 49,000 each";
                 analyst_name := "P. Verma";
                 additional_context := None |}).
    + vm_compute. reflexivity.
    + left. reflexivity.
  - eapply (database_failure_answers_500 field_json unreachable_chroma offline_llm
              lost_after_case_db
              {| customer_name := "R. Mehta";
                 account_number := "ACC-1042";
                 transactions := "9 cash deposits of 49,000 each";
                 analyst_name := "P. Verma";
                 additional_context := None |}).
    + vm_compute. reflexivity.
    + right. exists 1%Z. split; reflexivity.
Defined.

End MainMore.
